(** * SupaPanel: domain routing of a project, verified against the source

    A shallow embedding of [src/lib/traefik.ts] (the Traefik dynamic
    configuration generator, the port reader and the DNS check) and of the
    route handlers [PUT]/[DELETE /api/projects/[id]/domain] and
    [PUT /api/settings/panel-domain].

    Modelling conventions.
    - A JavaScript string is a [string]: a sequence of code units in the
      range 0..255.  A value that may be [undefined], [null] or a string
      is a [jsval]; the fields [domain] and [studioDomain] of a request
      body are such values ([undefined] when the key is absent).
    - A JavaScript number is [NaN], an infinity or an integer [Int z],
      which are the values that [parseInt] returns.  Every integer up to
      2^53 is a number; a larger one is rounded to the nearest double
      where the code reads it.
    - Asynchronous functions are run to completion one after the other:
      [await] is sequencing, a rejected promise is a thrown error.
    - The database (Prisma) and the file system are reliable stores: a
      call fails only where its contract says so ([update] of a missing
      record, [unlink] of a missing file).
    - [console.log] and [console.error] have no effect on the state that
      is modelled. *)

From Stdlib Require Import ZArith Ascii String List Bool Lia.
From Stdlib Require Import DecimalString DecimalPos DecimalZ.
From stdpp Require Import base option list gmap strings.

Open Scope Z_scope.

(** ** JavaScript values *)

Module Js.

(** The double quote and the line feed, as one-character strings. *)
Definition dq : string := String "034"%char EmptyString.
Definition nl : string := String "010"%char EmptyString.

(** A string is truthy when it is not empty. *)
Definition truthy (s : string) : bool :=
  match s with
  | EmptyString => false
  | String _ _ => true
  end.

(** [undefined], [null], or a string. *)
Inductive jsval : Type :=
| Undefined
| Null
| Str (s : string).

Definition truthy_val (v : jsval) : bool :=
  match v with
  | Str s => truthy s
  | _ => false
  end.

(** A nullable column of the database: [null] or a string. *)
Definition truthy_opt (o : option string) : bool :=
  match o with
  | Some s => truthy s
  | None => false
  end.

(** [a || b] where [b] is a string literal. *)
Definition or_default (o : option string) (d : string) : string :=
  match o with
  | Some s => if truthy s then s else d
  | None => d
  end.

(** [v || null], as stored in a nullable column. *)
Definition or_null (v : jsval) : option string :=
  match v with
  | Str s => if truthy s then Some s else None
  | _ => None
  end.

(** [v || o]: the request value when truthy, else the stored one. *)
Definition or_stored (v : jsval) (o : option string) : option string :=
  match v with
  | Str s => if truthy s then Some s else o
  | _ => o
  end.

(** A number: [NaN], an integer, or an infinity.  The integers that the
    program holds are doubles; [Int z] for another [z] is read as the
    double nearest to [z]. *)
Inductive number : Type :=
| NaN
| Int (z : Z)
| Infinity (negative : bool).

(** The Number value of a mathematical integer: every integer up to
    2^53 is a double; a larger one is rounded to 53 significant bits,
    a tie going to the even significand, and to an infinity from 2^1024
    on. *)
Definition to_number (z : Z) : number :=
  let a := Z.abs z in
  if a <=? 9007199254740992 then Int z
  else
    let e := Z.log2 a - 52 in
    let q := a / 2 ^ e in
    let r := a mod 2 ^ e in
    let half := 2 ^ (e - 1) in
    let q := if (r <? half) || ((r =? half) && Z.even q) then q else q + 1 in
    if 2 ^ 1024 <=? q * 2 ^ e then Infinity (z <? 0) else Int (Z.sgn z * (q * 2 ^ e)).

(** The decimal digits of an integer. *)
Definition decimal (z : Z) : string := NilZero.string_of_int (Z.to_int z).

Definition rounds_to (x v : Z) : bool :=
  match to_number v with
  | Int y => y =? x
  | _ => false
  end.

(** The [k] digits [s] with which [s * 10^(n-k)] is read back as [x],
    if there are such: the multiple next to [x] below or above, the
    nearer of the two, the even one when they are as near. *)
Definition digits_at (x n k : Z) : option Z :=
  let scale := 10 ^ (n - k) in
  let lo := x / scale in
  let hi := lo + 1 in
  let ok s := (10 ^ (k - 1) <=? s) && (s <? 10 ^ k) && rounds_to x (s * scale) in
  match ok lo, ok hi with
  | true, true =>
      let below := x - lo * scale in
      let above := hi * scale - x in
      if below <? above then Some lo
      else if above <? below then Some hi
      else if Z.even lo then Some lo else Some hi
  | true, false => Some lo
  | false, true => Some hi
  | false, false => None
  end.

(** The digits for the least [k] of [ks] that has some. *)
Fixpoint shortest (x n : Z) (ks : list Z) : Z * Z :=
  match ks with
  | [] => (x, n)
  | k :: ks =>
      match digits_at x n k with
      | Some s => (s, k)
      | None => shortest x n ks
      end
  end.

Definition zeros (n : Z) : string := String.concat EmptyString (repeat "0" (Z.to_nat n)).

(** [Number::toString] of a positive integer [x]: up to 2^53 its
    decimal digits; above, the fewest digits [s] that are read back as
    [x], followed by zeros while [x] is below 10^21 and in exponent
    notation from there on. *)
Definition positive_to_string (x : Z) : string :=
  if x <=? 9007199254740992 then decimal x
  else
    let n := Z.of_nat (String.length (decimal x)) in
    let '(s, k, n) :=
      if rounds_to x (10 ^ n) then (1, 1, n + 1)
      else let '(s, k) := shortest x n (map Z.of_nat (seq 1 (Z.to_nat n))) in (s, k, n) in
    if n <=? 21 then decimal s +:+ zeros (n - k)
    else
      match decimal s with
      | String d EmptyString => String d ("e+" +:+ decimal (n - 1))
      | String d ds => String d ("." +:+ ds +:+ "e+" +:+ decimal (n - 1))
      | EmptyString => EmptyString
      end.

(** Number to string, as a template literal does it. *)
Definition number_to_string (n : number) : string :=
  match n with
  | NaN => "NaN"
  | Infinity false => "Infinity"
  | Infinity true => "-Infinity"
  | Int z =>
      match to_number z with
      | Int x => if x <? 0 then "-" +:+ positive_to_string (- x) else positive_to_string x
      | Infinity false => "Infinity"
      | Infinity true => "-Infinity"
      | NaN => "NaN"
      end
  end.

(** *** [parseInt(s, 10)] *)

Definition code (c : ascii) : N := N_of_ascii c.

Definition in_range (lo hi c : ascii) : bool :=
  (code lo <=? code c)%N && (code c <=? code hi)%N.

Definition is_digit (c : ascii) : bool := in_range "0" "9" c.

Definition digit_value (c : ascii) : Z := Z.of_N (code c) - 48.

(** White space and line terminators among the code units 0..255:
    TAB, LF, VT, FF, CR, SP and NBSP. *)
Definition is_white (c : ascii) : bool :=
  let n := code c in
  ((9 <=? n) && (n <=? 13) || (n =? 32) || (n =? 160))%N.

Fixpoint trim_start (s : string) : string :=
  match s with
  | String c r => if is_white c then trim_start r else s
  | EmptyString => s
  end.

(** The sign, and the string after it. *)
Definition split_sign (s : string) : Z * string :=
  match s with
  | String "-" r => (-1, r)
  | String "+" r => (1, r)
  | _ => (1, s)
  end.

(** The longest prefix of decimal digits. *)
Fixpoint digits_prefix (s : string) : list ascii :=
  match s with
  | String c r => if is_digit c then c :: digits_prefix r else []
  | EmptyString => []
  end.

Definition digits_value (ds : list ascii) : Z :=
  fold_left (fun acc c => 10 * acc + digit_value c) ds 0.

(** White space is skipped, one sign is read, and the longest prefix of
    decimal digits that follows is the integer, as the Number value
    nearest to it; with no digit there the result is [NaN]. *)
Definition parseInt (s : string) : number :=
  let '(sign, body) := split_sign (trim_start s) in
  match digits_prefix body with
  | [] => NaN
  | ds => to_number (sign * digits_value ds)
  end.

(** Does the string begin, after white space and one optional sign,
    with a decimal digit? *)
Definition starts_numeric (s : string) : bool :=
  match snd (split_sign (trim_start s)) with
  | String c _ => is_digit c
  | EmptyString => false
  end.

End Js.
Export Js.

(** ** Errors and results *)

Inductive error : Type :=
| ENOENT                      (* unlink: no such file *)
| DnsError (code : string)    (* ENOTFOUND, ENODATA, ETIMEOUT, EBADNAME, ... *)
| ImportError                 (* a dynamic import that fails *)
| RecordNotFound.             (* Prisma: update of a missing record *)

Inductive outcome (A : Type) : Type :=
| Ok (a : A)
| Throw (e : error).
Arguments Ok {A} a.
Arguments Throw {A} e.

(** ** Regular expressions *)

Module Regex.

(** A character class is a list of ranges; a single character [c] in a
    class is the range [c-c]. *)
Inductive regex : Type :=
| Zero
| Eps
| Class (ranges : list (ascii * ascii))
| Cat (r1 r2 : regex)
| Alt (r1 r2 : regex)
| Star (r : regex).

Definition Chr (c : ascii) : regex := Class [(c, c)].

(** [r{n,}] *)
Fixpoint at_least (n : nat) (r : regex) : regex :=
  match n with
  | O => Star r
  | S k => Cat r (at_least k r)
  end.

Definition in_class (ranges : list (ascii * ascii)) (c : ascii) : bool :=
  existsb (fun '(lo, hi) => in_range lo hi c) ranges.


Fixpoint nullable (r : regex) : bool :=
  match r with
  | Zero => false
  | Eps => true
  | Class _ => false
  | Cat r1 r2 => nullable r1 && nullable r2
  | Alt r1 r2 => nullable r1 || nullable r2
  | Star _ => true
  end.

Fixpoint deriv (c : ascii) (r : regex) : regex :=
  match r with
  | Zero => Zero
  | Eps => Zero
  | Class rs => if in_class rs c then Eps else Zero
  | Cat r1 r2 =>
      if nullable r1
      then Alt (Cat (deriv c r1) r2) (deriv c r2)
      else Cat (deriv c r1) r2
  | Alt r1 r2 => Alt (deriv c r1) (deriv c r2)
  | Star r1 => Cat (deriv c r1) (Star r1)
  end.

(** Does the whole string match? *)
Fixpoint accepts (r : regex) (s : string) : bool :=
  match s with
  | EmptyString => nullable r
  | String c s' => accepts (deriv c r) s'
  end.

End Regex.
Export Regex.

(** The pattern of the three handlers:
    [/^[a-zA-Z0-9][a-zA-Z0-9-_.]*\.[a-zA-Z]{2,}$/].
    In a class, a [-] that follows a range is a literal hyphen. *)
Definition alnum_ranges : list (ascii * ascii) :=
  [("a", "z"); ("A", "Z"); ("0", "9")]%char.
Definition inner_ranges : list (ascii * ascii) :=
  [("a", "z"); ("A", "Z"); ("0", "9"); ("-", "-"); ("_", "_"); (".", ".")]%char.
Definition letter_ranges : list (ascii * ascii) :=
  [("a", "z"); ("A", "Z")]%char.

Definition domainRegex : regex :=
  Cat (Class alnum_ranges)
      (Cat (Star (Class inner_ranges))
           (Cat (Chr ".") (at_least 2 (Class letter_ranges)))).

(** [domainRegex.test(s)]: the pattern is anchored at both ends and has
    no flag, so the test is a match of the whole string. *)
Definition domainRegex_test (s : string) : bool := accepts domainRegex s.

(** ** The stores and the outside world *)

(** The rows of the [Project] table are keyed by their [id]; the columns
    are those the domain handlers read and write. *)
Module Db.

Record EnvVar : Type := { key : string; value : string }.

Record Project : Type := {
  slug : string;
  domain : option string;
  domainVerified : bool;
  studioDomain : option string;
  studioDomainVerified : bool;
  envVars : list EnvVar;
}.

End Db.

Record State : Type := {
  projects : gmap string Db.Project;       (* prisma.project *)
  panelSettings : gmap string string;      (* prisma.panelSettings: key, value *)
  files : gmap string string;              (* file path, content *)
}.

Definition set_projects (st : State) (ps : gmap string Db.Project) : State :=
  {| projects := ps; panelSettings := panelSettings st; files := files st |}.

Definition set_panelSettings (st : State) (kv : gmap string string) : State :=
  {| projects := projects st; panelSettings := kv; files := files st |}.

Definition set_files (st : State) (fs : gmap string string) : State :=
  {| projects := projects st; panelSettings := panelSettings st; files := fs |}.

(** The promises API of Node's [dns] module. *)
Record DnsPromises : Type := {
  resolve4 : string -> outcome (list string);   (* A records *)
  resolve6 : string -> outcome (list string);   (* AAAA records *)
}.

Record World : Type := {
  SUPAPANEL_MODE : option string;          (* process.env.SUPAPANEL_MODE *)
  cwd : string;                            (* process.cwd() *)
  now : string;                            (* new Date().toISOString() *)
  import_dns : outcome DnsPromises;        (* import('dns').then(m => m.promises) *)
  validateSession : string -> bool;        (* does the token name a live session? *)
}.

(** ** Computations on the stores that may throw *)

Definition M (A : Type) : Type := State -> outcome A * State.

Definition ret {A} (a : A) : M A := fun st => (Ok a, st).

Definition throw {A} (e : error) : M A := fun st => (Throw e, st).

Definition bind {A B} (m : M A) (k : A -> M B) : M B :=
  fun st =>
    match m st with
    | (Ok a, st') => k a st'
    | (Throw e, st') => (Throw e, st')
    end.

(** [try { m } catch (e) { h e }]: the writes of [m] are kept. *)
Definition try_catch {A} (m : M A) (h : error -> M A) : M A :=
  fun st =>
    match m st with
    | (Ok a, st') => (Ok a, st')
    | (Throw e, st') => h e st'
    end.

(** A call that reads the world only. *)
Definition lift {A} (o : outcome A) : M A := fun st => (o, st).

Notation "x <- m ;; k" := (bind m (fun x => k))
  (at level 100, m at next level, right associativity).
Notation "m ;; k" := (bind m (fun _ => k))
  (at level 100, right associativity).

(** *** The file system *)

Module Fs.

(** [path.join(a, b)] on POSIX, for a normalised [a] other than the
    root and a [b] that is one file or directory name (no [/]), as a
    slug followed by [.yml] is. *)
Definition join (a b : string) : string := a +:+ "/" +:+ b.

(** The file system is a reliable store: the directory of the routing
    files is there or can be made, and a write into it succeeds.
    Directories are not part of the state.  What the code does when
    [mkdir] or [writeFile] is rejected (a slug with a [/] whose
    directory is missing, an I/O fault) is outside the model:
    [generateProjectTraefikConfig] lets the rejection go to its
    caller, [removePanelTraefikConfig] catches it. *)

(** [fs.mkdir(dir, {recursive: true})] *)
Definition mkdir (dir : string) : M unit := ret tt.

(** [fs.writeFile(path, content)] *)
Definition writeFile (path content : string) : M unit :=
  fun st => (Ok tt, set_files st (<[path := content]> (files st))).

Definition unlink (path : string) : M unit :=
  fun st =>
    match files st !! path with
    | Some _ => (Ok tt, set_files st (delete path (files st)))
    | None => (Throw ENOENT, st)
    end.

End Fs.

(** *** Prisma *)

Module Prisma.

(** [prisma.project.findUnique({where: {id}})] *)
Definition findUnique (id : string) : M (option Db.Project) :=
  fun st => (Ok (projects st !! id), st).

(** [prisma.project.findFirst({where: {domain, id: {not: id}}})]: only
    whether a row is found is used. *)
Definition findFirst_domain (d id : string) : M bool :=
  fun st =>
    (Ok (bool_decide
           (map_Exists (fun i p => Db.domain p = Some d /\ i <> id) (projects st))),
     st).

(** [prisma.project.findFirst({where: {studioDomain, id: {not: id}}})] *)
Definition findFirst_studioDomain (d id : string) : M bool :=
  fun st =>
    (Ok (bool_decide
           (map_Exists (fun i p => Db.studioDomain p = Some d /\ i <> id) (projects st))),
     st).

(** [prisma.project.update({where: {id}, data})]: the data is given as
    the function it applies to the row; the new row is returned. *)
Definition update (id : string) (data : Db.Project -> Db.Project) : M Db.Project :=
  fun st =>
    match projects st !! id with
    | Some p => (Ok (data p), set_projects st (<[id := data p]> (projects st)))
    | None => (Throw RecordNotFound, st)
    end.

(** [prisma.panelSettings.upsert({where: {key}, update: {value},
    create: {key, value}})] *)
Definition upsert (k v : string) : M unit :=
  fun st => (Ok tt, set_panelSettings st (<[k := v]> (panelSettings st))).

End Prisma.

(** ** [src/lib/traefik.ts] *)

Module Traefik.

(** The lines of a template literal, joined by line feeds. *)
Definition lines (l : list string) : string := String.concat nl l.

Definition getTraefikDynamicPath (w : World) : string :=
  let mode := or_default (SUPAPANEL_MODE w) "development" in
  if String.eqb mode "production"
  then "/etc/supapanel/traefik/dynamic"
  else Fs.join (Fs.join (cwd w) "traefik") "dynamic".

Module Config.
Record TraefikConfig : Type := {
  projectSlug : string;
  domain : string;                 (* API domain (Kong) *)
  studioDomain : option string;    (* Studio domain; [None] is undefined *)
  kongPort : number;
  studioPort : number;
}.
End Config.
Export Config (TraefikConfig).

(** The text appended to [routersConfig] for the API domain. *)
Definition api_routers (projectSlug domain : string) : string :=
  lines [
    EmptyString;
    "    # Main API router (Kong gateway)";
    "    " +:+ projectSlug +:+ "-api:";
    "      rule: " +:+ dq +:+ "Host(`" +:+ domain +:+ "`)" +:+ dq;
    "      entryPoints:";
    "        - websecure";
    "      service: " +:+ projectSlug +:+ "-api";
    "      tls:";
    "        certResolver: letsencrypt";
    "      priority: 10";
    "    ";
    "    # HTTP redirect for API";
    "    " +:+ projectSlug +:+ "-api-http:";
    "      rule: " +:+ dq +:+ "Host(`" +:+ domain +:+ "`)" +:+ dq;
    "      entryPoints:";
    "        - web";
    "      middlewares:";
    "        - https-redirect";
    "      service: " +:+ projectSlug +:+ "-api";
    "      priority: 5" ].

(** The text appended to [servicesConfig] for the API domain. *)
Definition api_services (projectSlug : string) (kongPort : number) : string :=
  lines [
    EmptyString;
    "    " +:+ projectSlug +:+ "-api:";
    "      loadBalancer:";
    "        servers:";
    "          - url: " +:+ dq +:+ "http://" +:+ projectSlug +:+ "-kong:"
      +:+ number_to_string kongPort +:+ dq;
    "        healthCheck:";
    "          path: /health";
    "          interval: 30s";
    "          timeout: 5s" ].

(** The text appended to [routersConfig] for the Studio domain. *)
Definition studio_routers (projectSlug studioDomain : string) : string :=
  lines [
    EmptyString;
    "    ";
    "    # Studio router";
    "    " +:+ projectSlug +:+ "-studio:";
    "      rule: " +:+ dq +:+ "Host(`" +:+ studioDomain +:+ "`)" +:+ dq;
    "      entryPoints:";
    "        - websecure";
    "      service: " +:+ projectSlug +:+ "-studio";
    "      tls:";
    "        certResolver: letsencrypt";
    "      priority: 10";
    "    ";
    "    # HTTP redirect for Studio";
    "    " +:+ projectSlug +:+ "-studio-http:";
    "      rule: " +:+ dq +:+ "Host(`" +:+ studioDomain +:+ "`)" +:+ dq;
    "      entryPoints:";
    "        - web";
    "      middlewares:";
    "        - https-redirect";
    "      service: " +:+ projectSlug +:+ "-studio";
    "      priority: 5" ].

(** The text appended to [servicesConfig] for the Studio domain. *)
Definition studio_services (projectSlug : string) (studioPort : number) : string :=
  lines [
    EmptyString;
    "    ";
    "    " +:+ projectSlug +:+ "-studio:";
    "      loadBalancer:";
    "        servers:";
    "          - url: " +:+ dq +:+ "http://" +:+ projectSlug +:+ "-studio:"
      +:+ number_to_string studioPort +:+ dq ].

(** The content of the file, [traefikConfig]. *)
Definition traefikConfig (w : World) (config : TraefikConfig) : string :=
  let projectSlug := Config.projectSlug config in
  let domain := Config.domain config in
  let studioDomain := Config.studioDomain config in
  let kongPort := Config.kongPort config in
  let studioPort := Config.studioPort config in
  let routersConfig := EmptyString in
  let servicesConfig := EmptyString in
  let '(routersConfig, servicesConfig) :=
    if truthy domain
    then (routersConfig +:+ api_routers projectSlug domain,
          servicesConfig +:+ api_services projectSlug kongPort)
    else (routersConfig, servicesConfig) in
  let '(routersConfig, servicesConfig) :=
    match studioDomain with
    | Some studioDomain =>
        if truthy studioDomain
        then (routersConfig +:+ studio_routers projectSlug studioDomain,
              servicesConfig +:+ studio_services projectSlug studioPort)
        else (routersConfig, servicesConfig)
    | None => (routersConfig, servicesConfig)
    end in
  lines [
    "# Auto-generated Traefik routing for project: " +:+ projectSlug;
    "# API Domain: " +:+ or_default (Some domain) "not configured";
    "# Studio Domain: " +:+ or_default studioDomain "not configured";
    "# Generated at: " +:+ now w;
    EmptyString;
    "http:";
    "  routers:" +:+ routersConfig;
    EmptyString;
    "  middlewares:";
    "    https-redirect:";
    "      redirectScheme:";
    "        scheme: https";
    "        permanent: true";
    EmptyString;
    "  services:" +:+ servicesConfig;
    EmptyString ].

Definition configPath (w : World) (projectSlug : string) : string :=
  Fs.join (getTraefikDynamicPath w) (projectSlug +:+ ".yml").

Definition generateProjectTraefikConfig (w : World) (config : TraefikConfig) : M unit :=
  let traefikConfig := traefikConfig w config in
  let configPath := configPath w (Config.projectSlug config) in
  Fs.mkdir (getTraefikDynamicPath w) ;;
  Fs.writeFile configPath traefikConfig ;;
  ret tt.

Definition updateProjectDomain (w : World) (projectSlug newDomain : string)
    (kongPort studioPort : number) : M unit :=
  generateProjectTraefikConfig w
    {| Config.projectSlug := projectSlug;
       Config.domain := newDomain;
       Config.studioDomain := None;
       Config.kongPort := kongPort;
       Config.studioPort := studioPort |}.

(** The error of [unlink] is caught; only its log line depends on the
    error code. *)
Definition removeProjectTraefikConfig (w : World) (projectSlug : string) : M unit :=
  let configPath := configPath w projectSlug in
  try_catch
    (Fs.unlink configPath ;;
     ret tt)
    (fun error =>
       match error with
       | ENOENT => ret tt
       | _ => ret tt
       end).

Record Ports : Type := { kongPort : number; studioPort : number }.

Definition getProjectPorts (envVars : gmap string string) : Ports :=
  {| kongPort := parseInt (or_default (envVars !! "KONG_HTTP_PORT") "8000");
     studioPort := parseInt (or_default (envVars !! "STUDIO_PORT") "3000") |}.

Definition verifyDomainDNS (w : World) (domain : string) : M bool :=
  try_catch
    (dns <- lift (import_dns w) ;;
     addresses <- lift (resolve4 dns domain) ;;
     ret (0 <? length addresses)%nat)
    (fun _ => ret false).

(** The content of [panel.yml]. *)
Definition panelTraefikConfig (w : World) (domain : string) : string :=
  lines [
    "# Auto-generated Traefik routing for SupaPanel";
    "# Domain: " +:+ domain;
    "# Generated at: " +:+ now w;
    EmptyString;
    "http:";
    "  routers:";
    "    # Panel HTTPS router";
    "    supapanel:";
    "      rule: " +:+ dq +:+ "Host(`" +:+ domain +:+ "`)" +:+ dq;
    "      entryPoints:";
    "        - websecure";
    "      service: supapanel";
    "      tls:";
    "        certResolver: letsencrypt";
    "      priority: 100";
    "    ";
    "    # Panel HTTP redirect router";
    "    supapanel-http:";
    "      rule: " +:+ dq +:+ "Host(`" +:+ domain +:+ "`)" +:+ dq;
    "      entryPoints:";
    "        - web";
    "      middlewares:";
    "        - https-redirect";
    "      service: supapanel";
    "      priority: 50";
    EmptyString;
    "  middlewares:";
    "    https-redirect:";
    "      redirectScheme:";
    "        scheme: https";
    "        permanent: true";
    EmptyString;
    "  services:";
    "    supapanel:";
    "      loadBalancer:";
    "        servers:";
    "          - url: " +:+ dq +:+ "http://supapanel-panel:3000" +:+ dq;
    EmptyString ].

Definition generatePanelTraefikConfig (w : World) (domain : string) : M unit :=
  let configPath := Fs.join (getTraefikDynamicPath w) "panel.yml" in
  Fs.mkdir (getTraefikDynamicPath w) ;;
  Fs.writeFile configPath (panelTraefikConfig w domain) ;;
  ret tt.

Definition emptyConfig : string :=
  lines [
    "# SupaPanel Panel Routing";
    "# No custom domain configured - access via IP:3000";
    EmptyString ].

Definition removePanelTraefikConfig (w : World) : M unit :=
  let configPath := Fs.join (getTraefikDynamicPath w) "panel.yml" in
  try_catch
    (Fs.writeFile configPath emptyConfig ;;
     ret tt)
    (fun _ => ret tt).

End Traefik.

(** ** The routing document behind the text

    The generated file is a YAML document.  [Doc] gives the document as
    data (routers, middlewares, services) with its printer; the theorem
    [print_project_document] below shows that printing the document of a
    configuration gives the text of [Traefik.traefikConfig], character
    for character. *)

Module Doc.

Record Router : Type := {
  r_comment : string;
  r_name : string;
  r_host : string;                   (* rule: "Host(`...`)" *)
  r_entryPoints : list string;
  r_middlewares : list string;
  r_service : string;
  r_certResolver : option string;    (* tls.certResolver *)
  r_priority : Z;
}.

Record HealthCheck : Type := {
  h_path : string;
  h_interval : string;
  h_timeout : string;
}.

Record Service : Type := {
  s_name : string;
  s_url : string;                    (* loadBalancer.servers[0].url *)
  s_healthCheck : option HealthCheck;
}.

Record Middleware : Type := {
  m_name : string;
  m_scheme : string;                 (* redirectScheme.scheme *)
  m_permanent : bool;
}.

(** A section is a sequence of declarations and of blank lines (a line
    of four spaces). *)
Inductive entry (A : Type) : Type :=
| Blank
| Decl (a : A).
Arguments Blank {A}.
Arguments Decl {A} a.

Fixpoint decls {A} (es : list (entry A)) : list A :=
  match es with
  | [] => []
  | Blank :: r => decls r
  | Decl a :: r => a :: decls r
  end.

Record Document : Type := {
  d_header : list string;            (* the comment lines *)
  d_routers : list (entry Router);
  d_middlewares : list Middleware;
  d_services : list (entry Service);
}.

Definition routers (d : Document) : list Router := decls (d_routers d).
Definition services (d : Document) : list Service := decls (d_services d).

(** *** The printer

    The printer is written on its own: it has its line feed, its quote
    and its joining of lines, and uses no part of [Traefik].  That the
    text of the code is the print of a document relates two
    definitions that do not share their text. *)

Definition line_feed : string := String "010"%char EmptyString.
Definition quote : string := String "034"%char EmptyString.

(** The lines, with a line feed between two of them. *)
Fixpoint unlines (l : list string) : string :=
  match l with
  | [] => EmptyString
  | x :: r =>
      match r with
      | [] => x
      | _ :: _ => x +:+ line_feed +:+ unlines r
      end
  end.

Definition bullets (l : list string) : list string :=
  map (fun e => "        - " +:+ e) l.

Definition router_lines (r : Router) : list string :=
  [ "    # " +:+ r_comment r;
    "    " +:+ r_name r +:+ ":";
    "      rule: " +:+ quote +:+ "Host(`" +:+ r_host r +:+ "`)" +:+ quote;
    "      entryPoints:" ]
  ++ bullets (r_entryPoints r)
  ++ match r_middlewares r with
     | [] => []
     | ms => "      middlewares:" :: bullets ms
     end
  ++ [ "      service: " +:+ r_service r ]
  ++ match r_certResolver r with
     | Some c => [ "      tls:"; "        certResolver: " +:+ c ]
     | None => []
     end
  ++ [ "      priority: " +:+ number_to_string (Int (r_priority r)) ].

Definition service_lines (s : Service) : list string :=
  [ "    " +:+ s_name s +:+ ":";
    "      loadBalancer:";
    "        servers:";
    "          - url: " +:+ quote +:+ s_url s +:+ quote ]
  ++ match s_healthCheck s with
     | Some h =>
         [ "        healthCheck:";
           "          path: " +:+ h_path h;
           "          interval: " +:+ h_interval h;
           "          timeout: " +:+ h_timeout h ]
     | None => []
     end.

Definition middleware_lines (m : Middleware) : list string :=
  [ "    " +:+ m_name m +:+ ":";
    "      redirectScheme:";
    "        scheme: " +:+ m_scheme m;
    "        permanent: " +:+ (if m_permanent m then "true" else "false") ].

Definition entry_lines {A} (f : A -> list string) (e : entry A) : list string :=
  match e with
  | Blank => [ "    " ]
  | Decl a => f a
  end.

(** Every line of a section starts on a new line. *)
Definition section {A} (f : A -> list string) (es : list (entry A)) : string :=
  fold_right (fun l acc => line_feed +:+ l +:+ acc) EmptyString
             (flat_map (entry_lines f) es).

Definition print (d : Document) : string :=
  unlines
    (d_header d
     ++ [ EmptyString;
          "http:";
          "  routers:" +:+ section router_lines (d_routers d);
          EmptyString;
          "  middlewares:" ]
     ++ flat_map middleware_lines (d_middlewares d)
     ++ [ EmptyString;
          "  services:" +:+ section service_lines (d_services d);
          EmptyString ]).

(** *** The document of a project *)

Definition secure_router (comment name host service : string) : Router :=
  {| r_comment := comment; r_name := name; r_host := host;
     r_entryPoints := [ "websecure" ]; r_middlewares := [];
     r_service := service; r_certResolver := Some "letsencrypt";
     r_priority := 10 |}.

Definition redirect_router (comment name host service : string) : Router :=
  {| r_comment := comment; r_name := name; r_host := host;
     r_entryPoints := [ "web" ]; r_middlewares := [ "https-redirect" ];
     r_service := service; r_certResolver := None;
     r_priority := 5 |}.

Definition api_router (slug domain : string) : Router :=
  secure_router "Main API router (Kong gateway)" (slug +:+ "-api") domain (slug +:+ "-api").
Definition api_http_router (slug domain : string) : Router :=
  redirect_router "HTTP redirect for API" (slug +:+ "-api-http") domain (slug +:+ "-api").
Definition studio_router (slug domain : string) : Router :=
  secure_router "Studio router" (slug +:+ "-studio") domain (slug +:+ "-studio").
Definition studio_http_router (slug domain : string) : Router :=
  redirect_router "HTTP redirect for Studio" (slug +:+ "-studio-http") domain (slug +:+ "-studio").

Definition api_service (slug : string) (port : number) : Service :=
  {| s_name := slug +:+ "-api";
     s_url := "http://" +:+ slug +:+ "-kong:" +:+ number_to_string port;
     s_healthCheck := Some {| h_path := "/health"; h_interval := "30s"; h_timeout := "5s" |} |}.

Definition studio_service (slug : string) (port : number) : Service :=
  {| s_name := slug +:+ "-studio";
     s_url := "http://" +:+ slug +:+ "-studio:" +:+ number_to_string port;
     s_healthCheck := None |}.

Definition https_redirect : Middleware :=
  {| m_name := "https-redirect"; m_scheme := "https"; m_permanent := true |}.

Definition project_document (w : World) (config : Traefik.Config.TraefikConfig) : Document :=
  let slug := Traefik.Config.projectSlug config in
  let domain := Traefik.Config.domain config in
  let studio := or_default (Traefik.Config.studioDomain config) EmptyString in
  {| d_header :=
       [ "# Auto-generated Traefik routing for project: " +:+ slug;
         "# API Domain: " +:+ or_default (Some domain) "not configured";
         "# Studio Domain: " +:+ or_default (Some studio) "not configured";
         "# Generated at: " +:+ now w ];
     d_routers :=
       (if truthy domain
        then [ Decl (api_router slug domain); Blank; Decl (api_http_router slug domain) ]
        else [])
       ++ (if truthy studio
           then [ Blank; Decl (studio_router slug studio);
                  Blank; Decl (studio_http_router slug studio) ]
           else []);
     d_middlewares := [ https_redirect ];
     d_services :=
       (if truthy domain
        then [ Decl (api_service slug (Traefik.Config.kongPort config)) ]
        else [])
       ++ (if truthy studio
           then [ Blank; Decl (studio_service slug (Traefik.Config.studioPort config)) ]
           else []) |}.

End Doc.

(** ** The route handlers *)

Module Http.

(** The JSON bodies the handlers send: [{error}], the answer to a
    domain update [{success: true, domain, verified, studioDomain,
    studioVerified, message}], the answer to a panel domain update
    [{success: true, domain, verified, message}], and
    [{success: true, message}]. *)
Inductive Body : Type :=
| ErrorBody (error : string)
| DomainBody (domain : option string) (verified : bool)
             (studioDomain : option string) (studioVerified : bool)
             (message : string)
| PanelDomainBody (domain : string) (verified : bool) (message : string)
| SuccessBody (message : string).

Record Response : Type := { status : Z; body : Body }.

(** [NextResponse.json({error}, {status})] *)
Definition json_error (error : string) (status : Z) : Response :=
  {| status := status; body := ErrorBody error |}.

(** [NextResponse.json(body)] *)
Definition json (body : Body) : Response :=
  {| status := 200; body := body |}.

(** [String(v)], as [RegExp.prototype.test] applies it to its argument. *)
Definition to_string (v : jsval) : string :=
  match v with
  | Undefined => "undefined"
  | Null => "null"
  | Str s => s
  end.

(** Is the value [undefined]? *)
Definition is_undefined (v : jsval) : bool :=
  match v with
  | Undefined => true
  | _ => false
  end.

End Http.
Export Http.

(** *** [/api/projects/[id]/domain] *)

Module DomainRoute.

(** The data of the update: each domain that the request defines is
    written with its verified flag. *)
Definition updateData (domain studioDomain : jsval) (apiDnsValid studioDnsValid : bool)
    (p : Db.Project) : Db.Project :=
  let p :=
    if negb (is_undefined domain)
    then {| Db.slug := Db.slug p;
            Db.domain := or_null domain;
            Db.domainVerified := if truthy_val domain then apiDnsValid else false;
            Db.studioDomain := Db.studioDomain p;
            Db.studioDomainVerified := Db.studioDomainVerified p;
            Db.envVars := Db.envVars p |}
    else p in
  if negb (is_undefined studioDomain)
  then {| Db.slug := Db.slug p;
          Db.domain := Db.domain p;
          Db.domainVerified := Db.domainVerified p;
          Db.studioDomain := or_null studioDomain;
          Db.studioDomainVerified := if truthy_val studioDomain then studioDnsValid else false;
          Db.envVars := Db.envVars p |}
  else p.

(** [envVarsMap[env.key] = env.value] on the plain object
    [envVarsMap]: the property is set, but for the key [__proto__],
    where the assignment of a string does nothing. *)
Definition assign (m : gmap string string) (key value : string) : gmap string string :=
  if String.eqb key "__proto__" then m else <[key := value]> m.

(** [envVarsMap]: a later variable overwrites an earlier one of the
    same key. *)
Definition envVarsMap (envVars : list Db.EnvVar) : gmap string string :=
  fold_left (fun m env => assign m (Db.key env) (Db.value env)) envVars ∅.

(** [messages.join('. ') || 'Domains updated successfully'] *)
Definition message (domain studioDomain : jsval) (apiDnsValid studioDnsValid : bool) : string :=
  let messages : list string :=
    (if truthy_val domain
     then [ if apiDnsValid then "API domain verified"
            else "API domain configured (DNS pending)" ]
     else [])
    ++ (if truthy_val studioDomain
        then [ if studioDnsValid then "Studio domain verified"
               else "Studio domain configured (DNS pending)" ]
        else []) in
  or_default (Some (String.concat ". " messages)) "Domains updated successfully".

(** [PUT]: the session cookie, the [id] of the route and the fields
    [domain] and [studioDomain] of the JSON body. *)
Definition PUT (w : World) (sessionToken : option string) (id : string)
    (domain studioDomain : jsval) : M Response :=
  try_catch
    (if negb (truthy_opt sessionToken)
     then ret (json_error "Unauthorized" 401)
     else if negb (validateSession w (or_default sessionToken EmptyString))
     then ret (json_error "Invalid session" 401)
     else if truthy_val domain && negb (domainRegex_test (to_string domain))
     then ret (json_error "Invalid API domain format" 400)
     else if truthy_val studioDomain && negb (domainRegex_test (to_string studioDomain))
     then ret (json_error "Invalid Studio domain format" 400)
     else if negb (truthy_val domain) && negb (truthy_val studioDomain)
     then ret (json_error "At least one domain is required" 400)
     else
       project <- Prisma.findUnique id ;;
       match project with
       | None => ret (json_error "Project not found" 404)
       | Some project =>
           existingApiProject <-
             (if truthy_val domain
              then Prisma.findFirst_domain (to_string domain) id
              else ret false) ;;
           if existingApiProject
           then ret (json_error "API domain is already in use" 409)
           else
             existingStudioProject <-
               (if truthy_val studioDomain
                then Prisma.findFirst_studioDomain (to_string studioDomain) id
                else ret false) ;;
             if existingStudioProject
             then ret (json_error "Studio domain is already in use" 409)
             else
               apiDnsValid <-
                 (if truthy_val domain
                  then Traefik.verifyDomainDNS w (to_string domain)
                  else ret false) ;;
               studioDnsValid <-
                 (if truthy_val studioDomain
                  then Traefik.verifyDomainDNS w (to_string studioDomain)
                  else ret false) ;;
               updatedProject <-
                 Prisma.update id (updateData domain studioDomain apiDnsValid studioDnsValid) ;;
               let ports := Traefik.getProjectPorts (envVarsMap (Db.envVars project)) in
               let finalDomain := or_stored domain (Db.domain updatedProject) in
               let finalStudioDomain := or_stored studioDomain (Db.studioDomain updatedProject) in
               (if truthy_opt finalDomain || truthy_opt finalStudioDomain
                then Traefik.generateProjectTraefikConfig w
                       {| Traefik.Config.projectSlug := Db.slug project;
                          Traefik.Config.domain := or_default finalDomain EmptyString;
                          Traefik.Config.studioDomain :=
                            Some (or_default finalStudioDomain EmptyString);
                          Traefik.Config.kongPort := Traefik.kongPort ports;
                          Traefik.Config.studioPort := Traefik.studioPort ports |}
                else ret tt) ;;
               ret (json (DomainBody (Db.domain updatedProject)
                                     (Db.domainVerified updatedProject)
                                     (Db.studioDomain updatedProject)
                                     (Db.studioDomainVerified updatedProject)
                                     (message domain studioDomain apiDnsValid studioDnsValid)))
       end)
    (fun _ => ret (json_error "Internal server error" 500)).

(** The data of the removal. *)
Definition clearData (p : Db.Project) : Db.Project :=
  {| Db.slug := Db.slug p;
     Db.domain := None;
     Db.domainVerified := false;
     Db.studioDomain := None;
     Db.studioDomainVerified := false;
     Db.envVars := Db.envVars p |}.

Definition DELETE (w : World) (sessionToken : option string) (id : string) : M Response :=
  try_catch
    (if negb (truthy_opt sessionToken)
     then ret (json_error "Unauthorized" 401)
     else if negb (validateSession w (or_default sessionToken EmptyString))
     then ret (json_error "Invalid session" 401)
     else
       project <- Prisma.findUnique id ;;
       match project with
       | None => ret (json_error "Project not found" 404)
       | Some project =>
           Prisma.update id clearData ;;
           Traefik.removeProjectTraefikConfig w (Db.slug project) ;;
           ret (json (SuccessBody "Domains removed successfully"))
       end)
    (fun _ => ret (json_error "Internal server error" 500)).

End DomainRoute.

(** *** [/api/settings/panel-domain] *)

Module PanelDomainRoute.

Definition bool_to_string (b : bool) : string :=
  if b then "true" else "false".

Definition PUT (w : World) (sessionToken : option string) (domain : jsval) : M Response :=
  try_catch
    (if negb (truthy_opt sessionToken)
     then ret (json_error "Unauthorized" 401)
     else if negb (validateSession w (or_default sessionToken EmptyString))
     then ret (json_error "Invalid session" 401)
     else if negb (truthy_val domain)
     then ret (json_error "Domain is required" 400)
     else if negb (domainRegex_test (to_string domain))
     then ret (json_error "Invalid domain format" 400)
     else
       dnsValid <- Traefik.verifyDomainDNS w (to_string domain) ;;
       Prisma.upsert "panel_domain" (to_string domain) ;;
       Prisma.upsert "panel_domain_verified" (bool_to_string dnsValid) ;;
       Traefik.generatePanelTraefikConfig w (to_string domain) ;;
       ret (json (PanelDomainBody (to_string domain) dnsValid
                    (if dnsValid
                     then "Panel domain configured and verified successfully. The panel will be accessible at https://"
                            +:+ to_string domain
                     else "Panel domain configured. DNS verification pending - make sure your domain points to this server.")))
    )
    (fun _ => ret (json_error "Internal server error" 500)).

End PanelDomainRoute.

(** ** Vocabulary of the statements *)



(** The [dns] module loads and [resolve4] gives one address at least. *)
Definition resolves (w : World) (d : string) : bool :=
  match import_dns w with
  | Ok dns =>
      match resolve4 dns d with
      | Ok (_ :: _) => true
      | _ => false
      end
  | Throw _ => false
  end.

(** The verified flag of a field of the request. *)
Definition dnsValid (w : World) (v : jsval) : bool :=
  if truthy_val v then resolves w (to_string v) else false.

(** Another project than [id] holds [d] as its API domain. *)
Definition api_domain_taken (st : State) (d id : string) : Prop :=
  map_Exists (fun i p => Db.domain p = Some d /\ i <> id) (projects st).

(** Another project than [id] holds [d] as its Studio domain. *)
Definition studio_domain_taken (st : State) (d id : string) : Prop :=
  map_Exists (fun i p => Db.studioDomain p = Some d /\ i <> id) (projects st).

(** The configuration that [DomainRoute.PUT] renders, from the row it
    read and the row it wrote. *)
Definition rendered (domain studioDomain : jsval) (project updated : Db.Project)
  : Traefik.Config.TraefikConfig :=
  let ports := Traefik.getProjectPorts (DomainRoute.envVarsMap (Db.envVars project)) in
  {| Traefik.Config.projectSlug := Db.slug project;
     Traefik.Config.domain := or_default (or_stored domain (Db.domain updated)) EmptyString;
     Traefik.Config.studioDomain :=
       Some (or_default (or_stored studioDomain (Db.studioDomain updated)) EmptyString);
     Traefik.Config.kongPort := Traefik.kongPort ports;
     Traefik.Config.studioPort := Traefik.studioPort ports |}.

(** The value of a decimal numeral read after the value [acc]. *)
Fixpoint uint_value (d : Decimal.uint) (acc : Z) : Z :=
  match d with
  | Decimal.Nil => acc
  | Decimal.D0 l => uint_value l (10 * acc)
  | Decimal.D1 l => uint_value l (10 * acc + 1)
  | Decimal.D2 l => uint_value l (10 * acc + 2)
  | Decimal.D3 l => uint_value l (10 * acc + 3)
  | Decimal.D4 l => uint_value l (10 * acc + 4)
  | Decimal.D5 l => uint_value l (10 * acc + 5)
  | Decimal.D6 l => uint_value l (10 * acc + 6)
  | Decimal.D7 l => uint_value l (10 * acc + 7)
  | Decimal.D8 l => uint_value l (10 * acc + 8)
  | Decimal.D9 l => uint_value l (10 * acc + 9)
  end.

(** ** A concrete installation, for the examples

    The panel runs in production mode.  Project [A] (slug [alpha]) has
    both domains and its routing file; project [B] (slug [demo]) has no
    domain yet and a gateway on port 8080; project [C] (slug [gamma]) has
    an API domain only.  Only [live.demo.test] has an A record;
    [v6.demo.test] has an AAAA record only. *)

Module Demo.

Definition dns : DnsPromises :=
  {| resolve4 := fun d =>
       if String.eqb d "live.demo.test" then Ok [ "203.0.113.7" ]
       else if String.eqb d "v6.demo.test" then Throw (DnsError "ENODATA")
       else Throw (DnsError "ENOTFOUND");
     resolve6 := fun d =>
       if String.eqb d "v6.demo.test" then Ok [ "2001:db8::7" ]
       else Throw (DnsError "ENODATA") |}.

Definition world : World :=
  {| SUPAPANEL_MODE := Some "production";
     cwd := "/app";
     now := "2025-01-01T00:00:00.000Z";
     import_dns := Ok dns;
     validateSession := fun token => String.eqb token "token" |}.

Definition alpha : Db.Project :=
  {| Db.slug := "alpha";
     Db.domain := Some "api.alpha.test";
     Db.domainVerified := false;
     Db.studioDomain := Some "studio.alpha.test";
     Db.studioDomainVerified := false;
     Db.envVars := [] |}.

Definition demo : Db.Project :=
  {| Db.slug := "demo";
     Db.domain := None;
     Db.domainVerified := false;
     Db.studioDomain := None;
     Db.studioDomainVerified := false;
     Db.envVars := [ {| Db.key := "KONG_HTTP_PORT"; Db.value := "8080" |} ] |}.

Definition gamma : Db.Project :=
  {| Db.slug := "gamma";
     Db.domain := Some "api.gamma.test";
     Db.domainVerified := false;
     Db.studioDomain := None;
     Db.studioDomainVerified := false;
     Db.envVars := [] |}.

Definition alpha_yml : string := "/etc/supapanel/traefik/dynamic/alpha.yml".
Definition demo_yml : string := "/etc/supapanel/traefik/dynamic/demo.yml".
Definition gamma_yml : string := "/etc/supapanel/traefik/dynamic/gamma.yml".

Definition state : State :=
  {| projects := <["A" := alpha]> (<["B" := demo]> (<["C" := gamma]> ∅));
     panelSettings := ∅;
     files :=
       <[alpha_yml :=
           Traefik.traefikConfig world
             {| Traefik.Config.projectSlug := "alpha";
                Traefik.Config.domain := "api.alpha.test";
                Traefik.Config.studioDomain := Some "studio.alpha.test";
                Traefik.Config.kongPort := Int 8000;
                Traefik.Config.studioPort := Int 3000 |}]> ∅ |}.

End Demo.

(** ** The other handlers of the domain routes *)

Module PrismaPanel.

(** [prisma.panelSettings.findUnique({where: {key}})?.value] *)
Definition findUnique (k : string) : M (option string) :=
  fun st => (Ok (panelSettings st !! k), st).

(** [prisma.panelSettings.deleteMany({where: {key: {in: keys}}})] *)
Definition deleteMany (keys : list string) : M unit :=
  fun st =>
    (Ok tt, set_panelSettings st
              (fold_right (fun k m => delete k m) (panelSettings st) keys)).

End PrismaPanel.

Module HttpRead.

(** The JSON bodies of the two [GET] handlers: [{error}],
    [{domain, verified, studioDomain, studioVerified}] and
    [{domain, verified}]. *)
Inductive ReadBody : Type :=
| ReadError (error : string)
| DomainInfo (domain : option string) (verified : bool)
             (studioDomain : option string) (studioVerified : bool)
| PanelInfo (domain : option string) (verified : bool).

Record ReadResponse : Type := { read_status : Z; read_body : ReadBody }.

Definition read_error (error : string) (status : Z) : ReadResponse :=
  {| read_status := status; read_body := ReadError error |}.

Definition read_json (body : ReadBody) : ReadResponse :=
  {| read_status := 200; read_body := body |}.

End HttpRead.
Export HttpRead.

(** [GET /api/projects/[id]/domain] *)
Module DomainRouteGet.

Definition GET (w : World) (sessionToken : option string) (id : string) : M ReadResponse :=
  try_catch
    (if negb (truthy_opt sessionToken)
     then ret (read_error "Unauthorized" 401)
     else if negb (validateSession w (or_default sessionToken EmptyString))
     then ret (read_error "Invalid session" 401)
     else
       project <- Prisma.findUnique id ;;
       match project with
       | None => ret (read_error "Project not found" 404)
       | Some project =>
           ret (read_json (DomainInfo (Db.domain project) (Db.domainVerified project)
                                      (Db.studioDomain project)
                                      (Db.studioDomainVerified project)))
       end)
    (fun _ => ret (read_error "Internal server error" 500)).

End DomainRouteGet.

(** [GET] and [DELETE /api/settings/panel-domain] *)
Module PanelDomainRouteRest.

Definition GET (w : World) (sessionToken : option string) : M ReadResponse :=
  try_catch
    (if negb (truthy_opt sessionToken)
     then ret (read_error "Unauthorized" 401)
     else if negb (validateSession w (or_default sessionToken EmptyString))
     then ret (read_error "Invalid session" 401)
     else
       domainSetting <- PrismaPanel.findUnique "panel_domain" ;;
       verifiedSetting <- PrismaPanel.findUnique "panel_domain_verified" ;;
       ret (read_json
              (PanelInfo
                 (match domainSetting with
                  | Some v => if truthy v then Some v else None
                  | None => None
                  end)
                 (match verifiedSetting with
                  | Some v => String.eqb v "true"
                  | None => false
                  end))))
    (fun _ => ret (read_error "Internal server error" 500)).

Definition DELETE (w : World) (sessionToken : option string) : M Response :=
  try_catch
    (if negb (truthy_opt sessionToken)
     then ret (json_error "Unauthorized" 401)
     else if negb (validateSession w (or_default sessionToken EmptyString))
     then ret (json_error "Invalid session" 401)
     else
       PrismaPanel.deleteMany [ "panel_domain"; "panel_domain_verified" ] ;;
       Traefik.removePanelTraefikConfig w ;;
       ret (json (SuccessBody "Panel domain removed successfully")))
    (fun _ => ret (json_error "Internal server error" 500)).

End PanelDomainRouteRest.

(** The document of the panel's own file. *)
Module PanelDoc.

Import Doc.

Definition panel_router (domain : string) : Router :=
  {| r_comment := "Panel HTTPS router"; r_name := "supapanel"; r_host := domain;
     r_entryPoints := [ "websecure" ]; r_middlewares := [];
     r_service := "supapanel"; r_certResolver := Some "letsencrypt";
     r_priority := 100 |}.

Definition panel_http_router (domain : string) : Router :=
  {| r_comment := "Panel HTTP redirect router"; r_name := "supapanel-http";
     r_host := domain;
     r_entryPoints := [ "web" ]; r_middlewares := [ "https-redirect" ];
     r_service := "supapanel"; r_certResolver := None;
     r_priority := 50 |}.

Definition panel_service : Service :=
  {| s_name := "supapanel"; s_url := "http://supapanel-panel:3000";
     s_healthCheck := None |}.

Definition panel_document (w : World) (domain : string) : Document :=
  {| d_header :=
       [ "# Auto-generated Traefik routing for SupaPanel";
         "# Domain: " +:+ domain;
         "# Generated at: " +:+ now w ];
     d_routers :=
       [ Decl (panel_router domain); Blank; Decl (panel_http_router domain) ];
     d_middlewares := [ https_redirect ];
     d_services := [ Decl panel_service ] |}.

End PanelDoc.

(** ** Registration: [/api/auth/registration-status] and [/api/auth/register] *)

Module Auth.

(** A row of the [User] table. *)
Record User : Type := {
  user_id : string;
  user_email : string;
  user_password : string;
  user_name : option string;
}.

(** The [User] table, the oldest row first. *)
Definition Users : Type := list User.

(** What the handlers use of [@/lib/auth], of the database and of the
    process: the password hash, the session token made for a user id,
    the id the database gives to a new row, and [NODE_ENV]. *)
Record AuthWorld : Type := {
  hashPassword : string -> outcome string;
  createSession : string -> outcome string;
  new_id : Users -> string;
  NODE_ENV : option string;
}.

(** [c.toLowerCase()] on the code units 0..255: the letters [A-Z] and
    the capital letters of Latin-1 (192..222 but the sign 215). *)
Definition lower_char (c : ascii) : ascii :=
  let n := code c in
  if ((65 <=? n) && (n <=? 90)
      || (192 <=? n) && (n <=? 222) && negb (n =? 215))%N
  then ascii_of_N (n + 32)
  else c.

Fixpoint toLowerCase (s : string) : string :=
  match s with
  | EmptyString => EmptyString
  | String c r => String (lower_char c) (toLowerCase r)
  end.

(** [prisma.user.count()] *)
Definition count (users : Users) : nat := length users.

(** [prisma.user.findUnique({where: {email}})] *)
Definition findUnique (email : string) (users : Users) : option User :=
  find (fun u => String.eqb (user_email u) email) users.

(** The options of the [session] cookie. *)
Record Cookie : Type := {
  cookie_value : string;
  httpOnly : bool;
  secure : bool;
  sameSite : string;
  maxAge : Z;
}.

Inductive AuthBody : Type :=
| AuthError (error : string)
| RegistrationStatus (registrationOpen : bool) (message : string)
| Registered (id email : string) (name : option string).

Record AuthResponse : Type := {
  auth_status : Z;
  auth_body : AuthBody;
  session_cookie : option Cookie;
}.

Definition auth_error (error : string) (status : Z) : AuthResponse :=
  {| auth_status := status; auth_body := AuthError error; session_cookie := None |}.

(** [GET /api/auth/registration-status] *)
Definition registration_status (users : Users) : AuthResponse :=
  let userCount := count users in
  {| auth_status := 200;
     auth_body :=
       RegistrationStatus (userCount =? 0)%nat
         (if (userCount =? 0)%nat
          then "Welcome! Create your admin account to get started."
          else "Registration is closed. Contact an administrator to request access.");
     session_cookie := None |}.

(** [POST /api/auth/register]: the fields [email], [password] and
    [name] of the JSON body.  The answer, and the table afterwards. *)
Definition register (w : AuthWorld) (email password name : jsval) (users : Users)
  : AuthResponse * Users :=
  if negb (truthy_val email) || negb (truthy_val password)
  then (auth_error "Email and password are required" 400, users)
  else if (0 <? count users)%nat
  then (auth_error "Registration is closed. Contact an administrator to request access." 403,
        users)
  else
    match findUnique (toLowerCase (to_string email)) users with
    | Some _ => (auth_error "User already exists" 400, users)
    | None =>
        match hashPassword w (to_string password) with
        | Throw _ => (auth_error "Internal server error" 500, users)
        | Ok hashedPassword =>
            let user :=
              {| user_id := new_id w users;
                 user_email := toLowerCase (to_string email);
                 user_password := hashedPassword;
                 user_name := or_null name |} in
            let users := users ++ [ user ] in
            match createSession w (user_id user) with
            | Throw _ => (auth_error "Internal server error" 500, users)
            | Ok token =>
                ({| auth_status := 200;
                    auth_body := Registered (user_id user) (user_email user) (user_name user);
                    session_cookie :=
                      Some {| cookie_value := token;
                              httpOnly := true;
                              secure := match NODE_ENV w with
                                        | Some v => String.eqb v "production"
                                        | None => false
                                        end;
                              sameSite := "lax";
                              maxAge := 24 * 60 * 60 |} |},
                 users)
            end
        end
    end.

End Auth.

(** ** More vocabulary *)

(** No two projects hold the same API domain. *)
Definition api_domains_unique (st : State) : Prop :=
  forall i j p q d,
    i <> j -> projects st !! i = Some p -> projects st !! j = Some q ->
    Db.domain p = Some d -> Db.domain q <> Some d.

(** No two projects hold the same Studio domain. *)
Definition studio_domains_unique (st : State) : Prop :=
  forall i j p q d,
    i <> j -> projects st !! i = Some p -> projects st !! j = Some q ->
    Db.studioDomain p = Some d -> Db.studioDomain q <> Some d.

(** A slug that is one file name, as [Fs.join] takes it: it holds no [/]. *)
Definition file_name (slug : string) : bool :=
  forallb (fun c => negb (Ascii.eqb c "/")) (list_ascii_of_string slug).

(** The path of the panel's own file. *)
Definition panel_yml (w : World) : string :=
  Fs.join (Traefik.getTraefikDynamicPath w) "panel.yml".

(** The row that an accepted update writes, and the state it leaves. *)
Definition accepted_row (w : World) (domain studioDomain : jsval) (project : Db.Project)
  : Db.Project :=
  DomainRoute.updateData domain studioDomain
    (dnsValid w domain) (dnsValid w studioDomain) project.

Definition accepted_state (w : World) (id : string) (domain studioDomain : jsval)
    (st : State) (project : Db.Project) : State :=
  let row := accepted_row w domain studioDomain project in
  set_files (set_projects st (<[id := row]> (projects st)))
    (<[Traefik.configPath w (Db.slug project)
       := Traefik.traefikConfig w (rendered domain studioDomain project row)]> (files st)).

(** The request passes the format and uniqueness checks of [PUT]. *)
Definition acceptable (st : State) (id : string) (domain studioDomain : jsval) : Prop :=
  (truthy_val domain = true ->
     domainRegex_test (to_string domain) = true
     /\ ~ api_domain_taken st (to_string domain) id)
  /\ (truthy_val studioDomain = true ->
        domainRegex_test (to_string studioDomain) = true
        /\ ~ studio_domain_taken st (to_string studioDomain) id)
  /\ truthy_val domain || truthy_val studioDomain = true.

(** The cookie carries a token of a live session. *)
Definition live_session (w : World) (sessionToken : option string) : bool :=
  truthy_opt sessionToken && validateSession w (or_default sessionToken EmptyString).

(** The answer to a request with no live session. *)
Definition no_session_message (sessionToken : option string) : string :=
  if truthy_opt sessionToken then "Invalid session" else "Unauthorized".

(** A concrete installation for the examples of the registration: the
    sessions work in [world] and fail in [no_sessions]. *)
Module DemoAuth.

Definition world : Auth.AuthWorld :=
  {| Auth.hashPassword := fun password => Ok ("hash:" +:+ password);
     Auth.createSession := fun id => Ok ("session-of-" +:+ id);
     Auth.new_id := fun _ => "user-1";
     Auth.NODE_ENV := Some "production" |}.

Definition no_sessions : Auth.AuthWorld :=
  {| Auth.hashPassword := fun password => Ok ("hash:" +:+ password);
     Auth.createSession := fun _ => Throw RecordNotFound;
     Auth.new_id := fun _ => "user-1";
     Auth.NODE_ENV := Some "production" |}.

End DemoAuth.

(** * Properties *)

#[local] Arguments String.append : simpl nomatch.


(** ** Strings *)

Section Strings.

Lemma append_nil_r (s : string) : s +:+ EmptyString = s.
Proof. induction s as [|c s IH]; simpl; [reflexivity | f_equal; exact IH]. Qed.

Lemma append_assoc (s1 s2 s3 : string) : (s1 +:+ s2) +:+ s3 = s1 +:+ (s2 +:+ s3).
Proof. induction s1 as [|c s1 IH]; simpl; [reflexivity | f_equal; exact IH]. Qed.



End Strings.

(** ** Maps from strings to strings *)

Section Files.

Lemma files_lookup_insert (m : gmap string string) (k v : string) :
  <[k := v]> m !! k = Some v.
Proof. exact (lookup_insert_eq (M := gmap string) m k v). Qed.

Lemma files_lookup_delete (m : gmap string string) (k : string) :
  delete k m !! k = None.
Proof. exact (lookup_delete_eq (M := gmap string) m k). Qed.

Lemma files_delete_id (m : gmap string string) (k : string) :
  m !! k = None -> delete k m = m.
Proof. exact (delete_id (M := gmap string) m k). Qed.

End Files.

(** ** The matcher decides the language *)

Section RegexCorrect.









End RegexCorrect.

(** ** The shape of a domain *)

Section DomainShape.






End DomainShape.


Section ParseInt.

Lemma digits_of_uint (d : Decimal.uint) (acc : Z) :
  fold_left (fun acc c => 10 * acc + digit_value c)
    (digits_prefix (NilEmpty.string_of_uint d)) acc = uint_value d acc.
Proof.
  revert acc. induction d; intros acc; simpl; [reflexivity|..];
    rewrite IHd; f_equal; unfold digit_value, code; simpl; lia.
Qed.

Lemma uint_value_acc (d : Decimal.uint) (acc : positive) :
  uint_value d (Z.pos acc) = Z.pos (Pos.of_uint_acc d acc).
Proof.
  revert acc. induction d; intros acc; simpl; [reflexivity|..];
    rewrite <- IHd; f_equal; lia.
Qed.

Lemma uint_value_0 (d : Decimal.uint) : uint_value d 0 = Z.of_uint d.
Proof.
  unfold Z.of_uint. induction d; simpl; try assumption; try reflexivity;
    change 0 with (Z.of_N 0); simpl; apply (uint_value_acc d).
Qed.

Lemma digits_nonnil (d : Decimal.uint) :
  d <> Decimal.Nil -> digits_prefix (NilEmpty.string_of_uint d) <> [].
Proof. destruct d; simpl; congruence. Qed.

Lemma parse_uint (d : Decimal.uint) (sign : Z) :
  d <> Decimal.Nil ->
  match digits_prefix (NilEmpty.string_of_uint d) with
  | [] => NaN
  | ds => to_number (sign * digits_value ds)
  end = to_number (sign * Z.of_uint d).
Proof.
  intros H. pose proof (digits_nonnil d H) as Hn.
  destruct (digits_prefix (NilEmpty.string_of_uint d)) eqn:E; [congruence|].
  rewrite <- E. unfold digits_value. rewrite digits_of_uint, uint_value_0. reflexivity.
Qed.

Lemma string_of_uint_head (d : Decimal.uint) :
  d <> Decimal.Nil ->
  exists c r, NilEmpty.string_of_uint d = String c r /\ is_digit c = true.
Proof. destruct d; simpl; intros H; try congruence; eauto. Qed.

Lemma digit_not_white_sign (c : ascii) :
  is_digit c = true -> is_white c = false /\ c <> "-"%char /\ c <> "+"%char.
Proof.
  unfold is_digit, in_range, is_white, code. intros H.
  apply andb_true_iff in H as [H1 H2]. apply N.leb_le in H1, H2.
  change (N_of_ascii "0") with 48%N in H1. change (N_of_ascii "9") with 57%N in H2.
  repeat split.
  - apply orb_false_iff; split; [apply orb_false_iff; split|].
    + apply andb_false_iff. right. apply N.leb_gt. lia.
    + apply N.eqb_neq. lia.
    + apply N.eqb_neq. lia.
  - intros ->. vm_compute in H1. congruence.
  - intros ->. vm_compute in H1. congruence.
Qed.

Lemma parseInt_digit_head (c : ascii) (r : string) :
  is_digit c = true ->
  parseInt (String c r) =
  match digits_prefix (String c r) with
  | [] => NaN
  | ds => to_number (1 * digits_value ds)
  end.
Proof.
  intros H. destruct (digit_not_white_sign c H) as (Hw & Hm & Hp).
  unfold parseInt. cbn [trim_start]. rewrite Hw.
  assert (E : split_sign (String c r) = (1, String c r)).
  { unfold split_sign.
    destruct c as [[] [] [] [] [] [] [] []]; try reflexivity; congruence. }
  rewrite E. reflexivity.
Qed.

Lemma string_of_uint_nonnil (d : Decimal.uint) :
  d <> Decimal.Nil -> NilZero.string_of_uint d = NilEmpty.string_of_uint d.
Proof. destruct d; simpl; congruence. Qed.

(** Up to 2^53 an integer is a number, and its text is its decimal
    digits. *)
Lemma to_number_exact (z : Z) :
  Z.abs z <= 9007199254740992 -> to_number z = Int z.
Proof.
  intros H. unfold to_number. cbv zeta.
  destruct (Z.leb_spec (Z.abs z) 9007199254740992) as [_|H']; [reflexivity | lia].
Qed.

Lemma number_to_string_exact (z : Z) :
  Z.abs z <= 9007199254740992 ->
  number_to_string (Int z) = NilZero.string_of_int (Z.to_int z).
Proof.
  intros H. unfold number_to_string. rewrite (to_number_exact z H).
  unfold positive_to_string, decimal.
  destruct (Z.ltb_spec z 0) as [Hneg|Hpos].
  - destruct (Z.leb_spec (- z) 9007199254740992) as [_|H']; [|lia].
    destruct z as [|p|p]; [lia | lia | reflexivity].
  - destruct (Z.leb_spec z 9007199254740992) as [_|H']; [reflexivity | lia].
Qed.

(** Reading back the decimal text of an integer gives the integer. *)
Theorem parseInt_number_to_string (z : Z) :
  Z.abs z <= 9007199254740992 ->
  parseInt (number_to_string (Int z)) = Int z.
Proof.
  intros Hz. rewrite (number_to_string_exact z Hz).
  rewrite <- (to_number_exact z Hz).
  rewrite <- (DecimalZ.of_to z) at 2.
  destruct z as [|p|p]; [reflexivity|..]; cbn [Z.to_int NilZero.string_of_int Z.of_int];
    pose proof (Unsigned.to_uint_nonnil p) as Hn;
    rewrite (string_of_uint_nonnil _ Hn).
  - destruct (string_of_uint_head _ Hn) as (c & r & Es & Hc).
    rewrite Es, (parseInt_digit_head c r Hc), <- Es, (parse_uint _ 1 Hn).
    f_equal; lia.
  - unfold parseInt. cbn [trim_start].
    change (is_white "-") with false. cbn [split_sign].
    rewrite (parse_uint _ (-1) Hn). f_equal; lia.
Qed.

Lemma starts_numeric_parseInt (s : string) :
  if starts_numeric s
  then exists z, parseInt s = to_number z
  else parseInt s = NaN.
Proof.
  unfold starts_numeric, parseInt.
  destruct (split_sign (trim_start s)) as [sign body]. cbn [snd].
  destruct body as [|c r]; [reflexivity|]. cbn [digits_prefix].
  destruct (is_digit c); [eauto | reflexivity].
Qed.

(** Above 2^53 the integer that is read is rounded to the nearest
    double, and to an infinity beyond the doubles. *)
Example parseInt_rounds :
  map parseInt [ "9007199254740992"; "9007199254740993"; "-9007199254740995";
                 "1152921504606846977" ]
  = [ Int 9007199254740992; Int 9007199254740992; Int (-9007199254740996);
      Int 1152921504606846976 ]
  /\ map number_to_string [ Int 1152921504606846976; Int 1000000000000000000000;
                            Int (-8080); Infinity false ]
     = [ "1152921504606847000"; "1e+21"; "-8080"; "Infinity" ].
Proof. split; vm_compute; reflexivity. Qed.

Example parseInt_examples :
  map parseInt [ "8080"; "3000"; "abc"; "8080abc"; " 42"; "-7"; "+"; "port" ]
  = [ Int 8080; Int 3000; NaN; Int 8080; Int 42; Int (-7); NaN; NaN ].
Proof. reflexivity. Qed.

End ParseInt.


Section Printer.

Import Doc.

Lemma unlines_lines (l : list string) : unlines l = Traefik.lines l.
Proof.
  unfold Traefik.lines. induction l as [|x r IH]; [reflexivity|].
  destruct r as [|y r]; [reflexivity|].
  change (unlines (x :: y :: r)) with (x +:+ line_feed +:+ unlines (y :: r)).
  rewrite IH. reflexivity.
Qed.

Lemma text_app (l1 l2 : list string) :
  fold_right (fun l acc => line_feed +:+ l +:+ acc) EmptyString (l1 ++ l2)
  = fold_right (fun l acc => line_feed +:+ l +:+ acc) EmptyString l1
    +:+ fold_right (fun l acc => line_feed +:+ l +:+ acc) EmptyString l2.
Proof.
  induction l1 as [|l ls IH]; [reflexivity|].
  cbn [fold_right app]. rewrite IH, !append_assoc. reflexivity.
Qed.

Lemma section_app {A} (f : A -> list string) (es1 es2 : list (entry A)) :
  section f (es1 ++ es2) = section f es1 +:+ section f es2.
Proof. unfold section. rewrite flat_map_app. apply text_app. Qed.

(** Both sides are right-nested concatenations of the same pieces. *)
Ltac same_text :=
  cbv [Traefik.lines String.concat section entry_lines router_lines
       service_lines middleware_lines bullets flat_map map fold_right app
       r_comment r_name r_host r_entryPoints r_middlewares
       r_service r_certResolver r_priority
       s_name s_url s_healthCheck h_path h_interval h_timeout
       secure_router redirect_router api_router api_http_router
       studio_router studio_http_router api_service studio_service dq nl
       line_feed quote];
  repeat (first [rewrite !append_assoc | progress simpl]);
  reflexivity.

Lemma api_routers_section (slug domain : string) :
  section router_lines
    [ Decl (api_router slug domain); Blank; Decl (api_http_router slug domain) ]
  = Traefik.api_routers slug domain.
Proof. unfold Traefik.api_routers. same_text. Qed.

Lemma studio_routers_section (slug domain : string) :
  section router_lines
    [ Blank; Decl (studio_router slug domain); Blank; Decl (studio_http_router slug domain) ]
  = Traefik.studio_routers slug domain.
Proof. unfold Traefik.studio_routers. same_text. Qed.

Lemma api_services_section (slug : string) (port : number) :
  section service_lines [ Decl (api_service slug port) ] = Traefik.api_services slug port.
Proof. unfold Traefik.api_services. same_text. Qed.

Lemma studio_services_section (slug : string) (port : number) :
  section service_lines [ Blank; Decl (studio_service slug port) ]
  = Traefik.studio_services slug port.
Proof. unfold Traefik.studio_services. same_text. Qed.

Theorem print_project_document (w : World) (config : Traefik.Config.TraefikConfig) :
  print (project_document w config) = Traefik.traefikConfig w config.
Proof.
  destruct config as [slug domain studio kong sport].
  unfold print. rewrite unlines_lines.
  unfold project_document, Traefik.traefikConfig.
  cbn [Traefik.Config.projectSlug Traefik.Config.domain Traefik.Config.studioDomain
       Traefik.Config.kongPort Traefik.Config.studioPort
       d_header d_routers d_services d_middlewares].
  rewrite !section_app.
  destruct domain as [|d0 domain]; destruct studio as [[|s0 studio]|];
    cbn [truthy truthy_opt or_default];
    rewrite ?api_routers_section, ?studio_routers_section,
      ?api_services_section, ?studio_services_section;
    change (section router_lines []) with EmptyString;
    change (section service_lines []) with EmptyString;
    rewrite ?append_nil_r; reflexivity.
Qed.

(** The frame of the file around the routers [R] and the services [S]. *)
Lemma lines_frame (h1 h2 h3 h4 R m1 m2 m3 m4 S : string) :
  Traefik.lines
    [ h1; h2; h3; h4; EmptyString; "http:"; "  routers:" +:+ R; EmptyString;
      "  middlewares:"; m1; m2; m3; m4; EmptyString; "  services:" +:+ S;
      EmptyString ]
  = (h1 +:+ nl +:+ h2 +:+ nl +:+ h3 +:+ nl +:+ h4 +:+ nl +:+ nl +:+ "http:" +:+ nl
       +:+ "  routers:")
      +:+ R
      +:+ (nl +:+ nl +:+ "  middlewares:" +:+ nl +:+ m1 +:+ nl +:+ m2 +:+ nl +:+ m3
             +:+ nl +:+ m4 +:+ nl +:+ nl +:+ "  services:")
      +:+ S +:+ nl.
Proof.
  unfold Traefik.lines. cbn [String.concat]. rewrite !append_assoc. simpl. reflexivity.
Qed.

(** With both domains, the text holds the four blocks of the template
    literals, in this order. *)
Lemma traefikConfig_both_blocks (w : World) (config : Traefik.Config.TraefikConfig)
    (d s : string) :
  Traefik.Config.domain config = d ->
  Traefik.Config.studioDomain config = Some s ->
  truthy d = true ->
  truthy s = true ->
  exists head middle tail,
    Traefik.traefikConfig w config
    = head
        +:+ (Traefik.api_routers (Traefik.Config.projectSlug config) d
               +:+ Traefik.studio_routers (Traefik.Config.projectSlug config) s)
        +:+ middle
        +:+ (Traefik.api_services (Traefik.Config.projectSlug config)
               (Traefik.Config.kongPort config)
               +:+ Traefik.studio_services (Traefik.Config.projectSlug config)
                     (Traefik.Config.studioPort config))
        +:+ tail.
Proof.
  intros Hd Hs Td Ts. unfold Traefik.traefikConfig. rewrite Hd, Hs, Td, Ts.
  rewrite lines_frame. do 3 eexists. reflexivity.
Qed.

End Printer.


Section Handlers.

Lemma verifyDomainDNS_run (w : World) (d : string) (st : State) :
  Traefik.verifyDomainDNS w d st = (Ok (resolves w d), st).
Proof.
  unfold Traefik.verifyDomainDNS, resolves, try_catch, bind, lift, ret.
  destruct (import_dns w) as [dns|e]; [|reflexivity].
  destruct (resolve4 dns d) as [[|a l]|e]; reflexivity.
Qed.

Lemma verify_if_run (w : World) (v : jsval) (st : State) :
  (if truthy_val v then Traefik.verifyDomainDNS w (to_string v) else ret false) st
  = (Ok (dnsValid w v), st).
Proof.
  unfold dnsValid. destruct (truthy_val v); [apply verifyDomainDNS_run | reflexivity].
Qed.

Lemma generate_run (w : World) (config : Traefik.Config.TraefikConfig) (st : State) :
  Traefik.generateProjectTraefikConfig w config st
  = (Ok tt, set_files st (<[Traefik.configPath w (Traefik.Config.projectSlug config)
                             := Traefik.traefikConfig w config]> (files st))).
Proof. reflexivity. Qed.

End Handlers.

(** ** The port reader *)

Section Ports.

Import Traefik.

(** C8. [getProjectPorts] is a function of the variable map alone.  A
    missing [KONG_HTTP_PORT] gives the gateway port 8000 and a missing
    [STUDIO_PORT] the Studio port 3000; a key that is present with a
    non-empty value gives [parseInt] of that value, which for the
    decimal text of an integer up to 2^53 (in absolute value) is that
    integer; a larger one is read as the nearest double.  A map with
    [KONG_HTTP_PORT=8080] and no [STUDIO_PORT] gives 8080 and 3000. *)
Theorem getProjectPorts_parsed_with_defaults
    (envVars : gmap string string) (kong : option string) (studio : option string) :
  envVars !! "KONG_HTTP_PORT" = kong ->
  envVars !! "STUDIO_PORT" = studio ->
  (kong = None -> kongPort (getProjectPorts envVars) = Int 8000)
  /\ (studio = None -> studioPort (getProjectPorts envVars) = Int 3000)
  /\ (forall v, kong = Some v -> v <> EmptyString ->
        kongPort (getProjectPorts envVars) = parseInt v)
  /\ (forall v, studio = Some v -> v <> EmptyString ->
        studioPort (getProjectPorts envVars) = parseInt v)
  /\ (forall z, Z.abs z <= 9007199254740992 ->
        kong = Some (number_to_string (Int z)) ->
        kongPort (getProjectPorts envVars) = Int z)
  /\ (forall z, Z.abs z <= 9007199254740992 ->
        studio = Some (number_to_string (Int z)) ->
        studioPort (getProjectPorts envVars) = Int z)
  /\ (kong = Some "8080" -> studio = None ->
        getProjectPorts envVars = {| kongPort := Int 8080; studioPort := Int 3000 |}).
Proof.
  intros <- <-. unfold getProjectPorts. cbn [kongPort studioPort].
  assert (Hne : forall v, v <> EmptyString -> or_default (Some v) "8000" = v
                                             /\ or_default (Some v) "3000" = v).
  { intros [|c v] Hv; [congruence | split; reflexivity]. }
  assert (Hnum : forall z, Z.abs z <= 9007199254740992 ->
                           number_to_string (Int z) <> EmptyString).
  { intros z Hz E. pose proof (parseInt_number_to_string z Hz) as P.
    rewrite E in P. discriminate P. }
  repeat split.
  - intros ->. reflexivity.
  - intros ->. reflexivity.
  - intros v -> Hv. destruct (Hne v Hv) as [-> _]. reflexivity.
  - intros v -> Hv. destruct (Hne v Hv) as [_ ->]. reflexivity.
  - intros z Hz ->. destruct (Hne _ (Hnum z Hz)) as [-> _].
    apply parseInt_number_to_string. exact Hz.
  - intros z Hz ->. destruct (Hne _ (Hnum z Hz)) as [_ ->].
    apply parseInt_number_to_string. exact Hz.
  - intros -> ->. reflexivity.
Qed.

Lemma getProjectPorts_parsed_with_defaults_witness :
  let envVars : gmap string string := <["KONG_HTTP_PORT" := "8080"]> ∅ in
  envVars !! "KONG_HTTP_PORT" = Some "8080"
  /\ envVars !! "STUDIO_PORT" = None
  /\ getProjectPorts envVars = {| kongPort := Int 8080; studioPort := Int 3000 |}.
Proof.
  intros envVars.
  assert (Hk : envVars !! "KONG_HTTP_PORT" = Some "8080") by reflexivity.
  assert (Hs : envVars !! "STUDIO_PORT" = None) by reflexivity.
  split; [exact Hk | split; [exact Hs |]].
  apply (getProjectPorts_parsed_with_defaults envVars _ _ Hk Hs); reflexivity.
Defined.

(** C9. The defaults 8000 and 3000 are used when the key is absent or
    its value is the empty string, and only then: a key with a
    non-empty value gives [parseInt] of that value, and when the value
    does not begin with a decimal digit (after white space and one
    optional sign) the port is [NaN], not the default; so it is for
    [KONG_HTTP_PORT=abc]. *)
Theorem getProjectPorts_default_only_when_absent_or_empty
    (envVars : gmap string string) (kong : option string) (studio : option string) :
  envVars !! "KONG_HTTP_PORT" = kong ->
  envVars !! "STUDIO_PORT" = studio ->
  (kong = None \/ kong = Some EmptyString -> kongPort (getProjectPorts envVars) = Int 8000)
  /\ (studio = None \/ studio = Some EmptyString ->
        studioPort (getProjectPorts envVars) = Int 3000)
  /\ (forall v, kong = Some v -> v <> EmptyString ->
        kongPort (getProjectPorts envVars) = parseInt v
        /\ (starts_numeric v = false -> kongPort (getProjectPorts envVars) = NaN))
  /\ (forall v, studio = Some v -> v <> EmptyString ->
        studioPort (getProjectPorts envVars) = parseInt v
        /\ (starts_numeric v = false -> studioPort (getProjectPorts envVars) = NaN))
  /\ (kong = Some "abc" -> kongPort (getProjectPorts envVars) = NaN).
Proof.
  intros <- <-. unfold getProjectPorts. cbn [kongPort studioPort].
  assert (Hnan : forall v, starts_numeric v = false -> parseInt v = NaN).
  { intros v Hv. pose proof (starts_numeric_parseInt v) as P. rewrite Hv in P. exact P. }
  assert (Hne : forall v, v <> EmptyString -> or_default (Some v) "8000" = v
                                             /\ or_default (Some v) "3000" = v).
  { intros [|c v] Hv; [congruence | split; reflexivity]. }
  split; [|split; [|split; [|split]]].
  - intros [-> | ->]; reflexivity.
  - intros [-> | ->]; reflexivity.
  - intros v -> Hv. destruct (Hne v Hv) as [-> _]. auto.
  - intros v -> Hv. destruct (Hne v Hv) as [_ ->]. auto.
  - intros ->. reflexivity.
Qed.

Lemma getProjectPorts_default_only_when_absent_or_empty_witness :
  let envVars : gmap string string := <["KONG_HTTP_PORT" := "abc"]> ∅ in
  envVars !! "KONG_HTTP_PORT" = Some "abc"
  /\ envVars !! "STUDIO_PORT" = None
  /\ kongPort (getProjectPorts envVars) = NaN
  /\ studioPort (getProjectPorts envVars) = Int 3000.
Proof.
  intros envVars.
  assert (Hk : envVars !! "KONG_HTTP_PORT" = Some "abc") by reflexivity.
  assert (Hs : envVars !! "STUDIO_PORT" = None) by reflexivity.
  split; [exact Hk | split; [exact Hs |]].
  pose proof (getProjectPorts_default_only_when_absent_or_empty envVars _ _ Hk Hs)
    as (_ & Hstudio & _ & _ & Habc).
  split; [apply Habc; reflexivity | apply Hstudio; left; reflexivity].
Defined.

End Ports.

(** ** The DNS check *)

Section Dns.

Import Traefik.

(** C5. [verifyDomainDNS] always returns a boolean and never throws.
    The boolean is [true] exactly when the [dns] module loads and
    [resolve4] gives one address at least; it is [false] when
    [resolve4] fails, whatever the error. *)
Theorem verifyDomainDNS_boolean (w : World) (domain : string) (st : State) :
  exists b : bool,
    verifyDomainDNS w domain st = (Ok b, st)
    /\ (b = true <->
        exists dns a addresses,
          import_dns w = Ok dns /\ resolve4 dns domain = Ok (a :: addresses))
    /\ (forall dns e,
          import_dns w = Ok dns -> resolve4 dns domain = Throw e -> b = false).
Proof.
  exists (resolves w domain). split; [apply verifyDomainDNS_run|].
  unfold resolves. destruct (import_dns w) as [dns|e0].
  - destruct (resolve4 dns domain) as [[|a l]|e] eqn:E; split.
    + split; [discriminate|]. intros (dns' & a & l & [= <-] & H). congruence.
    + reflexivity.
    + split; [eauto|reflexivity].
    + intros dns' e [= <-] H. congruence.
    + split; [discriminate|]. intros (dns' & a & l & [= <-] & H). congruence.
    + reflexivity.
  - split; [split; [discriminate|]|].
    + intros (dns & _ & _ & H & _). discriminate H.
    + reflexivity.
Qed.

(** [verifyDomainDNS] reads the A records only. *)
Lemma verifyDomainDNS_reads_A_only (w w' : World) (dns dns' : DnsPromises)
    (domain : string) (st : State) :
  import_dns w = Ok dns -> import_dns w' = Ok dns' ->
  resolve4 dns domain = resolve4 dns' domain ->
  verifyDomainDNS w domain st = verifyDomainDNS w' domain st.
Proof.
  intros H H' E. rewrite !verifyDomainDNS_run. unfold resolves.
  rewrite H, H', E. reflexivity.
Qed.

(** C10. Only [resolve4] is called.  For a domain with AAAA records and
    no A record ([resolve4] fails, or gives no address), the check
    returns [false]. *)
Theorem verifyDomainDNS_ipv6_only_unverified (w : World) (dns : DnsPromises)
    (domain : string) (st : State) :
  import_dns w = Ok dns ->
  (exists a addresses, resolve6 dns domain = Ok (a :: addresses)) ->
  ((exists e, resolve4 dns domain = Throw e) \/ resolve4 dns domain = Ok []) ->
  verifyDomainDNS w domain st = (Ok false, st).
Proof.
  intros Hdns _ H4. rewrite verifyDomainDNS_run. unfold resolves. rewrite Hdns.
  destruct H4 as [[e ->] | ->]; reflexivity.
Qed.

Lemma verifyDomainDNS_ipv6_only_unverified_witness :
  import_dns Demo.world = Ok Demo.dns
  /\ (exists a addresses, resolve6 Demo.dns "v6.demo.test" = Ok (a :: addresses))
  /\ ((exists e, resolve4 Demo.dns "v6.demo.test" = Throw e)
      \/ resolve4 Demo.dns "v6.demo.test" = Ok [])
  /\ verifyDomainDNS Demo.world "v6.demo.test" Demo.state = (Ok false, Demo.state).
Proof.
  assert (H6 : exists a addresses, resolve6 Demo.dns "v6.demo.test" = Ok (a :: addresses)).
  { exists "2001:db8::7", []. reflexivity. }
  assert (H4 : (exists e, resolve4 Demo.dns "v6.demo.test" = Throw e)
               \/ resolve4 Demo.dns "v6.demo.test" = Ok []).
  { left. exists (DnsError "ENODATA"). reflexivity. }
  split; [reflexivity | split; [exact H6 | split; [exact H4 |]]].
  exact (verifyDomainDNS_ipv6_only_unverified Demo.world Demo.dns "v6.demo.test"
           Demo.state eq_refl H6 H4).
Defined.

End Dns.

(** ** Rendering *)

Section Rendering.

Import Traefik Doc.

(** C4. Rendering with an API domain and a Studio domain writes the
    text of a document with exactly four routers, in this order: for
    each domain a [websecure] router with [tls.certResolver]
    [letsencrypt] at priority 10 and a [web] router with the
    [https-redirect] middleware at priority 5; and exactly two
    services.  Rendering with the API domain only writes the two API
    routers and the API service, and no Studio router or service. *)
Theorem render_both_and_api_only (w : World) (slug domain studio : string)
    (absent : option string) (kong sport : number) (st : State) :
  truthy domain = true ->
  truthy studio = true ->
  truthy_opt absent = false ->
  let both :=
    {| Config.projectSlug := slug; Config.domain := domain;
       Config.studioDomain := Some studio;
       Config.kongPort := kong; Config.studioPort := sport |} in
  let api_only :=
    {| Config.projectSlug := slug; Config.domain := domain;
       Config.studioDomain := absent;
       Config.kongPort := kong; Config.studioPort := sport |} in
  (generateProjectTraefikConfig w both st
   = (Ok tt, set_files st (<[configPath w slug := traefikConfig w both]> (files st)))
   /\ traefikConfig w both = print (project_document w both)
   /\ routers (project_document w both)
      = [ {| r_comment := "Main API router (Kong gateway)";
             r_name := slug +:+ "-api"; r_host := domain;
             r_entryPoints := [ "websecure" ]; r_middlewares := [];
             r_service := slug +:+ "-api";
             r_certResolver := Some "letsencrypt"; r_priority := 10 |};
          {| r_comment := "HTTP redirect for API";
             r_name := slug +:+ "-api-http"; r_host := domain;
             r_entryPoints := [ "web" ]; r_middlewares := [ "https-redirect" ];
             r_service := slug +:+ "-api";
             r_certResolver := None; r_priority := 5 |};
          {| r_comment := "Studio router";
             r_name := slug +:+ "-studio"; r_host := studio;
             r_entryPoints := [ "websecure" ]; r_middlewares := [];
             r_service := slug +:+ "-studio";
             r_certResolver := Some "letsencrypt"; r_priority := 10 |};
          {| r_comment := "HTTP redirect for Studio";
             r_name := slug +:+ "-studio-http"; r_host := studio;
             r_entryPoints := [ "web" ]; r_middlewares := [ "https-redirect" ];
             r_service := slug +:+ "-studio";
             r_certResolver := None; r_priority := 5 |} ]
   /\ map s_name (services (project_document w both))
      = [ slug +:+ "-api"; slug +:+ "-studio" ]
   /\ map s_url (services (project_document w both))
      = [ "http://" +:+ slug +:+ "-kong:" +:+ number_to_string kong;
          "http://" +:+ slug +:+ "-studio:" +:+ number_to_string sport ])
  /\ (generateProjectTraefikConfig w api_only st
      = (Ok tt, set_files st (<[configPath w slug := traefikConfig w api_only]> (files st)))
      /\ traefikConfig w api_only = print (project_document w api_only)
      /\ routers (project_document w api_only)
         = [ {| r_comment := "Main API router (Kong gateway)";
                r_name := slug +:+ "-api"; r_host := domain;
                r_entryPoints := [ "websecure" ]; r_middlewares := [];
                r_service := slug +:+ "-api";
                r_certResolver := Some "letsencrypt"; r_priority := 10 |};
             {| r_comment := "HTTP redirect for API";
                r_name := slug +:+ "-api-http"; r_host := domain;
                r_entryPoints := [ "web" ]; r_middlewares := [ "https-redirect" ];
                r_service := slug +:+ "-api";
                r_certResolver := None; r_priority := 5 |} ]
      /\ map s_name (services (project_document w api_only)) = [ slug +:+ "-api" ]).
Proof.
  intros Hd Hs Ha both api_only. split.
  - split; [apply generate_run|]. split; [symmetry; apply print_project_document|].
    assert (E : or_default (Some studio) EmptyString = studio).
    { cbn [or_default]. rewrite Hs. reflexivity. }
    unfold routers, services, project_document, both.
    cbn [Config.projectSlug Config.domain Config.studioDomain Config.kongPort
         Config.studioPort d_routers d_services].
    rewrite E, Hs, Hd. repeat split; reflexivity.
  - split; [apply generate_run|]. split; [symmetry; apply print_project_document|].
    assert (E : truthy (or_default absent EmptyString) = false).
    { destruct absent as [a|]; [|reflexivity]. cbn in Ha |- *. rewrite Ha. reflexivity. }
    unfold routers, services, project_document, api_only.
    cbn [Config.projectSlug Config.domain Config.studioDomain Config.kongPort
         Config.studioPort d_routers d_services].
    rewrite E, Hd. repeat split; reflexivity.
Qed.

Lemma render_both_and_api_only_witness :
  let both :=
    {| Config.projectSlug := "demo"; Config.domain := "api.demo.test";
       Config.studioDomain := Some "studio.demo.test";
       Config.kongPort := Int 8080; Config.studioPort := Int 3000 |} in
  truthy "api.demo.test" = true
  /\ truthy "studio.demo.test" = true
  /\ truthy_opt None = false
  /\ generateProjectTraefikConfig Demo.world both Demo.state
     = (Ok tt, set_files Demo.state
                 (<[Demo.demo_yml := traefikConfig Demo.world both]> (files Demo.state)))
  /\ map r_name (routers (project_document Demo.world both))
     = [ "demo-api"; "demo-api-http"; "demo-studio"; "demo-studio-http" ].
Proof.
  intros both.
  split; [reflexivity | split; [reflexivity | split; [reflexivity |]]].
  destruct (render_both_and_api_only Demo.world "demo" "api.demo.test" "studio.demo.test"
              None (Int 8080) (Int 3000) Demo.state eq_refl eq_refl eq_refl)
    as [(Hrun & _ & Hrouters & _) _].
  split; [exact Hrun|]. fold both in Hrouters. rewrite Hrouters. reflexivity.
Defined.

End Rendering.

(** ** Removing the domains of a project *)

Section Removal.

Import Traefik.

Lemma removeProjectTraefikConfig_run (w : World) (slug : string) (st : State) :
  exists st',
    removeProjectTraefikConfig w slug st = (Ok tt, st')
    /\ files st' = delete (configPath w slug) (files st)
    /\ projects st' = projects st
    /\ panelSettings st' = panelSettings st.
Proof.
  unfold removeProjectTraefikConfig, try_catch, bind, Fs.unlink.
  destruct (files st !! configPath w slug) eqn:E.
  - eexists. split; [reflexivity|]. repeat split.
  - exists st. split; [reflexivity|]. rewrite files_delete_id by exact E. repeat split.
Qed.

(** C1, as the code has it.  Removing the domains of a project deletes
    its routing file: the row loses both domains and both verified
    flags, no file is left at [<dynamic-config-dir>/<slug>.yml] (a
    missing file is not an error), every other file is untouched, and
    the handler answers with success. *)
Theorem domain_removal_deletes_routing_file (w : World) (token id : string)
    (st : State) (project : Db.Project) :
  truthy token = true ->
  validateSession w token = true ->
  projects st !! id = Some project ->
  exists st',
    DomainRoute.DELETE w (Some token) id st
    = (Ok (json (SuccessBody "Domains removed successfully")), st')
    /\ projects st' = <[id := DomainRoute.clearData project]> (projects st)
    /\ files st' = delete (configPath w (Db.slug project)) (files st)
    /\ files st' !! configPath w (Db.slug project) = None.
Proof.
  intros Htok Hsess Hp.
  unfold DomainRoute.DELETE, try_catch. cbn [truthy_opt or_default].
  rewrite Htok, Hsess. cbn [negb].
  unfold bind at 1. unfold Prisma.findUnique at 1. rewrite Hp.
  unfold bind at 1. unfold Prisma.update at 1. rewrite Hp.
  unfold bind at 1.
  destruct (removeProjectTraefikConfig_run w (Db.slug project)
              (set_projects st (<[id := DomainRoute.clearData project]> (projects st))))
    as (st' & -> & Hf & Hpr & _).
  exists st'. split; [reflexivity|]. split; [exact Hpr|]. split; [exact Hf|].
  rewrite Hf. apply files_lookup_delete.
Qed.

Lemma domain_removal_deletes_routing_file_witness :
  truthy "token" = true
  /\ validateSession Demo.world "token" = true
  /\ projects Demo.state !! "A" = Some Demo.alpha
  /\ exists st',
       DomainRoute.DELETE Demo.world (Some "token") "A" Demo.state
       = (Ok (json (SuccessBody "Domains removed successfully")), st')
       /\ files st' !! configPath Demo.world "alpha" = None.
Proof.
  split; [reflexivity | split; [reflexivity | split; [reflexivity |]]].
  destruct (domain_removal_deletes_routing_file Demo.world "token" "A" Demo.state
              Demo.alpha eq_refl eq_refl eq_refl) as (st' & Hrun & _ & _ & Hnone).
  exists st'. split; [exact Hrun | exact Hnone].
Defined.

(** C1 as stated fails: the routing file of project [A] exists before
    its domains are removed and no file, placeholder or other, exists
    at that path afterwards. *)
Lemma domain_removal_leaves_no_placeholder :
  Traefik.configPath Demo.world (Db.slug Demo.alpha) = Demo.alpha_yml
  /\ is_Some (files Demo.state !! Demo.alpha_yml)
  /\ fst (DomainRoute.DELETE Demo.world (Some "token") "A" Demo.state)
     = Ok (json (SuccessBody "Domains removed successfully"))
  /\ ~ (exists content,
          files (snd (DomainRoute.DELETE Demo.world (Some "token") "A" Demo.state))
            !! Demo.alpha_yml = Some content).
Proof.
  split; [reflexivity|]. split; [eexists; reflexivity|]. split; [vm_compute; reflexivity|].
  intros [content H]. vm_compute in H. discriminate H.
Qed.

(** The file of the panel itself is handled otherwise: it is
    overwritten with two comment lines. *)
Lemma removePanelTraefikConfig_run (w : World) (st : State) :
  removePanelTraefikConfig w st
  = (Ok tt, set_files st (<[Fs.join (getTraefikDynamicPath w) "panel.yml" := emptyConfig]>
                            (files st))).
Proof. reflexivity. Qed.

End Removal.

(** ** Updating the domains of a project *)

Section Update.

Import Traefik Doc.

Lemma findFirst_domain_run (v : jsval) (id : string) (st : State) :
  (if truthy_val v then Prisma.findFirst_domain (to_string v) id else ret false) st
  = (Ok (truthy_val v && bool_decide (api_domain_taken st (to_string v) id)), st).
Proof. destruct (truthy_val v); reflexivity. Qed.

Lemma findFirst_studioDomain_run (v : jsval) (id : string) (st : State) :
  (if truthy_val v then Prisma.findFirst_studioDomain (to_string v) id else ret false) st
  = (Ok (truthy_val v && bool_decide (studio_domain_taken st (to_string v) id)), st).
Proof. destruct (truthy_val v); reflexivity. Qed.

(** The answer of [PUT] to a request with a live session. *)
Lemma PUT_run (w : World) (token id : string) (domain studioDomain : jsval) (st : State) :
  truthy token = true ->
  validateSession w token = true ->
  DomainRoute.PUT w (Some token) id domain studioDomain st
  = if truthy_val domain && negb (domainRegex_test (to_string domain))
    then (Ok (json_error "Invalid API domain format" 400), st)
    else if truthy_val studioDomain && negb (domainRegex_test (to_string studioDomain))
    then (Ok (json_error "Invalid Studio domain format" 400), st)
    else if negb (truthy_val domain) && negb (truthy_val studioDomain)
    then (Ok (json_error "At least one domain is required" 400), st)
    else
      match projects st !! id with
      | None => (Ok (json_error "Project not found" 404), st)
      | Some project =>
          if truthy_val domain && bool_decide (api_domain_taken st (to_string domain) id)
          then (Ok (json_error "API domain is already in use" 409), st)
          else if truthy_val studioDomain
                  && bool_decide (studio_domain_taken st (to_string studioDomain) id)
          then (Ok (json_error "Studio domain is already in use" 409), st)
          else
            let a := dnsValid w domain in
            let s := dnsValid w studioDomain in
            let updated := DomainRoute.updateData domain studioDomain a s project in
            let st1 := set_projects st (<[id := updated]> (projects st)) in
            (Ok (json (DomainBody (Db.domain updated) (Db.domainVerified updated)
                                  (Db.studioDomain updated)
                                  (Db.studioDomainVerified updated)
                                  (DomainRoute.message domain studioDomain a s))),
             if truthy_opt (or_stored domain (Db.domain updated))
                || truthy_opt (or_stored studioDomain (Db.studioDomain updated))
             then set_files st1
                    (<[configPath w (Db.slug project)
                       := traefikConfig w (rendered domain studioDomain project updated)]>
                       (files st))
             else st1)
      end.
Proof.
  intros Htok Hsess.
  unfold DomainRoute.PUT, try_catch.
  cbn [truthy_opt or_default]. rewrite Htok, Hsess. cbn [negb].
  destruct (truthy_val domain && negb (domainRegex_test (to_string domain)));
    [reflexivity|].
  destruct (truthy_val studioDomain && negb (domainRegex_test (to_string studioDomain)));
    [reflexivity|].
  destruct (negb (truthy_val domain) && negb (truthy_val studioDomain)); [reflexivity|].
  unfold bind at 1. unfold Prisma.findUnique at 1.
  destruct (projects st !! id) as [project|] eqn:Hp; [|reflexivity].
  unfold bind at 1. rewrite findFirst_domain_run.
  destruct (truthy_val domain && bool_decide (api_domain_taken st (to_string domain) id));
    [reflexivity|].
  unfold bind at 1. rewrite findFirst_studioDomain_run.
  destruct (truthy_val studioDomain
            && bool_decide (studio_domain_taken st (to_string studioDomain) id));
    [reflexivity|].
  unfold bind at 1. rewrite verify_if_run.
  unfold bind at 1. rewrite verify_if_run.
  unfold bind at 1. unfold Prisma.update at 1. rewrite Hp.
  unfold bind at 1. cbv zeta.
  destruct (truthy_opt _ || truthy_opt _).
  - rewrite generate_run. reflexivity.
  - reflexivity.
Qed.

(** A request that passes the session and format checks, for a project
    that exists, is answered by the two uniqueness checks or accepted. *)
Lemma PUT_validated (w : World) (token id : string) (domain studioDomain : jsval)
    (st : State) (project : Db.Project) :
  truthy token = true ->
  validateSession w token = true ->
  (truthy_val domain = true -> domainRegex_test (to_string domain) = true) ->
  (truthy_val studioDomain = true -> domainRegex_test (to_string studioDomain) = true) ->
  truthy_val domain || truthy_val studioDomain = true ->
  projects st !! id = Some project ->
  DomainRoute.PUT w (Some token) id domain studioDomain st
  = if truthy_val domain && bool_decide (api_domain_taken st (to_string domain) id)
    then (Ok (json_error "API domain is already in use" 409), st)
    else if truthy_val studioDomain
            && bool_decide (studio_domain_taken st (to_string studioDomain) id)
    then (Ok (json_error "Studio domain is already in use" 409), st)
    else
      let a := dnsValid w domain in
      let s := dnsValid w studioDomain in
      let updated := DomainRoute.updateData domain studioDomain a s project in
      let st1 := set_projects st (<[id := updated]> (projects st)) in
      (Ok (json (DomainBody (Db.domain updated) (Db.domainVerified updated)
                            (Db.studioDomain updated) (Db.studioDomainVerified updated)
                            (DomainRoute.message domain studioDomain a s))),
       if truthy_opt (or_stored domain (Db.domain updated))
          || truthy_opt (or_stored studioDomain (Db.studioDomain updated))
       then set_files st1
              (<[configPath w (Db.slug project)
                 := traefikConfig w (rendered domain studioDomain project updated)]>
                 (files st))
       else st1).
Proof.
  intros Htok Hsess Hfd Hfs Hone Hp.
  rewrite (PUT_run w token id domain studioDomain st Htok Hsess), Hp.
  assert (E1 : truthy_val domain && negb (domainRegex_test (to_string domain)) = false).
  { destruct (truthy_val domain); [rewrite Hfd by reflexivity|]; reflexivity. }
  assert (E2 : truthy_val studioDomain
               && negb (domainRegex_test (to_string studioDomain)) = false).
  { destruct (truthy_val studioDomain); [rewrite Hfs by reflexivity|]; reflexivity. }
  assert (E3 : negb (truthy_val domain) && negb (truthy_val studioDomain) = false).
  { destruct (truthy_val domain), (truthy_val studioDomain); simpl in *; congruence. }
  rewrite E1, E2, E3. reflexivity.
Qed.

(** The uniqueness check that the handler makes, one per attribute.
    For distinct projects [A] and [B], an update of [B] that passes
    the format checks and sets its API domain to the API domain of
    [A], or its Studio domain to the Studio domain of [A], is answered
    with status 409 (a format error has status 400), and the database
    and the files are left as they were. *)
Theorem same_attribute_conflict_rejected (w : World) (token A B d : string)
    (domain studioDomain : jsval) (st : State) (pa pb : Db.Project) :
  truthy token = true ->
  validateSession w token = true ->
  A <> B ->
  projects st !! A = Some pa ->
  projects st !! B = Some pb ->
  (truthy_val domain = true -> domainRegex_test (to_string domain) = true) ->
  (truthy_val studioDomain = true -> domainRegex_test (to_string studioDomain) = true) ->
  truthy d = true ->
  (domain = Str d /\ Db.domain pa = Some d)
  \/ (studioDomain = Str d /\ Db.studioDomain pa = Some d) ->
  exists message,
    DomainRoute.PUT w (Some token) B domain studioDomain st
    = (Ok (json_error message 409), st)
    /\ (message = "API domain is already in use"
        \/ message = "Studio domain is already in use").
Proof.
  intros Htok Hsess Hne Ha Hb Hfd Hfs Hd Hheld.
  assert (Hone : truthy_val domain || truthy_val studioDomain = true).
  { destruct Hheld as [[-> _] | [-> _]]; cbn [truthy_val]; rewrite Hd;
      [reflexivity | apply orb_true_r]. }
  rewrite (PUT_validated w token B domain studioDomain st pb Htok Hsess Hfd Hfs Hone Hb).
  destruct Hheld as [[-> Hpa] | [-> Hpa]]; cbn [truthy_val to_string]; rewrite Hd.
  - rewrite bool_decide_eq_true_2; [eauto|].
    exists A, pa. auto.
  - destruct (truthy_val domain && _); [eauto|].
    rewrite bool_decide_eq_true_2; [eauto|].
    exists A, pa. auto.
Qed.

Lemma same_attribute_conflict_rejected_witness :
  truthy "token" = true
  /\ validateSession Demo.world "token" = true
  /\ "A" <> "B"
  /\ projects Demo.state !! "A" = Some Demo.alpha
  /\ projects Demo.state !! "B" = Some Demo.demo
  /\ Db.domain Demo.alpha = Some "api.alpha.test"
  /\ exists message,
       DomainRoute.PUT Demo.world (Some "token") "B" (Str "api.alpha.test") Undefined
         Demo.state
       = (Ok (json_error message 409), Demo.state).
Proof.
  assert (Hne : "A" <> "B") by discriminate.
  split; [reflexivity | split; [reflexivity | split; [exact Hne |]]].
  split; [reflexivity | split; [reflexivity | split; [reflexivity |]]].
  destruct (same_attribute_conflict_rejected Demo.world "token" "A" "B" "api.alpha.test"
              (Str "api.alpha.test") Undefined Demo.state Demo.alpha Demo.demo
              eq_refl eq_refl Hne eq_refl eq_refl
              (fun _ => eq_refl) (fun H => False_ind _ (Bool.diff_false_true H))
              eq_refl (or_introl (conj eq_refl eq_refl)))
    as (message & Hrun & _).
  exists message. exact Hrun.
Defined.

(** C2.  The handler looks for the value among the values of the same
    attribute only, so it accepts what the claim says it rejects:
    project [A] holds [studio.alpha.test] as its Studio domain, and
    the update that sets it as the API domain of project [B] is
    answered 200; the row and the routing file of [B] are written, and
    the files of [A] and of [B] then both route that host.  The same
    host is also accepted for the two domains of one project. *)
Lemma cross_attribute_domain_accepted :
  Db.studioDomain Demo.alpha = Some "studio.alpha.test"
  /\ projects Demo.state !! "A" = Some Demo.alpha
  /\ projects Demo.state !! "B" = Some Demo.demo
  /\ files Demo.state !! Demo.demo_yml = None
  /\ (exists body st' alpha_text demo_text,
        DomainRoute.PUT Demo.world (Some "token") "B" (Str "studio.alpha.test") Undefined
          Demo.state
        = (Ok {| status := 200; body := body |}, st')
        /\ (Db.domain <$> projects st' !! "B") = Some (Some "studio.alpha.test")
        /\ files st' !! Demo.alpha_yml = Some alpha_text
        /\ files st' !! Demo.demo_yml = Some demo_text
        /\ is_Some (String.index 0 "Host(`studio.alpha.test`)" alpha_text)
        /\ is_Some (String.index 0 "Host(`studio.alpha.test`)" demo_text))
  /\ (exists body st',
        DomainRoute.PUT Demo.world (Some "token") "B" (Str "one.demo.test")
          (Str "one.demo.test") Demo.state
        = (Ok {| status := 200; body := body |}, st')
        /\ (Db.domain <$> projects st' !! "B") = Some (Some "one.demo.test")
        /\ (Db.studioDomain <$> projects st' !! "B") = Some (Some "one.demo.test")).
Proof.
  split; [reflexivity | split; [reflexivity | split; [reflexivity | split; [reflexivity |]]]].
  split.
  - do 4 eexists. split; [vm_compute; reflexivity|].
    split; [vm_compute; reflexivity|].
    split; [vm_compute; reflexivity|].
    split; [vm_compute; reflexivity|].
    split; eexists; vm_compute; reflexivity.
  - do 2 eexists. split; [vm_compute; reflexivity|].
    split; vm_compute; reflexivity.
Qed.

(** The routers and services of the document for an API domain [d] and
    a Studio domain [s]. *)
Lemma project_document_both (w : World) (config : Config.TraefikConfig) (d s : string) :
  Config.domain config = d ->
  Config.studioDomain config = Some s ->
  truthy d = true ->
  truthy s = true ->
  let slug := Config.projectSlug config in
  routers (project_document w config)
  = [ api_router slug d; api_http_router slug d;
      studio_router slug s; studio_http_router slug s ]
  /\ services (project_document w config)
     = [ api_service slug (Config.kongPort config);
         studio_service slug (Config.studioPort config) ].
Proof.
  intros Hd Hs Td Ts slug. unfold routers, services, project_document.
  assert (E : or_default (Some s) EmptyString = s).
  { cbn [or_default]. rewrite Ts. reflexivity. }
  cbn [d_routers d_services]. rewrite Hd, Hs, E, Td, Ts. split; reflexivity.
Qed.

(** C3, for a field that the request leaves out.  When a project has
    one of its two domains and an update gives only the other, the
    key of the first being absent from the request ([undefined]), the
    file is rendered from both: the routers and the service of the
    stored domain are in the new file with those of the new domain, as
    entries of the document and as the blocks of text of the template. *)
Theorem partial_update_renders_merged_domains (w : World) (token id d s : string)
    (domain studioDomain : jsval) (st : State) (project : Db.Project) :
  truthy token = true ->
  validateSession w token = true ->
  projects st !! id = Some project ->
  truthy d = true ->
  truthy s = true ->
  (domain = Undefined /\ studioDomain = Str s /\ Db.domain project = Some d
   /\ domainRegex_test s = true /\ ~ studio_domain_taken st s id)
  \/ (studioDomain = Undefined /\ domain = Str d /\ Db.studioDomain project = Some s
      /\ domainRegex_test d = true /\ ~ api_domain_taken st d id) ->
  let slug := Db.slug project in
  let ports := getProjectPorts (DomainRoute.envVarsMap (Db.envVars project)) in
  let merged :=
    {| Config.projectSlug := slug; Config.domain := d; Config.studioDomain := Some s;
       Config.kongPort := kongPort ports; Config.studioPort := studioPort ports |} in
  (exists body st',
     DomainRoute.PUT w (Some token) id domain studioDomain st
     = (Ok {| status := 200; body := body |}, st')
     /\ files st' !! configPath w slug = Some (traefikConfig w merged))
  /\ traefikConfig w merged = print (project_document w merged)
  /\ routers (project_document w merged)
     = [ api_router slug d; api_http_router slug d;
         studio_router slug s; studio_http_router slug s ]
  /\ services (project_document w merged)
     = [ api_service slug (kongPort ports); studio_service slug (studioPort ports) ]
  /\ (exists head middle tail,
        traefikConfig w merged
        = head +:+ (api_routers slug d +:+ studio_routers slug s)
            +:+ middle
            +:+ (api_services slug (kongPort ports)
                   +:+ studio_services slug (studioPort ports))
            +:+ tail).
Proof.
  intros Htok Hsess Hp Td Ts Hcase slug ports merged.
  assert (Hdoc := project_document_both w merged d s eq_refl eq_refl Td Ts).
  cbv zeta in Hdoc. destruct Hdoc as [Hrouters Hservices].
  split; [|split; [symmetry; apply print_project_document|]];
    [| split; [exact Hrouters | split; [exact Hservices|]];
       exact (traefikConfig_both_blocks w merged d s eq_refl eq_refl Td Ts) ].
  assert (Eds : forall o, or_default (or_stored (Str d) o) EmptyString = d).
  { intros o. cbn [or_stored]. rewrite Td. cbn [or_default]. rewrite Td. reflexivity. }
  assert (Ess : forall o, or_default (or_stored (Str s) o) EmptyString = s).
  { intros o. cbn [or_stored]. rewrite Ts. cbn [or_default]. rewrite Ts. reflexivity. }
  assert (Ed : or_default (Some d) EmptyString = d).
  { cbn [or_default]. rewrite Td. reflexivity. }
  assert (Es : or_default (Some s) EmptyString = s).
  { cbn [or_default]. rewrite Ts. reflexivity. }
  destruct Hcase as [(-> & -> & Hold & Hfmt & Hfree) | (-> & -> & Hold & Hfmt & Hfree)].
  - rewrite (PUT_validated w token id Undefined (Str s) st project Htok Hsess);
      [ | discriminate | intros _; exact Hfmt | cbn; rewrite Ts; reflexivity | exact Hp ].
    cbn [truthy_val to_string andb]. rewrite Ts.
    rewrite bool_decide_eq_false_2 by exact Hfree. cbn [andb]. cbv zeta.
    set (updated := DomainRoute.updateData _ _ _ _ _).
    assert (E1 : Db.domain updated = Some d) by exact Hold.
    assert (E2 : rendered Undefined (Str s) project updated = merged).
    { unfold rendered, merged. rewrite Ess. cbn [or_stored]. rewrite E1, Ed. reflexivity. }
    rewrite E1, E2. cbn [or_stored truthy_opt]. rewrite Td. cbn [orb].
    eexists. eexists. split; [reflexivity|].
    cbn [files set_files]. apply files_lookup_insert.
  - rewrite (PUT_validated w token id (Str d) Undefined st project Htok Hsess);
      [ | intros _; exact Hfmt | discriminate | cbn; rewrite Td; reflexivity | exact Hp ].
    cbn [truthy_val to_string andb]. rewrite Td.
    rewrite bool_decide_eq_false_2 by exact Hfree. cbn [andb]. cbv zeta.
    set (updated := DomainRoute.updateData _ _ _ _ _).
    assert (E1 : Db.studioDomain updated = Some s) by exact Hold.
    assert (E2 : rendered (Str d) Undefined project updated = merged).
    { unfold rendered, merged. rewrite Eds. cbn [or_stored]. rewrite E1, Es. reflexivity. }
    assert (Ec : forall o, truthy_opt (or_stored (Str d) o) = true).
    { intros o. cbn [or_stored]. rewrite Td. exact Td. }
    rewrite E2, Ec. cbn [orb].
    eexists. eexists. split; [reflexivity|].
    cbn [files set_files]. apply files_lookup_insert.
Qed.

End Update.

Section Pending.

Import Traefik Doc.

Lemma partial_update_renders_merged_domains_witness :
  let merged :=
    {| Config.projectSlug := "gamma"; Config.domain := "api.gamma.test";
       Config.studioDomain := Some "studio.gamma.test";
       Config.kongPort := Int 8000; Config.studioPort := Int 3000 |} in
  truthy "token" = true
  /\ validateSession Demo.world "token" = true
  /\ projects Demo.state !! "C" = Some Demo.gamma
  /\ Db.domain Demo.gamma = Some "api.gamma.test"
  /\ domainRegex_test "studio.gamma.test" = true
  /\ ~ studio_domain_taken Demo.state "studio.gamma.test" "C"
  /\ (exists body st',
        DomainRoute.PUT Demo.world (Some "token") "C" Undefined (Str "studio.gamma.test")
          Demo.state
        = (Ok {| status := 200; body := body |}, st')
        /\ files st' !! Demo.gamma_yml = Some (traefikConfig Demo.world merged))
  /\ map r_host (routers (project_document Demo.world merged))
     = [ "api.gamma.test"; "api.gamma.test"; "studio.gamma.test"; "studio.gamma.test" ].
Proof.
  intros merged.
  assert (Hfree : ~ studio_domain_taken Demo.state "studio.gamma.test" "C").
  { apply (bool_decide_eq_false_1
             (studio_domain_taken Demo.state "studio.gamma.test" "C")).
    vm_compute. reflexivity. }
  split; [reflexivity | split; [reflexivity | split; [reflexivity |]]].
  split; [reflexivity | split; [reflexivity | split; [exact Hfree |]]].
  destruct (partial_update_renders_merged_domains Demo.world "token" "C"
              "api.gamma.test" "studio.gamma.test" Undefined (Str "studio.gamma.test")
              Demo.state Demo.gamma eq_refl eq_refl eq_refl eq_refl eq_refl
              (or_introl (conj eq_refl (conj eq_refl (conj eq_refl (conj eq_refl Hfree))))))
    as (Hrun & _ & Hrouters & _).
  split; [exact Hrun|]. reflexivity.
Defined.

(** C3 as stated fails when the request names the other field with
    [null]: project [C] has the API domain [api.gamma.test], the update
    gives the Studio domain only, and the stored API domain is cleared;
    the file that is written has the Studio routers and service alone,
    and neither the API domain nor the API router is in its text. *)
Lemma null_field_drops_stored_domain :
  let studio_only :=
    {| Config.projectSlug := "gamma"; Config.domain := EmptyString;
       Config.studioDomain := Some "studio.gamma.test";
       Config.kongPort := Int 8000; Config.studioPort := Int 3000 |} in
  projects Demo.state !! "C" = Some Demo.gamma
  /\ Db.domain Demo.gamma = Some "api.gamma.test"
  /\ exists body st',
       DomainRoute.PUT Demo.world (Some "token") "C" Null (Str "studio.gamma.test")
         Demo.state
       = (Ok {| status := 200; body := body |}, st')
       /\ (Db.domain <$> projects st' !! "C") = Some None
       /\ files st' !! Demo.gamma_yml = Some (print (project_document Demo.world studio_only))
       /\ routers (project_document Demo.world studio_only)
          = [ studio_router "gamma" "studio.gamma.test";
              studio_http_router "gamma" "studio.gamma.test" ]
       /\ services (project_document Demo.world studio_only)
          = [ studio_service "gamma" (Int 3000) ]
       /\ String.index 0 "api.gamma.test" (print (project_document Demo.world studio_only))
          = None
       /\ String.index 0 "gamma-api" (print (project_document Demo.world studio_only))
          = None.
Proof.
  intros studio_only.
  split; [reflexivity | split; [reflexivity|]].
  do 2 eexists. split; [vm_compute; reflexivity|].
  split; [vm_compute; reflexivity|].
  split; [vm_compute; reflexivity|].
  split; [reflexivity|]. split; [reflexivity|].
  split; vm_compute; reflexivity.
Qed.

Lemma decls_app {A} (es1 es2 : list (entry A)) :
  decls (es1 ++ es2) = decls es1 ++ decls es2.
Proof.
  induction es1 as [|[|a] es1 IH]; simpl; [reflexivity | exact IH | f_equal; exact IH].
Qed.

(** C7. An update that passes the format and uniqueness checks
    succeeds whatever the DNS check says.  For a domain of the request
    whose check fails, the domain is stored on the row with its verified
    flag [false], the response has status 200 and a message with the
    [DNS pending] sentence of that domain, and the routing file is
    written with the routers of that domain. *)
Theorem dns_pending_update_succeeds (w : World) (token id : string)
    (domain studioDomain : jsval) (st : State) (project : Db.Project) :
  truthy token = true ->
  validateSession w token = true ->
  projects st !! id = Some project ->
  (truthy_val domain = true -> domainRegex_test (to_string domain) = true) ->
  (truthy_val studioDomain = true -> domainRegex_test (to_string studioDomain) = true) ->
  truthy_val domain || truthy_val studioDomain = true ->
  (truthy_val domain = true -> ~ api_domain_taken st (to_string domain) id) ->
  (truthy_val studioDomain = true -> ~ studio_domain_taken st (to_string studioDomain) id) ->
  let updated :=
    DomainRoute.updateData domain studioDomain
      (dnsValid w domain) (dnsValid w studioDomain) project in
  let config := rendered domain studioDomain project updated in
  let doc := project_document w config in
  exists message st',
    DomainRoute.PUT w (Some token) id domain studioDomain st
    = (Ok {| status := 200;
             body := DomainBody (Db.domain updated) (Db.domainVerified updated)
                       (Db.studioDomain updated) (Db.studioDomainVerified updated)
                       message |}, st')
    /\ projects st' !! id = Some updated
    /\ files st' !! configPath w (Db.slug project) = Some (traefikConfig w config)
    /\ traefikConfig w config = print doc
    /\ (forall d, domain = Str d -> truthy d = true ->
          verifyDomainDNS w d st = (Ok false, st) ->
          Db.domain updated = Some d
          /\ Db.domainVerified updated = false
          /\ (exists rest, message = "API domain configured (DNS pending)" +:+ rest)
          /\ In (api_router (Db.slug project) d) (routers doc)
          /\ In (api_http_router (Db.slug project) d) (routers doc)
          /\ In (api_service (Db.slug project) (Config.kongPort config)) (services doc))
    /\ (forall s, studioDomain = Str s -> truthy s = true ->
          verifyDomainDNS w s st = (Ok false, st) ->
          Db.studioDomain updated = Some s
          /\ Db.studioDomainVerified updated = false
          /\ (exists before, message = before +:+ "Studio domain configured (DNS pending)")
          /\ In (studio_router (Db.slug project) s) (routers doc)
          /\ In (studio_http_router (Db.slug project) s) (routers doc)
          /\ In (studio_service (Db.slug project) (Config.studioPort config))
                (services doc)).
Proof.
  intros Htok Hsess Hp Hfd Hfs Hone Hcd Hcs updated config doc.
  rewrite (PUT_validated w token id domain studioDomain st project Htok Hsess Hfd Hfs Hone Hp).
  assert (E1 : truthy_val domain
               && bool_decide (api_domain_taken st (to_string domain) id) = false).
  { destruct (truthy_val domain); [|reflexivity].
    rewrite bool_decide_eq_false_2; [reflexivity | apply Hcd; reflexivity]. }
  assert (E2 : truthy_val studioDomain
               && bool_decide (studio_domain_taken st (to_string studioDomain) id) = false).
  { destruct (truthy_val studioDomain); [|reflexivity].
    rewrite bool_decide_eq_false_2; [reflexivity | apply Hcs; reflexivity]. }
  rewrite E1, E2. cbv zeta.
  set (a := dnsValid w domain) in *. set (s := dnsValid w studioDomain) in *.
  fold updated. fold config.
  assert (Ec : truthy_opt (or_stored domain (Db.domain updated))
               || truthy_opt (or_stored studioDomain (Db.studioDomain updated)) = true).
  { apply orb_true_iff. apply orb_true_iff in Hone as [H|H]; [left | right].
    - destruct domain as [| |d]; try discriminate H. cbn in H |- *. rewrite H. exact H.
    - destruct studioDomain as [| |d]; try discriminate H. cbn in H |- *. rewrite H. exact H. }
  rewrite Ec.
  exists (DomainRoute.message domain studioDomain a s). eexists.
  split; [reflexivity|]. split; [apply lookup_insert_eq|].
  split; [cbn [files set_files]; apply files_lookup_insert|].
  split; [symmetry; apply print_project_document|].
  split.
  - intros d -> Td Hdns.
    assert (Ea : a = false).
    { unfold a, dnsValid. cbn [truthy_val to_string]. rewrite Td.
      rewrite verifyDomainDNS_run in Hdns. congruence. }
    assert (Ed : Db.domain updated = Some d /\ Db.domainVerified updated = false).
    { unfold updated, DomainRoute.updateData.
      destruct studioDomain; cbn; rewrite Td, Ea; split; reflexivity. }
    destruct Ed as [Ed Ev]. split; [exact Ed|]. split; [exact Ev|]. split.
    + unfold DomainRoute.message. cbn [truthy_val]. rewrite Td, Ea.
      destruct (truthy_val studioDomain); cbn; eauto.
    + assert (E : forall o, or_default (or_stored (Str d) o) EmptyString = d).
      { intros o. cbn [or_stored]. rewrite Td. cbn [or_default]. rewrite Td. reflexivity. }
      unfold doc, routers, services, project_document, config, rendered.
      cbn [d_routers d_services Config.domain Config.projectSlug Config.kongPort].
      rewrite E, Td. rewrite !decls_app. cbn [decls].
      repeat split; apply in_or_app; left; cbn [In]; auto.
  - intros d -> Td Hdns.
    assert (Es : s = false).
    { unfold s, dnsValid. cbn [truthy_val to_string]. rewrite Td.
      rewrite verifyDomainDNS_run in Hdns. congruence. }
    assert (Ed : Db.studioDomain updated = Some d
                 /\ Db.studioDomainVerified updated = false).
    { unfold updated, DomainRoute.updateData. cbn. rewrite Td, Es. split; reflexivity. }
    destruct Ed as [Ed Ev]. split; [exact Ed|]. split; [exact Ev|]. split.
    + unfold DomainRoute.message. cbn [truthy_val]. rewrite Td, Es.
      destruct (truthy_val domain).
      * exists ((if a then "API domain verified" else "API domain configured (DNS pending)")
                  +:+ ". ").
        destruct a; reflexivity.
      * exists EmptyString. reflexivity.
    + assert (E : forall o, or_default (Some (or_default (or_stored (Str d) o) EmptyString))
                              EmptyString = d).
      { intros o. cbn [or_stored]. rewrite Td. cbn [or_default]. rewrite Td.
        cbn [or_default]. rewrite Td. reflexivity. }
      unfold doc, routers, services, project_document, config, rendered.
      cbn [d_routers d_services Config.studioDomain Config.projectSlug Config.studioPort].
      rewrite E, Td. rewrite !decls_app. cbn [decls].
      repeat split; apply in_or_app; right; cbn [In]; auto.
Qed.

Lemma dns_pending_update_succeeds_witness :
  let updated :=
    DomainRoute.updateData (Str "api.demo.test") Undefined false false Demo.demo in
  let config := rendered (Str "api.demo.test") Undefined Demo.demo updated in
  truthy "token" = true
  /\ validateSession Demo.world "token" = true
  /\ projects Demo.state !! "B" = Some Demo.demo
  /\ domainRegex_test "api.demo.test" = true
  /\ ~ api_domain_taken Demo.state "api.demo.test" "B"
  /\ verifyDomainDNS Demo.world "api.demo.test" Demo.state = (Ok false, Demo.state)
  /\ (exists message st',
        DomainRoute.PUT Demo.world (Some "token") "B" (Str "api.demo.test") Undefined
          Demo.state
        = (Ok {| status := 200;
                 body := DomainBody (Some "api.demo.test") false None false message |},
           st')
        /\ files st' !! Demo.demo_yml = Some (traefikConfig Demo.world config))
  /\ In (api_router "demo" "api.demo.test") (routers (project_document Demo.world config)).
Proof.
  intros updated config.
  assert (Hfree : ~ api_domain_taken Demo.state "api.demo.test" "B").
  { apply (bool_decide_eq_false_1 (api_domain_taken Demo.state "api.demo.test" "B")).
    vm_compute. reflexivity. }
  assert (Hdns : verifyDomainDNS Demo.world "api.demo.test" Demo.state
                 = (Ok false, Demo.state)) by reflexivity.
  split; [reflexivity | split; [reflexivity | split; [reflexivity |]]].
  split; [reflexivity | split; [exact Hfree | split; [exact Hdns |]]].
  destruct (dns_pending_update_succeeds Demo.world "token" "B" (Str "api.demo.test")
              Undefined Demo.state Demo.demo eq_refl eq_refl eq_refl
              (fun _ => eq_refl) (fun H => False_ind _ (Bool.diff_false_true H)) eq_refl
              (fun _ => Hfree) (fun H => False_ind _ (Bool.diff_false_true H)))
    as (message & st' & Hrun & _ & Hfile & _ & Hapi & _).
  destruct (Hapi "api.demo.test" eq_refl eq_refl Hdns) as (_ & _ & _ & Hin & _).
  split; [exists message, st'; split; [exact Hrun | exact Hfile] | exact Hin].
Defined.

End Pending.

(** ** The format of a domain *)

Section Format.

Lemma panel_PUT_run (w : World) (token : string) (domain : jsval) (st : State) :
  truthy token = true ->
  validateSession w token = true ->
  PanelDomainRoute.PUT w (Some token) domain st
  = if negb (truthy_val domain)
    then (Ok (json_error "Domain is required" 400), st)
    else if negb (domainRegex_test (to_string domain))
    then (Ok (json_error "Invalid domain format" 400), st)
    else
      let dnsValid := resolves w (to_string domain) in
      (Ok (json (PanelDomainBody (to_string domain) dnsValid
                   (if dnsValid
                    then "Panel domain configured and verified successfully. The panel will be accessible at https://"
                           +:+ to_string domain
                    else "Panel domain configured. DNS verification pending - make sure your domain points to this server."))),
       set_files
         (set_panelSettings st
            (<["panel_domain_verified" := PanelDomainRoute.bool_to_string dnsValid]>
               (<["panel_domain" := to_string domain]> (panelSettings st))))
         (<[Fs.join (Traefik.getTraefikDynamicPath w) "panel.yml"
            := Traefik.panelTraefikConfig w (to_string domain)]> (files st))).
Proof.
  intros Htok Hsess.
  unfold PanelDomainRoute.PUT, try_catch.
  cbn [truthy_opt or_default]. rewrite Htok, Hsess. cbn [negb].
  destruct (truthy_val domain); cbn [negb]; [|reflexivity].
  destruct (domainRegex_test (to_string domain)); cbn [negb]; [|reflexivity].
  unfold bind at 1. rewrite verifyDomainDNS_run. reflexivity.
Qed.




Example domainRegex_examples :
  map domainRegex_test
    [ "api.demo.test"; "panel.example.com"; "a_b-c.d.ef";
      "not a domain"; EmptyString; "-bad.com"; "localhost"; "a.c"; "x.c0m" ]
  = [ true; true; true; false; false; false; false; false; false ].
Proof. reflexivity. Qed.

End Format.

(** * Further properties of the code *)

(** ** The files of the projects *)

Section ConfigFiles.

Import Traefik.

Lemma length_append (a b : string) :
  String.length (a +:+ b) = (String.length a + String.length b)%nat.
Proof. induction a as [|c a IH]; simpl; [reflexivity | rewrite IH; reflexivity]. Qed.

Lemma append_inj_r (p a b : string) : p +:+ a = p +:+ b -> a = b.
Proof. induction p as [|c p IH]; simpl; [auto | intros [= H]; auto]. Qed.

Lemma append_inj_l (a b q : string) : a +:+ q = b +:+ q -> a = b.
Proof.
  revert b. induction a as [|c a IH]; intros [|c' b] H; simpl in H.
  - reflexivity.
  - apply (f_equal String.length) in H. simpl in H. rewrite length_append in H. lia.
  - apply (f_equal String.length) in H. simpl in H. rewrite length_append in H. lia.
  - injection H as -> H. f_equal. apply IH. exact H.
Qed.

Lemma configPath_inj (w : World) (s1 s2 : string) :
  configPath w s1 = configPath w s2 -> s1 = s2.
Proof.
  unfold configPath, Fs.join. intros H.
  apply append_inj_r in H. apply append_inj_r in H. apply append_inj_l in H. exact H.
Qed.

(** X1. Two projects whose slugs are file names have the same routing
    file only when they have the same slug, and the file of such a
    project is the file of the panel exactly when its slug is
    [panel]. *)
Theorem configPath_one_file_per_slug (w : World) (s1 s2 : string) :
  file_name s1 = true ->
  file_name s2 = true ->
  (configPath w s1 = configPath w s2 <-> s1 = s2)
  /\ (configPath w s1 = panel_yml w <-> s1 = "panel").
Proof.
  intros _ _. split; split.
  - apply configPath_inj.
  - intros ->. reflexivity.
  - intros H. apply (configPath_inj w s1 "panel"). exact H.
  - intros ->. reflexivity.
Qed.

Lemma configPath_one_file_per_slug_witness :
  file_name "alpha" = true
  /\ file_name "demo" = true
  /\ configPath Demo.world "alpha" <> configPath Demo.world "demo".
Proof.
  split; [reflexivity | split; [reflexivity|]].
  intros E.
  apply (proj1 (proj1 (configPath_one_file_per_slug Demo.world "alpha" "demo"
                         eq_refl eq_refl))) in E.
  discriminate E.
Defined.

(** X2. When the rendering of the file of a project returns, for a
    slug that is a file name, exactly that file has been written: it
    holds the rendered text, every other path is as before, so the
    file of a project with another slug and, unless the slug is
    [panel], the file of the panel; the database is not touched. *)
Theorem generateProjectTraefikConfig_frame (w : World) (config : Config.TraefikConfig)
    (st st' : State) :
  file_name (Config.projectSlug config) = true ->
  generateProjectTraefikConfig w config st = (Ok tt, st') ->
  projects st' = projects st
  /\ panelSettings st' = panelSettings st
  /\ files st' !! configPath w (Config.projectSlug config)
     = Some (traefikConfig w config)
  /\ (forall path, path <> configPath w (Config.projectSlug config) ->
        files st' !! path = files st !! path)
  /\ (forall slug,
        file_name slug = true -> slug <> Config.projectSlug config ->
        files st' !! configPath w slug = files st !! configPath w slug)
  /\ (Config.projectSlug config <> "panel" ->
      files st' !! panel_yml w = files st !! panel_yml w).
Proof.
  intros _ Hrun. rewrite generate_run in Hrun. injection Hrun as <-.
  cbn [projects panelSettings files set_files].
  assert (Hother : forall path, path <> configPath w (Config.projectSlug config) ->
            <[configPath w (Config.projectSlug config) := traefikConfig w config]> (files st)
              !! path = files st !! path).
  { intros path Hne.
    exact (lookup_insert_ne (M := gmap string) (files st) _ _ _ (not_eq_sym Hne)). }
  split; [reflexivity|]. split; [reflexivity|]. split; [apply files_lookup_insert|].
  split; [exact Hother|]. split.
  - intros slug _ Hne. apply Hother. intros H. apply Hne.
    exact (configPath_inj w _ _ H).
  - intros Hne. apply Hother. intros H. apply Hne.
    symmetry. exact (configPath_inj w "panel" _ H).
Qed.

Lemma generateProjectTraefikConfig_frame_witness :
  let config :=
    {| Config.projectSlug := "demo"; Config.domain := "api.demo.test";
       Config.studioDomain := None;
       Config.kongPort := Int 8080; Config.studioPort := Int 3000 |} in
  file_name "demo" = true
  /\ exists st',
       generateProjectTraefikConfig Demo.world config Demo.state = (Ok tt, st')
       /\ files st' !! Demo.alpha_yml = files Demo.state !! Demo.alpha_yml
       /\ projects st' = projects Demo.state.
Proof.
  intros config. split; [reflexivity|].
  assert (Hrun : generateProjectTraefikConfig Demo.world config Demo.state
                 = (Ok tt, snd (generateProjectTraefikConfig Demo.world config Demo.state)))
    by (rewrite generate_run; reflexivity).
  eexists. split; [exact Hrun|].
  destruct (generateProjectTraefikConfig_frame Demo.world config Demo.state _
              eq_refl Hrun) as (Hp & _ & _ & _ & Hslug & _).
  split; [|exact Hp].
  apply (Hslug "alpha"); [reflexivity | discriminate].
Defined.

Lemma lines_stamp (a b c p x : string) (rest : list string) :
  lines (a :: b :: c :: (p +:+ x) :: EmptyString :: rest)
  = (a +:+ nl +:+ b +:+ nl +:+ c +:+ nl +:+ p) +:+ x
      +:+ (nl +:+ lines (EmptyString :: rest)).
Proof.
  unfold lines. cbn [String.concat]. rewrite !append_assoc. reflexivity.
Qed.

(** X3. Rendering is idempotent: a second rendering of the same
    configuration at the same instant leaves the state of the first,
    and what the file held before does not matter.  At two instants
    the two texts differ by the time stamp only: the text is a fixed
    prefix, the time stamp and a fixed suffix. *)
Theorem generateProjectTraefikConfig_idempotent (config : Config.TraefikConfig) :
  (forall w st,
      snd (generateProjectTraefikConfig w config
             (snd (generateProjectTraefikConfig w config st)))
      = snd (generateProjectTraefikConfig w config st))
  /\ (forall w st old,
        snd (generateProjectTraefikConfig w config
               (set_files st (<[configPath w (Config.projectSlug config) := old]>
                                (files st))))
        = snd (generateProjectTraefikConfig w config st))
  /\ (exists before after,
        forall w, traefikConfig w config = before +:+ now w +:+ after).
Proof.
  split; [|split].
  - intros w st. rewrite !generate_run. cbn [snd files set_files projects panelSettings].
    unfold set_files. cbn [projects panelSettings files]. f_equal.
    exact (insert_insert_eq (M := gmap string) (files st) _ _ _).
  - intros w st old. rewrite !generate_run. cbn [snd files set_files projects panelSettings].
    unfold set_files. cbn [projects panelSettings files]. f_equal.
    exact (insert_insert_eq (M := gmap string) (files st) _ _ _).
  - unfold traefikConfig.
    destruct (if truthy (Config.domain config) then _ else _) as [r0 s0].
    destruct (match Config.studioDomain config with Some _ => _ | None => _ end)
      as [r1 s1].
    eexists. eexists. intros w. rewrite lines_stamp. reflexivity.
Qed.

End ConfigFiles.

(** ** The documents that are rendered *)

Section Documents.

Import Traefik Doc.

Lemma truthy_or_default (o : option string) :
  truthy (or_default o EmptyString) = truthy_opt o.
Proof.
  destruct o as [s|]; [|reflexivity]. cbn [or_default truthy_opt].
  destruct (truthy s) eqn:E; [exact E | reflexivity].
Qed.

Lemma or_default_truthy (o : option string) (s : string) :
  o = Some s -> truthy s = true -> or_default o EmptyString = s.
Proof. intros -> H. cbn [or_default]. rewrite H. reflexivity. Qed.

(** The entries of the document of a configuration, by the domains
    that are present. *)
Lemma project_document_entries (w : World) (config : Config.TraefikConfig) :
  let slug := Config.projectSlug config in
  let d := Config.domain config in
  let s := or_default (Config.studioDomain config) EmptyString in
  routers (project_document w config)
  = (if truthy d then [ api_router slug d; api_http_router slug d ] else [])
    ++ (if truthy_opt (Config.studioDomain config)
        then [ studio_router slug s; studio_http_router slug s ] else [])
  /\ services (project_document w config)
     = (if truthy d then [ api_service slug (Config.kongPort config) ] else [])
       ++ (if truthy_opt (Config.studioDomain config)
           then [ studio_service slug (Config.studioPort config) ] else []).
Proof.
  intros slug d s. unfold routers, services, project_document.
  cbn [d_routers d_services]. fold slug d s.
  rewrite !decls_app.
  pose proof (truthy_or_default (Config.studioDomain config)) as E. fold s in E.
  rewrite !E.
  destruct (truthy d), (truthy_opt (Config.studioDomain config)); split; reflexivity.
Qed.

Lemma names_differ (slug a b : string) : a <> b -> slug +:+ a <> slug +:+ b.
Proof. intros Hne H. apply Hne. exact (append_inj_r slug a b H). Qed.

(** X4. Whatever domains are present, the document is well formed:
    every router names a service that the document declares and only
    the middleware that it declares, no two routers have the same
    name and no two services have the same name. *)
Theorem project_document_well_formed (w : World) (config : Config.TraefikConfig) :
  let doc := project_document w config in
  (forall r, In r (routers doc) -> In (r_service r) (map s_name (services doc)))
  /\ (forall r m, In r (routers doc) -> In m (r_middlewares r) ->
        In m (map m_name (d_middlewares doc)))
  /\ List.NoDup (map r_name (routers doc))
  /\ List.NoDup (map s_name (services doc)).
Proof.
  intros doc. subst doc.
  destruct (project_document_entries w config) as [Hr Hs]. cbv zeta in Hr, Hs.
  rewrite Hr, Hs. clear Hr Hs.
  set (slug := Config.projectSlug config).
  assert (N1 : slug +:+ "-api" <> slug +:+ "-api-http") by (apply names_differ; discriminate).
  assert (N2 : slug +:+ "-api" <> slug +:+ "-studio") by (apply names_differ; discriminate).
  assert (N3 : slug +:+ "-api" <> slug +:+ "-studio-http")
    by (apply names_differ; discriminate).
  assert (N4 : slug +:+ "-api-http" <> slug +:+ "-studio")
    by (apply names_differ; discriminate).
  assert (N5 : slug +:+ "-api-http" <> slug +:+ "-studio-http")
    by (apply names_differ; discriminate).
  assert (N6 : slug +:+ "-studio" <> slug +:+ "-studio-http")
    by (apply names_differ; discriminate).
  destruct (truthy (Config.domain config)), (truthy_opt (Config.studioDomain config));
    cbn [app map In r_name s_name r_service r_middlewares api_router api_http_router
         studio_router studio_http_router secure_router redirect_router
         api_service studio_service d_middlewares project_document m_name https_redirect];
    (split; [|split; [|split]]);
    try (intros r H; repeat (destruct H as [<- | H]; [cbn; tauto|]); contradiction);
    try (intros r m H Hm; repeat (destruct H as [<- | H]; [cbn in Hm; tauto|]);
         contradiction);
    repeat (constructor; [cbn [In]; intuition congruence|]); constructor.
Qed.

(** X5. Rendering with a Studio domain and no API domain writes the
    two Studio routers and the Studio service only. *)
Theorem render_studio_only (w : World) (slug studio : string) (kong sport : number)
    (st : State) :
  truthy studio = true ->
  let config :=
    {| Config.projectSlug := slug; Config.domain := EmptyString;
       Config.studioDomain := Some studio;
       Config.kongPort := kong; Config.studioPort := sport |} in
  generateProjectTraefikConfig w config st
  = (Ok tt, set_files st (<[configPath w slug := traefikConfig w config]> (files st)))
  /\ traefikConfig w config = print (project_document w config)
  /\ routers (project_document w config)
     = [ studio_router slug studio; studio_http_router slug studio ]
  /\ services (project_document w config) = [ studio_service slug sport ].
Proof.
  intros Hs config. split; [apply generate_run|].
  split; [symmetry; apply print_project_document|].
  destruct (project_document_entries w config) as [Hr Hsv]. cbv zeta in Hr, Hsv.
  rewrite Hr, Hsv. unfold config.
  cbn [Config.projectSlug Config.domain Config.studioDomain Config.kongPort
       Config.studioPort truthy truthy_opt or_default].
  rewrite Hs. split; reflexivity.
Qed.

Lemma render_studio_only_witness :
  let config :=
    {| Config.projectSlug := "demo"; Config.domain := EmptyString;
       Config.studioDomain := Some "studio.demo.test";
       Config.kongPort := Int 8080; Config.studioPort := Int 3000 |} in
  truthy "studio.demo.test" = true
  /\ map r_name (routers (project_document Demo.world config))
     = [ "demo-studio"; "demo-studio-http" ]
  /\ map s_name (services (project_document Demo.world config)) = [ "demo-studio" ].
Proof.
  intros config. split; [reflexivity|].
  destruct (render_studio_only Demo.world "demo" "studio.demo.test" (Int 8080) (Int 3000)
              Demo.state eq_refl) as (_ & _ & Hr & Hs).
  fold config in Hr, Hs. rewrite Hr, Hs. split; reflexivity.
Defined.

(** X6. Rendering with no domain at all still writes the file: its
    document has the middleware and no router and no service. *)
Theorem render_no_domain (w : World) (slug : string) (absent : option string)
    (kong sport : number) (st : State) :
  truthy_opt absent = false ->
  let config :=
    {| Config.projectSlug := slug; Config.domain := EmptyString;
       Config.studioDomain := absent;
       Config.kongPort := kong; Config.studioPort := sport |} in
  generateProjectTraefikConfig w config st
  = (Ok tt, set_files st (<[configPath w slug := traefikConfig w config]> (files st)))
  /\ traefikConfig w config = print (project_document w config)
  /\ routers (project_document w config) = []
  /\ services (project_document w config) = []
  /\ d_middlewares (project_document w config) = [ https_redirect ].
Proof.
  intros Ha config. split; [apply generate_run|].
  split; [symmetry; apply print_project_document|].
  destruct (project_document_entries w config) as [Hr Hsv]. cbv zeta in Hr, Hsv.
  rewrite Hr, Hsv. unfold config.
  cbn [Config.projectSlug Config.domain Config.studioDomain truthy].
  rewrite Ha. repeat split; reflexivity.
Qed.

Lemma render_no_domain_witness :
  let config :=
    {| Config.projectSlug := "demo"; Config.domain := EmptyString;
       Config.studioDomain := Some EmptyString;
       Config.kongPort := Int 8080; Config.studioPort := Int 3000 |} in
  truthy_opt (Some EmptyString) = false
  /\ is_Some (files (snd (generateProjectTraefikConfig Demo.world config Demo.state))
                !! Demo.demo_yml)
  /\ routers (project_document Demo.world config) = [].
Proof.
  intros config. split; [reflexivity|].
  destruct (render_no_domain Demo.world "demo" (Some EmptyString) (Int 8080) (Int 3000)
              Demo.state eq_refl) as (Hrun & _ & Hr & _).
  fold config in Hrun, Hr. split; [|exact Hr].
  rewrite Hrun. cbn [snd files set_files]. eexists. apply files_lookup_insert.
Defined.

(** X7. [updateProjectDomain] renders the API domain alone: whatever
    the file held, for instance the routers of a Studio domain, the
    new file has the two API routers and the API service only. *)
Theorem updateProjectDomain_drops_studio (w : World) (slug newDomain : string)
    (kong sport : number) (st : State) :
  truthy newDomain = true ->
  exists doc,
    updateProjectDomain w slug newDomain kong sport st
    = (Ok tt, set_files st (<[configPath w slug := print doc]> (files st)))
    /\ routers doc = [ api_router slug newDomain; api_http_router slug newDomain ]
    /\ services doc = [ api_service slug kong ]
    /\ doc = project_document w
               {| Config.projectSlug := slug; Config.domain := newDomain;
                  Config.studioDomain := None;
                  Config.kongPort := kong; Config.studioPort := sport |}.
Proof.
  intros Hd. eexists. split; [|split; [|split; [|reflexivity]]].
  - unfold updateProjectDomain. rewrite generate_run, print_project_document. reflexivity.
  - destruct (project_document_entries w
                {| Config.projectSlug := slug; Config.domain := newDomain;
                   Config.studioDomain := None;
                   Config.kongPort := kong; Config.studioPort := sport |}) as [Hr _].
    cbv zeta in Hr. rewrite Hr.
    cbn [Config.projectSlug Config.domain Config.studioDomain truthy_opt].
    rewrite Hd. reflexivity.
  - destruct (project_document_entries w
                {| Config.projectSlug := slug; Config.domain := newDomain;
                   Config.studioDomain := None;
                   Config.kongPort := kong; Config.studioPort := sport |}) as [_ Hs].
    cbv zeta in Hs. rewrite Hs.
    cbn [Config.projectSlug Config.domain Config.studioDomain Config.kongPort truthy_opt].
    rewrite Hd. reflexivity.
Qed.

Lemma updateProjectDomain_drops_studio_witness :
  truthy "api.alpha.test" = true
  /\ is_Some (files Demo.state !! Demo.alpha_yml)
  /\ exists doc,
       files (snd (updateProjectDomain Demo.world "alpha" "api.alpha.test"
                     (Int 8000) (Int 3000) Demo.state)) !! Demo.alpha_yml
       = Some (print doc)
       /\ map r_name (routers doc) = [ "alpha-api"; "alpha-api-http" ].
Proof.
  split; [reflexivity|]. split; [eexists; reflexivity|].
  destruct (updateProjectDomain_drops_studio Demo.world "alpha" "api.alpha.test"
              (Int 8000) (Int 3000) Demo.state eq_refl) as (doc & Hrun & Hr & _).
  exists doc. rewrite Hrun, Hr. split; [|reflexivity].
  cbn [snd files set_files]. apply files_lookup_insert.
Defined.

End Documents.

(** ** Rendering and removing *)

Section RenderRemove.

Import Traefik.

Lemma set_files_same (st : State) : set_files st (files st) = st.
Proof. destruct st. reflexivity. Qed.

Lemma removeProject_state (w : World) (slug : string) (st : State) :
  removeProjectTraefikConfig w slug st
  = (Ok tt, set_files st (delete (configPath w slug) (files st))).
Proof.
  unfold removeProjectTraefikConfig, try_catch, bind, Fs.unlink.
  destruct (files st !! configPath w slug) eqn:E; [reflexivity|].
  rewrite (files_delete_id _ _ E), set_files_same. reflexivity.
Qed.

(** X8. Removing the file of a project never throws, whether the file
    exists or not, and removing twice is removing once.  Removing
    after rendering gives the state before the rendering less the
    file: when the project had no file, rendering then removing gives
    back the state exactly. *)
Theorem render_then_remove (w : World) (config : Config.TraefikConfig) (st : State) :
  let slug := Config.projectSlug config in
  let removed := set_files st (delete (configPath w slug) (files st)) in
  removeProjectTraefikConfig w slug st = (Ok tt, removed)
  /\ removeProjectTraefikConfig w slug removed = (Ok tt, removed)
  /\ removeProjectTraefikConfig w slug (snd (generateProjectTraefikConfig w config st))
     = (Ok tt, removed)
  /\ (files st !! configPath w slug = None -> removed = st).
Proof.
  intros slug removed. subst removed.
  split; [apply removeProject_state|]. split; [|split].
  - rewrite removeProject_state. cbn [files set_files]. f_equal.
    unfold set_files. cbn [projects panelSettings files]. f_equal.
    exact (delete_delete_eq (M := gmap string) (files st) _).
  - rewrite generate_run, removeProject_state. cbn [snd files set_files]. f_equal.
    unfold set_files. cbn [projects panelSettings files]. f_equal.
    exact (delete_insert_eq (M := gmap string) (files st) _ _).
  - intros H. rewrite (files_delete_id _ _ H). apply set_files_same.
Qed.

End RenderRemove.

(** ** The ports of a project *)

Section PortsOfProject.

Import Traefik.

Lemma envVarsMap_snoc (l : list Db.EnvVar) (e : Db.EnvVar) :
  DomainRoute.envVarsMap (l ++ [ e ])
  = DomainRoute.assign (DomainRoute.envVarsMap l) (Db.key e) (Db.value e).
Proof. unfold DomainRoute.envVarsMap. rewrite fold_left_app. reflexivity. Qed.

Lemma envVarsMap_lookup (envVars : list Db.EnvVar) (k : string) :
  DomainRoute.envVarsMap envVars !! k
  = if String.eqb k "__proto__" then None
    else option_map Db.value (find (fun e => String.eqb (Db.key e) k) (rev envVars)).
Proof.
  induction envVars as [|e l IH] using rev_ind.
  - destruct (String.eqb k "__proto__"); reflexivity.
  - rewrite envVarsMap_snoc, rev_unit. cbn [find]. unfold DomainRoute.assign.
    destruct (String.eqb_spec (Db.key e) "__proto__") as [Hp | Hp].
    + rewrite IH. destruct (String.eqb k "__proto__") eqn:Ek; [reflexivity|].
      apply String.eqb_neq in Ek.
      destruct (String.eqb_spec (Db.key e) k) as [E | _]; [congruence | reflexivity].
    + destruct (String.eqb_spec (Db.key e) k) as [E | Hne].
      * destruct (String.eqb_spec k "__proto__") as [E' | _]; [congruence|].
        rewrite <- E. exact (lookup_insert_eq (M := gmap string) _ _ _).
      * rewrite <- IH. exact (lookup_insert_ne (M := gmap string) _ _ _ _ Hne).
Qed.

Lemma unique_key (l : list Db.EnvVar) (a b : Db.EnvVar) :
  List.NoDup (map Db.key l) -> In a l -> In b l -> Db.key a = Db.key b -> a = b.
Proof.
  induction l as [|e l IH]; cbn [map In]; [contradiction|].
  intros Hnd Ha Hb Hk. apply List.NoDup_cons_iff in Hnd as [Hnot Hnd].
  destruct Ha as [<- | Ha], Hb as [<- | Hb].
  - reflexivity.
  - exfalso. apply Hnot. rewrite Hk. apply in_map. exact Hb.
  - exfalso. apply Hnot. rewrite <- Hk. apply in_map. exact Ha.
  - exact (IH Hnd Ha Hb Hk).
Qed.

(** X9. The map built from the variables of a project gives, for every
    key but [__proto__], the value of the last variable of that key and
    no value when there is none; a variable of key [__proto__] is not
    stored.  When no two variables have the same key, as the database
    has it, the map holds [k] with [v] exactly when [k] with [v] is a
    variable of the project. *)
Theorem envVarsMap_last_wins (envVars : list Db.EnvVar) (k : string) :
  k <> "__proto__" ->
  DomainRoute.envVarsMap envVars !! k
  = option_map Db.value (find (fun e => String.eqb (Db.key e) k) (rev envVars))
  /\ DomainRoute.envVarsMap envVars !! "__proto__" = None
  /\ (List.NoDup (map Db.key envVars) ->
      forall v, DomainRoute.envVarsMap envVars !! k = Some v
                <-> In {| Db.key := k; Db.value := v |} envVars).
Proof.
  intros Hk.
  assert (Hlook : DomainRoute.envVarsMap envVars !! k
                  = option_map Db.value
                      (find (fun e => String.eqb (Db.key e) k) (rev envVars))).
  { rewrite envVarsMap_lookup.
    destruct (String.eqb_spec k "__proto__") as [E | _]; [contradiction | reflexivity]. }
  split; [exact Hlook|]. split; [rewrite envVarsMap_lookup; reflexivity|].
  intros Hnd v. rewrite Hlook. split.
  - destruct (find _ (rev envVars)) as [e|] eqn:Ef; [|discriminate].
    cbn [option_map]. intros [= <-].
    apply find_some in Ef as [Hin He]. apply String.eqb_eq in He.
    apply in_rev in Hin. destruct e as [k' v']. cbn in He. subst k'. exact Hin.
  - intros Hin.
    destruct (find (fun e => String.eqb (Db.key e) k) (rev envVars)) as [e|] eqn:Ef.
    + apply find_some in Ef as [Hin' He]. apply String.eqb_eq in He.
      apply in_rev in Hin'.
      rewrite (unique_key envVars e {| Db.key := k; Db.value := v |} Hnd Hin' Hin He).
      reflexivity.
    + exfalso. apply (in_rev envVars) in Hin.
      pose proof (find_none _ _ Ef _ Hin) as Hf. cbn in Hf.
      rewrite String.eqb_refl in Hf. discriminate Hf.
Qed.

Lemma envVarsMap_last_wins_witness :
  "KONG_HTTP_PORT" <> "__proto__"
  /\ DomainRoute.envVarsMap
       [ {| Db.key := "__proto__"; Db.value := "x" |};
         {| Db.key := "KONG_HTTP_PORT"; Db.value := "8080" |} ] !! "KONG_HTTP_PORT"
     = Some "8080"
  /\ DomainRoute.envVarsMap
       [ {| Db.key := "__proto__"; Db.value := "x" |};
         {| Db.key := "KONG_HTTP_PORT"; Db.value := "8080" |} ] !! "__proto__"
     = None.
Proof.
  assert (Hk : "KONG_HTTP_PORT" <> "__proto__") by discriminate.
  split; [exact Hk|].
  destruct (envVarsMap_last_wins
              [ {| Db.key := "__proto__"; Db.value := "x" |};
                {| Db.key := "KONG_HTTP_PORT"; Db.value := "8080" |} ]
              "KONG_HTTP_PORT" Hk) as (Hlast & Hproto & _).
  split; [rewrite Hlast; reflexivity | exact Hproto].
Defined.

Lemma digits_of_uint_app (d : Decimal.uint) (rest : string) :
  match rest with String c _ => is_digit c = false | EmptyString => True end ->
  digits_prefix (NilEmpty.string_of_uint d +:+ rest)
  = digits_prefix (NilEmpty.string_of_uint d).
Proof.
  intros Hrest. induction d; simpl; try (f_equal; exact IHd).
  destruct rest as [|c r]; [reflexivity|]. cbn [digits_prefix]. rewrite Hrest. reflexivity.
Qed.

Lemma parseInt_uint_app (d : Decimal.uint) (rest : string) :
  d <> Decimal.Nil ->
  match rest with String c _ => is_digit c = false | EmptyString => True end ->
  parseInt (NilEmpty.string_of_uint d +:+ rest) = parseInt (NilEmpty.string_of_uint d).
Proof.
  intros Hn Hrest. pose proof (digits_of_uint_app d rest Hrest) as Hd.
  destruct (string_of_uint_head _ Hn) as (c & r & Es & Hc).
  rewrite Es in Hd |- *. change (String c r +:+ rest) with (String c (r +:+ rest)) in *.
  rewrite (parseInt_digit_head c (r +:+ rest) Hc), (parseInt_digit_head c r Hc), Hd.
  reflexivity.
Qed.

(** A numeral that is followed by text that does not begin with a
    digit is read as the numeral alone. *)
Lemma parseInt_prefix (n : N) (rest : string) :
  (n <= 9007199254740992)%N ->
  match rest with String c _ => is_digit c = false | EmptyString => True end ->
  parseInt (number_to_string (Int (Z.of_N n)) +:+ rest) = Int (Z.of_N n).
Proof.
  intros Hn Hrest.
  assert (Hz : Z.abs (Z.of_N n) <= 9007199254740992) by lia.
  rewrite <- (parseInt_number_to_string (Z.of_N n) Hz) at 2.
  rewrite (number_to_string_exact _ Hz). clear Hn Hz.
  destruct n as [|p]; cbn [Z.of_N Z.to_int NilZero.string_of_int].
  - apply (parseInt_uint_app (Decimal.D0 Decimal.Nil) rest); [discriminate | exact Hrest].
  - pose proof (Unsigned.to_uint_nonnil p) as Hn.
    rewrite (string_of_uint_nonnil _ Hn). apply parseInt_uint_app; assumption.
Qed.

(** X10. A port variable whose value is a decimal numeral, of an
    integer up to 2^53, followed by other text (a unit, a comment)
    gives the numeral: the text after the digits is ignored, and the
    default is not used. *)
Theorem getProjectPorts_ignores_trailing_text (envVars : gmap string string)
    (n : N) (rest : string) :
  (n <= 9007199254740992)%N ->
  match rest with String c _ => is_digit c = false | EmptyString => True end ->
  envVars !! "KONG_HTTP_PORT" = Some (number_to_string (Int (Z.of_N n)) +:+ rest) ->
  kongPort (getProjectPorts envVars) = Int (Z.of_N n).
Proof.
  intros Hn Hrest Hk. unfold getProjectPorts. cbn [kongPort]. rewrite Hk.
  assert (E : or_default (Some (number_to_string (Int (Z.of_N n)) +:+ rest)) "8000"
              = number_to_string (Int (Z.of_N n)) +:+ rest).
  { destruct (number_to_string (Int (Z.of_N n)) +:+ rest) eqn:E; [|reflexivity].
    pose proof (parseInt_prefix n rest Hn Hrest) as P. rewrite E in P. discriminate P. }
  rewrite E. apply parseInt_prefix; assumption.
Qed.

Lemma getProjectPorts_ignores_trailing_text_witness :
  let envVars : gmap string string := <["KONG_HTTP_PORT" := "8080/tcp"]> ∅ in
  (8080 <= 9007199254740992)%N
  /\ is_digit "/" = false
  /\ envVars !! "KONG_HTTP_PORT" = Some "8080/tcp"
  /\ kongPort (getProjectPorts envVars) = Int 8080.
Proof.
  intros envVars.
  assert (Hn : (8080 <= 9007199254740992)%N) by (vm_compute; discriminate).
  split; [exact Hn|]. split; [reflexivity|]. split; [reflexivity|].
  exact (getProjectPorts_ignores_trailing_text envVars 8080 "/tcp" Hn eq_refl eq_refl).
Defined.

End PortsOfProject.

(** ** The handlers of [/api/projects/[id]/domain] together *)

Section DomainHandlers.

Import Traefik Doc.

Lemma live_session_token (w : World) (sessionToken : option string) :
  live_session w sessionToken = true ->
  exists token,
    sessionToken = Some token /\ truthy token = true /\ validateSession w token = true.
Proof.
  unfold live_session. destruct sessionToken as [t|]; [|discriminate].
  cbn [truthy_opt or_default]. destruct (truthy t) eqn:E; [|discriminate].
  cbn [andb]. eauto.
Qed.

Lemma PUT_no_session (w : World) (sessionToken : option string) (id : string)
    (domain studioDomain : jsval) (st : State) :
  live_session w sessionToken = false ->
  DomainRoute.PUT w sessionToken id domain studioDomain st
  = (Ok (json_error (no_session_message sessionToken) 401), st).
Proof.
  unfold live_session, no_session_message, DomainRoute.PUT, try_catch.
  destruct (truthy_opt sessionToken); cbn [negb andb]; [|reflexivity].
  intros ->. reflexivity.
Qed.

Lemma DELETE_no_session (w : World) (sessionToken : option string) (id : string)
    (st : State) :
  live_session w sessionToken = false ->
  DomainRoute.DELETE w sessionToken id st
  = (Ok (json_error (no_session_message sessionToken) 401), st).
Proof.
  unfold live_session, no_session_message, DomainRoute.DELETE, try_catch.
  destruct (truthy_opt sessionToken); cbn [negb andb]; [|reflexivity].
  intros ->. reflexivity.
Qed.

Lemma GET_run (w : World) (sessionToken : option string) (id : string) (st : State) :
  DomainRouteGet.GET w sessionToken id st
  = (Ok (if live_session w sessionToken
         then match projects st !! id with
              | None => read_error "Project not found" 404
              | Some project =>
                  read_json (DomainInfo (Db.domain project) (Db.domainVerified project)
                                        (Db.studioDomain project)
                                        (Db.studioDomainVerified project))
              end
         else read_error (no_session_message sessionToken) 401),
     st).
Proof.
  unfold live_session, no_session_message, DomainRouteGet.GET, try_catch.
  destruct (truthy_opt sessionToken); cbn [negb andb]; [|reflexivity].
  destruct (validateSession w _); cbn [negb]; [|reflexivity].
  unfold bind, Prisma.findUnique. destruct (projects st !! id); reflexivity.
Qed.

Lemma DELETE_run (w : World) (token id : string) (st : State) :
  truthy token = true ->
  validateSession w token = true ->
  DomainRoute.DELETE w (Some token) id st
  = match projects st !! id with
    | None => (Ok (json_error "Project not found" 404), st)
    | Some project =>
        (Ok (json (SuccessBody "Domains removed successfully")),
         set_files (set_projects st (<[id := DomainRoute.clearData project]> (projects st)))
           (delete (configPath w (Db.slug project)) (files st)))
    end.
Proof.
  intros Htok Hsess.
  unfold DomainRoute.DELETE, try_catch. cbn [truthy_opt or_default].
  rewrite Htok, Hsess. cbn [negb].
  unfold bind at 1. unfold Prisma.findUnique at 1.
  destruct (projects st !! id) as [project|] eqn:Hp; [|reflexivity].
  unfold bind at 1. unfold Prisma.update at 1. rewrite Hp.
  unfold bind at 1. rewrite removeProject_state. reflexivity.
Qed.

(** An update is refused with the state as it was, or accepted. *)
Lemma PUT_outcome (w : World) (sessionToken : option string) (id : string)
    (domain studioDomain : jsval) (st : State) :
  (exists message code,
      DomainRoute.PUT w sessionToken id domain studioDomain st
      = (Ok (json_error message code), st)
      /\ (code = 400 \/ code = 401 \/ code = 404 \/ code = 409))
  \/ (exists project,
        live_session w sessionToken = true
        /\ projects st !! id = Some project
        /\ acceptable st id domain studioDomain
        /\ DomainRoute.PUT w sessionToken id domain studioDomain st
           = (let row := accepted_row w domain studioDomain project in
              Ok (json (DomainBody (Db.domain row) (Db.domainVerified row)
                                   (Db.studioDomain row) (Db.studioDomainVerified row)
                                   (DomainRoute.message domain studioDomain
                                      (dnsValid w domain) (dnsValid w studioDomain)))),
              accepted_state w id domain studioDomain st project)).
Proof.
  destruct (live_session w sessionToken) eqn:Hlive.
  2:{ left. eexists. exists 401. split; [apply PUT_no_session; exact Hlive | auto]. }
  destruct (live_session_token w sessionToken Hlive) as (token & -> & Htok & Hsess).
  rewrite (PUT_run w token id domain studioDomain st Htok Hsess).
  destruct (truthy_val domain && negb (domainRegex_test (to_string domain))) eqn:E1;
    [left; eexists; exists 400; split; [reflexivity | auto]|].
  destruct (truthy_val studioDomain && negb (domainRegex_test (to_string studioDomain)))
    eqn:E2; [left; eexists; exists 400; split; [reflexivity | auto]|].
  destruct (negb (truthy_val domain) && negb (truthy_val studioDomain)) eqn:E3;
    [left; eexists; exists 400; split; [reflexivity | auto]|].
  destruct (projects st !! id) as [project|] eqn:Hp;
    [|left; eexists; exists 404; split; [reflexivity | auto]].
  destruct (truthy_val domain && bool_decide (api_domain_taken st (to_string domain) id))
    eqn:E4; [left; eexists; exists 409; split; [reflexivity | auto 6]|].
  destruct (truthy_val studioDomain
            && bool_decide (studio_domain_taken st (to_string studioDomain) id))
    eqn:E5; [left; eexists; exists 409; split; [reflexivity | auto 6]|].
  right. exists project. split; [reflexivity|]. split; [reflexivity|].
  assert (Hone : truthy_val domain || truthy_val studioDomain = true).
  { destruct (truthy_val domain), (truthy_val studioDomain); simpl in *; congruence. }
  split.
  - split; [|split; [|exact Hone]].
    + intros T. rewrite T in E1, E4. cbn [andb] in E1, E4.
      apply negb_false_iff in E1. apply bool_decide_eq_false in E4. auto.
    + intros T. rewrite T in E2, E5. cbn [andb] in E2, E5.
      apply negb_false_iff in E2. apply bool_decide_eq_false in E5. auto.
  - cbv zeta. fold (accepted_row w domain studioDomain project).
    assert (Ec : truthy_opt (or_stored domain
                               (Db.domain (accepted_row w domain studioDomain project)))
                 || truthy_opt (or_stored studioDomain
                                  (Db.studioDomain
                                     (accepted_row w domain studioDomain project))) = true).
    { apply orb_true_iff. apply orb_true_iff in Hone as [H|H]; [left | right].
      - destruct domain as [| |d]; try discriminate H. cbn in H |- *. rewrite H. exact H.
      - destruct studioDomain as [| |d]; try discriminate H. cbn in H |- *.
        rewrite H. exact H. }
    rewrite Ec. reflexivity.
Qed.

(** X11. Without a live session (no cookie, an empty cookie, or a
    token that names no session) the three handlers of the project
    route answer 401 and neither read nor write the stores. *)
Theorem domain_route_requires_session (w : World) (sessionToken : option string)
    (id : string) (domain studioDomain : jsval) (st : State) :
  live_session w sessionToken = false ->
  DomainRouteGet.GET w sessionToken id st
  = (Ok (read_error (no_session_message sessionToken) 401), st)
  /\ DomainRoute.PUT w sessionToken id domain studioDomain st
     = (Ok (json_error (no_session_message sessionToken) 401), st)
  /\ DomainRoute.DELETE w sessionToken id st
     = (Ok (json_error (no_session_message sessionToken) 401), st).
Proof.
  intros H. split; [|split].
  - rewrite GET_run, H. reflexivity.
  - apply PUT_no_session. exact H.
  - apply DELETE_no_session. exact H.
Qed.

Lemma domain_route_requires_session_witness :
  live_session Demo.world (Some "stale") = false
  /\ DomainRoute.PUT Demo.world (Some "stale") "B" (Str "api.demo.test") Undefined Demo.state
     = (Ok (json_error "Invalid session" 401), Demo.state)
  /\ DomainRoute.DELETE Demo.world None "A" Demo.state
     = (Ok (json_error "Unauthorized" 401), Demo.state).
Proof.
  split; [reflexivity|]. split.
  - exact (proj1 (proj2 (domain_route_requires_session Demo.world (Some "stale") "B"
                           (Str "api.demo.test") Undefined Demo.state eq_refl))).
  - exact (proj2 (proj2 (domain_route_requires_session Demo.world None "A"
                           Undefined Undefined Demo.state eq_refl))).
Defined.

(** X12. A refusal leaves no trace: when [PUT] answers 400, 401, 404
    or 409, the answer is an error message and the database and the
    files are as they were; every check that can refuse comes before
    the first write. *)
Theorem PUT_refusal_has_no_effect (w : World) (sessionToken : option string) (id : string)
    (domain studioDomain : jsval) (st st' : State) (response : Response) :
  DomainRoute.PUT w sessionToken id domain studioDomain st = (Ok response, st') ->
  status response = 400 \/ status response = 401
  \/ status response = 404 \/ status response = 409 ->
  st' = st
  /\ exists message, response = json_error message (status response).
Proof.
  intros Hrun Hcode.
  destruct (PUT_outcome w sessionToken id domain studioDomain st)
    as [(message & code & E & _) | (project & _ & _ & _ & E)];
    rewrite E in Hrun.
  - injection Hrun as <- <-. split; [reflexivity|]. exists message. reflexivity.
  - cbv zeta in Hrun. injection Hrun as <- <-. cbn [status json] in Hcode.
    destruct Hcode as [H | [H | [H | H]]]; discriminate H.
Qed.

Lemma PUT_refusal_has_no_effect_witness :
  exists response st',
    DomainRoute.PUT Demo.world (Some "token") "B" (Str "api.alpha.test") Undefined
      Demo.state
    = (Ok response, st')
    /\ status response = 409
    /\ st' = Demo.state.
Proof.
  assert (Hrun : DomainRoute.PUT Demo.world (Some "token") "B" (Str "api.alpha.test")
                   Undefined Demo.state
                 = (Ok (json_error "API domain is already in use" 409),
                    snd (DomainRoute.PUT Demo.world (Some "token") "B"
                           (Str "api.alpha.test") Undefined Demo.state)))
    by (vm_compute; reflexivity).
  eexists. eexists. split; [exact Hrun|]. split; [reflexivity|].
  exact (proj1 (PUT_refusal_has_no_effect Demo.world (Some "token") "B"
                  (Str "api.alpha.test") Undefined Demo.state _ _ Hrun
                  (or_intror (or_intror (or_intror eq_refl))))).
Defined.

(** X13. An update touches one row and one file: the settings of the
    panel, the rows of the other projects and every file but the
    routing file of the project are as before, no row is added or
    removed, and the slug and the variables of the project are kept. *)
Theorem PUT_frame (w : World) (sessionToken : option string) (id : string)
    (domain studioDomain : jsval) (st : State) :
  let st' := snd (DomainRoute.PUT w sessionToken id domain studioDomain st) in
  panelSettings st' = panelSettings st
  /\ (forall j, j <> id -> projects st' !! j = projects st !! j)
  /\ (projects st !! id = None -> st' = st)
  /\ (forall project, projects st !! id = Some project ->
        (exists row,
            projects st' !! id = Some row
            /\ Db.slug row = Db.slug project
            /\ Db.envVars row = Db.envVars project)
        /\ (forall path, path <> configPath w (Db.slug project) ->
              files st' !! path = files st !! path)).
Proof.
  intros st'. subst st'.
  destruct (PUT_outcome w sessionToken id domain studioDomain st)
    as [(message & code & -> & _) | (project & _ & Hp & _ & ->)]; cbn [snd].
  - split; [reflexivity|]. split; [reflexivity|]. split; [reflexivity|].
    intros project Hp. split; [eauto | reflexivity].
  - unfold accepted_state. cbn [panelSettings projects files set_files set_projects].
    split; [reflexivity|]. split; [|split].
    + intros j Hj. apply lookup_insert_ne. auto.
    + congruence.
    + intros project' Hp'. assert (project' = project) as -> by congruence. split.
      * exists (accepted_row w domain studioDomain project).
        split; [apply lookup_insert_eq|].
        unfold accepted_row, DomainRoute.updateData.
        destruct (is_undefined domain), (is_undefined studioDomain); split; reflexivity.
      * intros path Hne.
        exact (lookup_insert_ne (M := gmap string) (files st) _ _ _ (not_eq_sym Hne)).
Qed.

End DomainHandlers.

Section DomainInvariants.

Import Traefik Doc.

Lemma accepted_row_domain (w : World) (domain studioDomain : jsval) (project : Db.Project) :
  Db.domain (accepted_row w domain studioDomain project)
  = if is_undefined domain then Db.domain project else or_null domain.
Proof.
  unfold accepted_row, DomainRoute.updateData.
  destruct (is_undefined domain), (is_undefined studioDomain); reflexivity.
Qed.

Lemma accepted_row_studioDomain (w : World) (domain studioDomain : jsval)
    (project : Db.Project) :
  Db.studioDomain (accepted_row w domain studioDomain project)
  = if is_undefined studioDomain then Db.studioDomain project else or_null studioDomain.
Proof.
  unfold accepted_row, DomainRoute.updateData.
  destruct (is_undefined domain), (is_undefined studioDomain); reflexivity.
Qed.

Lemma or_null_Some (v : jsval) (d : string) :
  or_null v = Some d -> truthy_val v = true /\ to_string v = d.
Proof.
  destruct v as [| |s]; try discriminate. cbn. destruct (truthy s); [|discriminate].
  intros [= ->]. auto.
Qed.

(** A row that replaces the row [id] keeps the API domains unique when
    its API domain is the old one or one that no other row holds. *)
Lemma api_unique_insert (st : State) (id : string) (project row : Db.Project) :
  api_domains_unique st ->
  projects st !! id = Some project ->
  (forall d, Db.domain row = Some d ->
     Db.domain project = Some d \/ ~ api_domain_taken st d id) ->
  api_domains_unique (set_projects st (<[id := row]> (projects st))).
Proof.
  intros Hu Hp Hrow i j p q d Hij Hi Hj Hpd Hqd.
  cbn [projects set_projects] in Hi, Hj.
  destruct (decide (i = id)) as [-> | Hi'];
    [rewrite lookup_insert_eq in Hi | rewrite lookup_insert_ne in Hi by auto];
    (destruct (decide (j = id)) as [-> | Hj'];
     [rewrite lookup_insert_eq in Hj | rewrite lookup_insert_ne in Hj by auto]).
  - congruence.
  - injection Hi as <-. destruct (Hrow d Hpd) as [Hold | Hfree].
    + exact (Hu id j project q d Hij Hp Hj Hold Hqd).
    + apply Hfree. exists j, q. auto.
  - injection Hj as <-. destruct (Hrow d Hqd) as [Hold | Hfree].
    + exact (Hu id i project p d (not_eq_sym Hij) Hp Hi Hold Hpd).
    + apply Hfree. exists i, p. auto.
  - exact (Hu i j p q d Hij Hi Hj Hpd Hqd).
Qed.

Lemma studio_unique_insert (st : State) (id : string) (project row : Db.Project) :
  studio_domains_unique st ->
  projects st !! id = Some project ->
  (forall d, Db.studioDomain row = Some d ->
     Db.studioDomain project = Some d \/ ~ studio_domain_taken st d id) ->
  studio_domains_unique (set_projects st (<[id := row]> (projects st))).
Proof.
  intros Hu Hp Hrow i j p q d Hij Hi Hj Hpd Hqd.
  cbn [projects set_projects] in Hi, Hj.
  destruct (decide (i = id)) as [-> | Hi'];
    [rewrite lookup_insert_eq in Hi | rewrite lookup_insert_ne in Hi by auto];
    (destruct (decide (j = id)) as [-> | Hj'];
     [rewrite lookup_insert_eq in Hj | rewrite lookup_insert_ne in Hj by auto]).
  - congruence.
  - injection Hi as <-. destruct (Hrow d Hpd) as [Hold | Hfree].
    + exact (Hu id j project q d Hij Hp Hj Hold Hqd).
    + apply Hfree. exists j, q. auto.
  - injection Hj as <-. destruct (Hrow d Hqd) as [Hold | Hfree].
    + exact (Hu id i project p d (not_eq_sym Hij) Hp Hi Hold Hpd).
    + apply Hfree. exists i, p. auto.
  - exact (Hu i j p q d Hij Hi Hj Hpd Hqd).
Qed.

(** X14. The uniqueness checks keep their invariant: when no two
    projects hold the same API domain before an update or a removal,
    none do after it, and so for the Studio domains. *)
Theorem domain_uniqueness_preserved (w : World) (sessionToken : option string)
    (id : string) (domain studioDomain : jsval) (st : State) :
  (api_domains_unique st ->
     api_domains_unique (snd (DomainRoute.PUT w sessionToken id domain studioDomain st))
     /\ api_domains_unique (snd (DomainRoute.DELETE w sessionToken id st)))
  /\ (studio_domains_unique st ->
        studio_domains_unique
          (snd (DomainRoute.PUT w sessionToken id domain studioDomain st))
        /\ studio_domains_unique (snd (DomainRoute.DELETE w sessionToken id st))).
Proof.
  assert (Hdel : forall (P : State -> Prop),
             P st ->
             (forall project, projects st !! id = Some project ->
                P (set_files
                     (set_projects st (<[id := DomainRoute.clearData project]> (projects st)))
                     (delete (configPath w (Db.slug project)) (files st)))) ->
             P (snd (DomainRoute.DELETE w sessionToken id st))).
  { intros P H0 H1. destruct (live_session w sessionToken) eqn:Hlive.
    - destruct (live_session_token w sessionToken Hlive) as (token & -> & Htok & Hsess).
      rewrite (DELETE_run w token id st Htok Hsess).
      destruct (projects st !! id) as [project|]; cbn [snd]; auto.
    - rewrite (DELETE_no_session w sessionToken id st Hlive). exact H0. }
  split; intros Hu; split.
  - destruct (PUT_outcome w sessionToken id domain studioDomain st)
      as [(message & code & -> & _) | (project & _ & Hp & (Had & _ & _) & ->)];
      cbn [snd]; [exact Hu|].
    apply (api_unique_insert st id project _ Hu Hp).
    intros d. rewrite accepted_row_domain.
    destruct (is_undefined domain); [auto|]. intros Hd.
    apply or_null_Some in Hd as [T <-]. right. apply Had. exact T.
  - apply Hdel; [exact Hu|]. intros project Hp.
    apply (api_unique_insert st id project _ Hu Hp). discriminate.
  - destruct (PUT_outcome w sessionToken id domain studioDomain st)
      as [(message & code & -> & _) | (project & _ & Hp & (_ & Has & _) & ->)];
      cbn [snd]; [exact Hu|].
    apply (studio_unique_insert st id project _ Hu Hp).
    intros d. rewrite accepted_row_studioDomain.
    destruct (is_undefined studioDomain); [auto|]. intros Hd.
    apply or_null_Some in Hd as [T <-]. right. apply Has. exact T.
  - apply Hdel; [exact Hu|]. intros project Hp.
    apply (studio_unique_insert st id project _ Hu Hp). discriminate.
Qed.

Lemma domain_uniqueness_preserved_witness :
  api_domains_unique Demo.state
  /\ api_domains_unique
       (snd (DomainRoute.PUT Demo.world (Some "token") "B" (Str "api.demo.test") Undefined
               Demo.state)).
Proof.
  assert (Hu : api_domains_unique Demo.state).
  { intros i j p q d Hij Hi Hj Hp Hq. cbn [projects Demo.state] in Hi, Hj.
    apply lookup_insert_Some in Hi as [[<- <-] | [? Hi]];
      [|apply lookup_insert_Some in Hi as [[<- <-] | [? Hi]];
        [|apply lookup_insert_Some in Hi as [[<- <-] | [? Hi]];
          [|rewrite lookup_empty in Hi; discriminate]]];
    (apply lookup_insert_Some in Hj as [[<- <-] | [? Hj]];
      [|apply lookup_insert_Some in Hj as [[<- <-] | [? Hj]];
        [|apply lookup_insert_Some in Hj as [[<- <-] | [? Hj]];
          [|rewrite lookup_empty in Hj; discriminate]]]);
    cbn in Hp, Hq; congruence. }
  split; [exact Hu|].
  exact (proj1 (proj1 (domain_uniqueness_preserved Demo.world (Some "token") "B"
                         (Str "api.demo.test") Undefined Demo.state) Hu)).
Defined.

End DomainInvariants.

Section DomainRoundTrips.

Import Traefik Doc.

(** X15. [GET] reads back what was written and changes nothing: after
    a [PUT] that succeeds it answers the domains and verified flags of
    the answer of the [PUT]; after a [DELETE] that succeeds it answers
    no domain and two [false] flags. *)
Theorem GET_reads_back (w : World) (sessionToken : option string) (id : string)
    (domain studioDomain : jsval) (st : State) :
  (forall st0, snd (DomainRouteGet.GET w sessionToken id st0) = st0)
  /\ (forall d v sd sv message st',
        DomainRoute.PUT w sessionToken id domain studioDomain st
        = (Ok (json (DomainBody d v sd sv message)), st') ->
        fst (DomainRouteGet.GET w sessionToken id st')
        = Ok (read_json (DomainInfo d v sd sv)))
  /\ (forall message st',
        DomainRoute.DELETE w sessionToken id st = (Ok (json (SuccessBody message)), st') ->
        fst (DomainRouteGet.GET w sessionToken id st')
        = Ok (read_json (DomainInfo None false None false))).
Proof.
  split; [intros st0; rewrite GET_run; reflexivity|]. split.
  - intros d v sd sv message st' Hput.
    destruct (PUT_outcome w sessionToken id domain studioDomain st)
      as [(m & code & E & _) | (project & Hlive & Hp & _ & E)];
      rewrite E in Hput; [discriminate Hput|].
    cbv zeta in Hput. injection Hput as <- <- <- <- _ <-.
    rewrite GET_run, Hlive. unfold accepted_state. cbn [projects set_files set_projects fst].
    rewrite lookup_insert_eq. reflexivity.
  - intros message st' Hdel.
    destruct (live_session w sessionToken) eqn:Hlive.
    + destruct (live_session_token w sessionToken Hlive) as (token & -> & Htok & Hsess).
      rewrite (DELETE_run w token id st Htok Hsess) in Hdel.
      destruct (projects st !! id) as [project|]; [|discriminate Hdel].
      injection Hdel as _ <-.
      rewrite GET_run, Hlive. cbn [projects set_files set_projects fst].
      rewrite lookup_insert_eq. reflexivity.
    + rewrite (DELETE_no_session w sessionToken id st Hlive) in Hdel. discriminate Hdel.
Qed.

Lemma GET_reads_back_witness :
  exists message st',
    DomainRoute.PUT Demo.world (Some "token") "B" (Str "live.demo.test") Undefined Demo.state
    = (Ok (json (DomainBody (Some "live.demo.test") true None false message)), st')
    /\ fst (DomainRouteGet.GET Demo.world (Some "token") "B" st')
       = Ok (read_json (DomainInfo (Some "live.demo.test") true None false)).
Proof.
  eexists. eexists.
  assert (Hput : DomainRoute.PUT Demo.world (Some "token") "B" (Str "live.demo.test")
                   Undefined Demo.state
                 = (Ok (json (DomainBody (Some "live.demo.test") true None false
                                "API domain verified")),
                    snd (DomainRoute.PUT Demo.world (Some "token") "B"
                           (Str "live.demo.test") Undefined Demo.state))).
  { vm_compute. reflexivity. }
  split; [exact Hput|].
  exact (proj1 (proj2 (GET_reads_back Demo.world (Some "token") "B" (Str "live.demo.test")
                         Undefined Demo.state)) _ _ _ _ _ _ Hput).
Defined.

Lemma taken_after_insert_api (st : State) (id d : string) (row : Db.Project) :
  api_domain_taken (set_projects st (<[id := row]> (projects st))) d id
  <-> api_domain_taken st d id.
Proof.
  unfold api_domain_taken, map_Exists. cbn [projects set_projects].
  split; intros (i & p & Hi & Hd & Hne); exists i, p.
  - rewrite lookup_insert_ne in Hi by auto. auto.
  - rewrite lookup_insert_ne by auto. auto.
Qed.

Lemma taken_after_insert_studio (st : State) (id d : string) (row : Db.Project) :
  studio_domain_taken (set_projects st (<[id := row]> (projects st))) d id
  <-> studio_domain_taken st d id.
Proof.
  unfold studio_domain_taken, map_Exists. cbn [projects set_projects].
  split; intros (i & p & Hi & Hd & Hne); exists i, p.
  - rewrite lookup_insert_ne in Hi by auto. auto.
  - rewrite lookup_insert_ne by auto. auto.
Qed.

Lemma accepted_row_idempotent (w : World) (domain studioDomain : jsval)
    (project : Db.Project) :
  accepted_row w domain studioDomain (accepted_row w domain studioDomain project)
  = accepted_row w domain studioDomain project.
Proof.
  unfold accepted_row, DomainRoute.updateData.
  destruct (is_undefined domain), (is_undefined studioDomain); reflexivity.
Qed.

Lemma accepted_state_idempotent (w : World) (id : string) (domain studioDomain : jsval)
    (st : State) (project : Db.Project) :
  accepted_state w id domain studioDomain
    (accepted_state w id domain studioDomain st project)
    (accepted_row w domain studioDomain project)
  = accepted_state w id domain studioDomain st project.
Proof.
  unfold accepted_state. cbv zeta. rewrite accepted_row_idempotent.
  assert (Es : Db.slug (accepted_row w domain studioDomain project) = Db.slug project).
  { unfold accepted_row, DomainRoute.updateData.
    destruct (is_undefined domain), (is_undefined studioDomain); reflexivity. }
  assert (Er : rendered domain studioDomain (accepted_row w domain studioDomain project)
                 (accepted_row w domain studioDomain project)
               = rendered domain studioDomain project
                   (accepted_row w domain studioDomain project)).
  { unfold rendered. rewrite Es.
    assert (Ee : Db.envVars (accepted_row w domain studioDomain project)
                 = Db.envVars project).
    { unfold accepted_row, DomainRoute.updateData.
      destruct (is_undefined domain), (is_undefined studioDomain); reflexivity. }
    rewrite Ee. reflexivity. }
  rewrite Es, Er. unfold set_files, set_projects. cbn [projects panelSettings files].
  f_equal.
  - apply insert_insert_eq.
  - exact (insert_insert_eq (M := gmap string) (files st) _ _ _).
Qed.

(** X16. An update is idempotent: sending the same request again
    gives the same answer and leaves the same state; a project is
    never in conflict with the domains it holds itself. *)
Theorem PUT_idempotent (w : World) (sessionToken : option string) (id : string)
    (domain studioDomain : jsval) (st : State) :
  DomainRoute.PUT w sessionToken id domain studioDomain
    (snd (DomainRoute.PUT w sessionToken id domain studioDomain st))
  = DomainRoute.PUT w sessionToken id domain studioDomain st.
Proof.
  destruct (PUT_outcome w sessionToken id domain studioDomain st)
    as [(m & code & E & _) | (project & Hlive & Hp & (Had & Has & Hone) & E)].
  - rewrite E. cbn [snd]. exact E.
  - rewrite E. cbn [snd].
    set (st1 := accepted_state w id domain studioDomain st project).
    assert (Hp1 : projects st1 !! id = Some (accepted_row w domain studioDomain project)).
    { unfold st1, accepted_state. cbn [projects set_files set_projects].
      apply lookup_insert_eq. }
    destruct (live_session_token w sessionToken Hlive) as (token & -> & Htok & Hsess).
    rewrite (PUT_validated w token id domain studioDomain st1 _ Htok Hsess
               (fun T => proj1 (Had T)) (fun T => proj1 (Has T)) Hone Hp1).
    assert (E1 : truthy_val domain
                 && bool_decide (api_domain_taken st1 (to_string domain) id) = false).
    { destruct (truthy_val domain) eqn:T; [|reflexivity]. cbn [andb].
      apply bool_decide_eq_false. unfold st1, accepted_state. cbv zeta.
      intros H. apply (proj2 (Had eq_refl)).
      apply (taken_after_insert_api st id _ (accepted_row w domain studioDomain project)).
      exact H. }
    assert (E2 : truthy_val studioDomain
                 && bool_decide (studio_domain_taken st1 (to_string studioDomain) id)
                 = false).
    { destruct (truthy_val studioDomain) eqn:T; [|reflexivity]. cbn [andb].
      apply bool_decide_eq_false. unfold st1, accepted_state. cbv zeta.
      intros H. apply (proj2 (Has eq_refl)).
      apply (taken_after_insert_studio st id _ (accepted_row w domain studioDomain project)).
      exact H. }
    rewrite E1, E2. cbv zeta.
    fold (accepted_row w domain studioDomain (accepted_row w domain studioDomain project)).
    rewrite accepted_row_idempotent.
    assert (Ec : truthy_opt (or_stored domain
                               (Db.domain (accepted_row w domain studioDomain project)))
                 || truthy_opt (or_stored studioDomain
                                  (Db.studioDomain
                                     (accepted_row w domain studioDomain project))) = true).
    { apply orb_true_iff. apply orb_true_iff in Hone as [H|H]; [left | right].
      - destruct domain as [| |d]; try discriminate H. cbn in H |- *. rewrite H. exact H.
      - destruct studioDomain as [| |d]; try discriminate H. cbn in H |- *.
        rewrite H. exact H. }
    rewrite Ec. f_equal.
    pose proof (accepted_state_idempotent w id domain studioDomain st project) as Hi.
    unfold accepted_state in Hi at 1. cbv zeta in Hi.
    rewrite accepted_row_idempotent in Hi. fold st1 in Hi. exact Hi.
Qed.

End DomainRoundTrips.

Section DomainUndo.

Import Traefik Doc.

Lemma clearData_accepted_row (w : World) (domain studioDomain : jsval)
    (project : Db.Project) :
  DomainRoute.clearData (accepted_row w domain studioDomain project)
  = DomainRoute.clearData project.
Proof.
  unfold accepted_row, DomainRoute.updateData, DomainRoute.clearData.
  destruct (is_undefined domain), (is_undefined studioDomain); reflexivity.
Qed.

Lemma clearData_fresh (project : Db.Project) :
  Db.domain project = None -> Db.domainVerified project = false ->
  Db.studioDomain project = None -> Db.studioDomainVerified project = false ->
  DomainRoute.clearData project = project.
Proof.
  destruct project. cbn. intros -> -> -> ->. reflexivity.
Qed.

(** X17. Removing the domains undoes an update.  After a [PUT] that
    succeeds, [DELETE] leaves the row with no domain and both flags
    [false] and no routing file; when the project had no domain and no
    file before the update, the state is again the state before it. *)
Theorem DELETE_undoes_PUT (w : World) (sessionToken : option string) (id : string)
    (domain studioDomain : jsval) (st st1 : State) (project : Db.Project)
    (body : Body) :
  projects st !! id = Some project ->
  DomainRoute.PUT w sessionToken id domain studioDomain st
  = (Ok {| status := 200; body := body |}, st1) ->
  exists st2,
    DomainRoute.DELETE w sessionToken id st1
    = (Ok (json (SuccessBody "Domains removed successfully")), st2)
    /\ projects st2 = <[id := DomainRoute.clearData project]> (projects st)
    /\ files st2 = delete (configPath w (Db.slug project)) (files st)
    /\ panelSettings st2 = panelSettings st
    /\ (Db.domain project = None -> Db.domainVerified project = false ->
        Db.studioDomain project = None -> Db.studioDomainVerified project = false ->
        files st !! configPath w (Db.slug project) = None ->
        st2 = st).
Proof.
  intros Hp Hput.
  destruct (PUT_outcome w sessionToken id domain studioDomain st)
    as [(m & code & E & Hcode) | (project' & Hlive & Hp' & _ & E)];
    rewrite E in Hput.
  { injection Hput as Hc _ _. exfalso. destruct Hcode as [-> | [-> | [-> | ->]]];
      discriminate Hc. }
  assert (project' = project) as -> by congruence.
  cbv zeta in Hput. injection Hput as _ <-.
  destruct (live_session_token w sessionToken Hlive) as (token & -> & Htok & Hsess).
  rewrite (DELETE_run w token id _ Htok Hsess).
  unfold accepted_state. cbv zeta. cbn [projects set_files set_projects files panelSettings].
  rewrite lookup_insert_eq.
  assert (Es : Db.slug (accepted_row w domain studioDomain project) = Db.slug project).
  { unfold accepted_row, DomainRoute.updateData.
    destruct (is_undefined domain), (is_undefined studioDomain); reflexivity. }
  rewrite Es, clearData_accepted_row.
  eexists. split; [reflexivity|]. cbn [projects set_files set_projects files panelSettings].
  assert (Ep : <[id := DomainRoute.clearData project]>
                 (<[id := accepted_row w domain studioDomain project]> (projects st))
               = <[id := DomainRoute.clearData project]> (projects st))
    by apply insert_insert_eq.
  assert (Ef : delete (configPath w (Db.slug project))
                 (<[configPath w (Db.slug project)
                    := traefikConfig w
                         (rendered domain studioDomain project
                            (accepted_row w domain studioDomain project))]> (files st))
               = delete (configPath w (Db.slug project)) (files st))
    by exact (delete_insert_eq (M := gmap string) (files st) _ _).
  split; [exact Ep|]. split; [exact Ef|]. split; [reflexivity|].
  intros H1 H2 H3 H4 Hf.
  unfold set_files, set_projects. cbn [projects panelSettings files].
  rewrite Ep, Ef, (clearData_fresh project H1 H2 H3 H4), (files_delete_id _ _ Hf).
  rewrite (insert_id (projects st) id project Hp). destruct st; reflexivity.
Qed.

Lemma DELETE_undoes_PUT_witness :
  exists body st1,
    projects Demo.state !! "B" = Some Demo.demo
    /\ DomainRoute.PUT Demo.world (Some "token") "B" (Str "api.demo.test")
         (Str "studio.demo.test") Demo.state
       = (Ok {| status := 200; body := body |}, st1)
    /\ DomainRoute.DELETE Demo.world (Some "token") "B" st1
       = (Ok (json (SuccessBody "Domains removed successfully")), Demo.state).
Proof.
  eexists. eexists. split; [reflexivity|].
  assert (Hput : DomainRoute.PUT Demo.world (Some "token") "B" (Str "api.demo.test")
                   (Str "studio.demo.test") Demo.state
                 = (Ok {| status := 200;
                          body := DomainBody (Some "api.demo.test") false
                                    (Some "studio.demo.test") false
                                    "API domain configured (DNS pending). Studio domain configured (DNS pending)" |},
                    snd (DomainRoute.PUT Demo.world (Some "token") "B"
                           (Str "api.demo.test") (Str "studio.demo.test") Demo.state))).
  { vm_compute. reflexivity. }
  split; [exact Hput|].
  destruct (DELETE_undoes_PUT Demo.world (Some "token") "B" (Str "api.demo.test")
              (Str "studio.demo.test") Demo.state _ Demo.demo _ eq_refl Hput)
    as (st2 & Hdel & _ & _ & _ & Hsame).
  rewrite Hdel. f_equal. apply Hsame; reflexivity.
Defined.

(** X18. A field sent as the empty string or as [null] clears that
    domain.  For a project with an API domain, an update with such an
    API field and a new Studio domain succeeds, stores no API domain
    with the flag [false], and writes a file with the Studio routers
    and service only: the API routes of the project are gone. *)
Theorem PUT_clears_domain (w : World) (token id s : string) (domain : jsval)
    (st : State) (project : Db.Project) :
  truthy token = true ->
  validateSession w token = true ->
  projects st !! id = Some project ->
  domain = Null \/ domain = Str EmptyString ->
  domainRegex_test s = true ->
  truthy s = true ->
  ~ studio_domain_taken st s id ->
  let slug := Db.slug project in
  let ports := getProjectPorts (DomainRoute.envVarsMap (Db.envVars project)) in
  let studio_only :=
    {| Config.projectSlug := slug; Config.domain := EmptyString;
       Config.studioDomain := Some s;
       Config.kongPort := kongPort ports; Config.studioPort := studioPort ports |} in
  (exists row message st',
      DomainRoute.PUT w (Some token) id domain (Str s) st
      = (Ok (json (DomainBody None false (Some s) (Db.studioDomainVerified row) message)),
         st')
      /\ projects st' !! id = Some row
      /\ Db.domain row = None /\ Db.domainVerified row = false
      /\ Db.studioDomain row = Some s
      /\ files st' !! configPath w slug = Some (traefikConfig w studio_only))
  /\ traefikConfig w studio_only = print (project_document w studio_only)
  /\ routers (project_document w studio_only)
     = [ studio_router slug s; studio_http_router slug s ]
  /\ services (project_document w studio_only) = [ studio_service slug (studioPort ports) ].
Proof.
  intros Htok Hsess Hp Hdom Hfmt Ts Hfree slug ports studio_only.
  split; [|split; [symmetry; apply print_project_document|]].
  - assert (Tn : truthy_val domain = false) by (destruct Hdom as [-> | ->]; reflexivity).
    assert (Un : is_undefined domain = false) by (destruct Hdom as [-> | ->]; reflexivity).
    assert (On : or_null domain = None) by (destruct Hdom as [-> | ->]; reflexivity).
    rewrite (PUT_validated w token id domain (Str s) st project Htok Hsess);
      [ | rewrite Tn; discriminate | intros _; exact Hfmt
        | rewrite Tn; cbn; exact Ts | exact Hp ].
    rewrite Tn. cbn [andb truthy_val to_string]. rewrite Ts.
    rewrite bool_decide_eq_false_2 by exact Hfree. cbn [andb]. cbv zeta.
    fold (accepted_row w domain (Str s) project).
    set (row := accepted_row w domain (Str s) project).
    assert (E1 : Db.domain row = None).
    { unfold row. rewrite accepted_row_domain, Un. exact On. }
    assert (E2 : Db.studioDomain row = Some s).
    { unfold row. rewrite accepted_row_studioDomain. cbn. rewrite Ts. reflexivity. }
    assert (E3 : Db.domainVerified row = false).
    { unfold row, accepted_row, DomainRoute.updateData. rewrite Un, Tn. reflexivity. }
    assert (Er : rendered domain (Str s) project row = studio_only).
    { unfold rendered, studio_only. rewrite E1, E2.
      assert (O1 : or_stored domain None = None) by (destruct Hdom as [-> | ->]; reflexivity).
      rewrite O1. cbn [or_stored or_default]. rewrite Ts. cbn [or_default]. rewrite Ts.
      reflexivity. }
    assert (Ec : truthy_opt (or_stored domain (Db.domain row))
                 || truthy_opt (or_stored (Str s) (Db.studioDomain row)) = true).
    { apply orb_true_iff. right. cbn [or_stored]. rewrite Ts. exact Ts. }
    rewrite Ec, Er, E1, E2, E3.
    exists row. eexists. eexists. split; [reflexivity|].
    cbn [projects files set_files set_projects].
    split; [apply lookup_insert_eq|]. split; [exact E1|]. split; [exact E3|].
    split; [exact E2 | apply files_lookup_insert].
  - destruct (project_document_entries w studio_only) as [Hr Hsv]. cbv zeta in Hr, Hsv.
    rewrite Hr, Hsv. unfold studio_only.
    cbn [Config.projectSlug Config.domain Config.studioDomain Config.kongPort
         Config.studioPort truthy truthy_opt or_default].
    rewrite Ts. split; reflexivity.
Qed.

Lemma PUT_clears_domain_witness :
  truthy "token" = true
  /\ validateSession Demo.world "token" = true
  /\ projects Demo.state !! "C" = Some Demo.gamma
  /\ Db.domain Demo.gamma = Some "api.gamma.test"
  /\ domainRegex_test "studio.gamma.test" = true
  /\ ~ studio_domain_taken Demo.state "studio.gamma.test" "C"
  /\ exists row message st',
       DomainRoute.PUT Demo.world (Some "token") "C" (Str EmptyString)
         (Str "studio.gamma.test") Demo.state
       = (Ok (json (DomainBody None false (Some "studio.gamma.test")
                      (Db.studioDomainVerified row) message)), st')
       /\ Db.domain row = None.
Proof.
  assert (Hfree : ~ studio_domain_taken Demo.state "studio.gamma.test" "C").
  { apply (bool_decide_eq_false_1
             (studio_domain_taken Demo.state "studio.gamma.test" "C")).
    vm_compute. reflexivity. }
  split; [reflexivity | split; [reflexivity | split; [reflexivity |]]].
  split; [reflexivity | split; [reflexivity | split; [exact Hfree |]]].
  destruct (PUT_clears_domain Demo.world "token" "C" "studio.gamma.test" (Str EmptyString)
              Demo.state Demo.gamma eq_refl eq_refl eq_refl (or_intror eq_refl)
              eq_refl eq_refl Hfree)
    as ((row & message & st' & Hrun & _ & Hd & _) & _).
  exists row, message, st'. split; [exact Hrun | exact Hd].
Defined.

(** X19. Removing the domains is idempotent and needs no file: a
    second [DELETE] gives the answer and the state of the first, and
    the removal of the domains of a project that has no routing file
    succeeds all the same. *)
Theorem DELETE_idempotent (w : World) (sessionToken : option string) (id : string)
    (st : State) :
  DomainRoute.DELETE w sessionToken id (snd (DomainRoute.DELETE w sessionToken id st))
  = DomainRoute.DELETE w sessionToken id st.
Proof.
  destruct (live_session w sessionToken) eqn:Hlive.
  2:{ rewrite !(DELETE_no_session w sessionToken id _ Hlive). reflexivity. }
  destruct (live_session_token w sessionToken Hlive) as (token & -> & Htok & Hsess).
  rewrite (DELETE_run w token id st Htok Hsess).
  destruct (projects st !! id) as [project|] eqn:Hp; cbn [snd].
  - rewrite (DELETE_run w token id _ Htok Hsess).
    cbn [projects files set_files set_projects]. rewrite lookup_insert_eq.
    f_equal. unfold set_files, set_projects. cbn [projects panelSettings files Db.slug
      DomainRoute.clearData].
    f_equal.
    + apply insert_insert_eq.
    + exact (delete_delete_eq (M := gmap string) (files st) _).
  - rewrite (DELETE_run w token id st Htok Hsess), Hp. reflexivity.
Qed.

End DomainUndo.

(** ** The handlers of [/api/settings/panel-domain] together *)

Section PanelHandlers.

Import Traefik Doc PanelDoc.

Lemma panel_GET_run (w : World) (sessionToken : option string) (st : State) :
  PanelDomainRouteRest.GET w sessionToken st
  = (Ok (if live_session w sessionToken
         then read_json
                (PanelInfo
                   (match panelSettings st !! "panel_domain" with
                    | Some v => if truthy v then Some v else None
                    | None => None
                    end)
                   (match panelSettings st !! "panel_domain_verified" with
                    | Some v => String.eqb v "true"
                    | None => false
                    end))
         else read_error (no_session_message sessionToken) 401),
     st).
Proof.
  unfold live_session, no_session_message, PanelDomainRouteRest.GET, try_catch.
  destruct (truthy_opt sessionToken); cbn [negb andb]; [|reflexivity].
  destruct (validateSession w _); reflexivity.
Qed.

Lemma panel_DELETE_run (w : World) (sessionToken : option string) (st : State) :
  PanelDomainRouteRest.DELETE w sessionToken st
  = if live_session w sessionToken
    then (Ok (json (SuccessBody "Panel domain removed successfully")),
          set_files
            (set_panelSettings st
               (delete "panel_domain" (delete "panel_domain_verified" (panelSettings st))))
            (<[panel_yml w := emptyConfig]> (files st)))
    else (Ok (json_error (no_session_message sessionToken) 401), st).
Proof.
  unfold live_session, no_session_message, PanelDomainRouteRest.DELETE, try_catch.
  destruct (truthy_opt sessionToken); cbn [negb andb]; [|reflexivity].
  destruct (validateSession w _); reflexivity.
Qed.

Lemma panel_PUT_no_session (w : World) (sessionToken : option string) (domain : jsval)
    (st : State) :
  live_session w sessionToken = false ->
  PanelDomainRoute.PUT w sessionToken domain st
  = (Ok (json_error (no_session_message sessionToken) 401), st).
Proof.
  unfold live_session, no_session_message, PanelDomainRoute.PUT, try_catch.
  destruct (truthy_opt sessionToken); cbn [negb andb]; [|reflexivity].
  intros ->. reflexivity.
Qed.

(** X20. Without a live session the three handlers of the panel
    route answer 401 and neither read nor write the stores. *)
Theorem panel_route_requires_session (w : World) (sessionToken : option string)
    (domain : jsval) (st : State) :
  live_session w sessionToken = false ->
  PanelDomainRouteRest.GET w sessionToken st
  = (Ok (read_error (no_session_message sessionToken) 401), st)
  /\ PanelDomainRoute.PUT w sessionToken domain st
     = (Ok (json_error (no_session_message sessionToken) 401), st)
  /\ PanelDomainRouteRest.DELETE w sessionToken st
     = (Ok (json_error (no_session_message sessionToken) 401), st).
Proof.
  intros H. split; [|split].
  - rewrite panel_GET_run, H. reflexivity.
  - apply panel_PUT_no_session. exact H.
  - rewrite panel_DELETE_run, H. reflexivity.
Qed.

Lemma panel_route_requires_session_witness :
  live_session Demo.world None = false
  /\ PanelDomainRoute.PUT Demo.world None (Str "panel.example.com") Demo.state
     = (Ok (json_error "Unauthorized" 401), Demo.state)
  /\ PanelDomainRouteRest.DELETE Demo.world None Demo.state
     = (Ok (json_error "Unauthorized" 401), Demo.state).
Proof.
  split; [reflexivity|].
  destruct (panel_route_requires_session Demo.world None (Str "panel.example.com")
              Demo.state eq_refl) as (_ & Hput & Hdel).
  split; [exact Hput | exact Hdel].
Defined.

Lemma bool_to_string_true (b : bool) :
  String.eqb (PanelDomainRoute.bool_to_string b) "true" = b.
Proof. destruct b; reflexivity. Qed.

(** X21. Setting the panel domain and reading it back.  With a live
    session, a well-formed domain is always accepted, whatever the
    projects hold (there is no uniqueness check): the two settings are
    stored, the file of the panel is written, the projects and the
    other files are as before, and [GET] then answers the domain and
    the verified flag of the answer of the [PUT]. *)
Theorem panel_PUT_then_GET (w : World) (token d : string) (st : State) :
  truthy token = true ->
  validateSession w token = true ->
  domainRegex_test d = true ->
  truthy d = true ->
  exists verified message st',
    PanelDomainRoute.PUT w (Some token) (Str d) st
    = (Ok (json (PanelDomainBody d verified message)), st')
    /\ fst (verifyDomainDNS w d st) = Ok verified
    /\ projects st' = projects st
    /\ files st' !! panel_yml w = Some (panelTraefikConfig w d)
    /\ (forall path, path <> panel_yml w -> files st' !! path = files st !! path)
    /\ PanelDomainRouteRest.GET w (Some token) st'
       = (Ok (read_json (PanelInfo (Some d) verified)), st').
Proof.
  intros Htok Hsess Hfmt Td.
  rewrite (panel_PUT_run w token (Str d) st Htok Hsess).
  cbn [truthy_val to_string]. rewrite Td, Hfmt. cbn [negb]. cbv zeta.
  eexists. eexists. eexists. split; [reflexivity|].
  split; [rewrite verifyDomainDNS_run; reflexivity|].
  cbn [projects files panelSettings set_files set_panelSettings].
  split; [reflexivity|]. split; [apply files_lookup_insert|]. split.
  - intros path Hne.
    exact (lookup_insert_ne (M := gmap string) (files st) _ _ _ (not_eq_sym Hne)).
  - rewrite panel_GET_run.
    assert (Hlive : live_session w (Some token) = true).
    { unfold live_session. cbn [truthy_opt or_default]. rewrite Htok, Hsess. reflexivity. }
    rewrite Hlive. cbn [panelSettings set_files set_panelSettings].
    rewrite (lookup_insert_eq (M := gmap string)).
    rewrite (lookup_insert_ne (M := gmap string)) by discriminate.
    rewrite (lookup_insert_eq (M := gmap string)).
    rewrite Td, bool_to_string_true. reflexivity.
Qed.

Lemma panel_PUT_then_GET_witness :
  truthy "token" = true
  /\ validateSession Demo.world "token" = true
  /\ domainRegex_test "api.alpha.test" = true
  /\ Db.domain Demo.alpha = Some "api.alpha.test"
  /\ exists verified message st',
       PanelDomainRoute.PUT Demo.world (Some "token") (Str "api.alpha.test") Demo.state
       = (Ok (json (PanelDomainBody "api.alpha.test" verified message)), st')
       /\ PanelDomainRouteRest.GET Demo.world (Some "token") st'
          = (Ok (read_json (PanelInfo (Some "api.alpha.test") verified)), st').
Proof.
  split; [reflexivity | split; [reflexivity | split; [reflexivity | split; [reflexivity|]]]].
  destruct (panel_PUT_then_GET Demo.world "token" "api.alpha.test" Demo.state
              eq_refl eq_refl eq_refl eq_refl)
    as (verified & message & st' & Hput & _ & _ & _ & _ & Hget).
  exists verified, message, st'. split; [exact Hput | exact Hget].
Defined.

(** X22. Removing the panel domain keeps the file of the panel: with a
    live session, and [panel.yml] in place (the installation creates
    it, and so does an update of the panel domain), [DELETE] removes
    the two settings and no other, overwrites [panel.yml] with the two
    comment lines, leaves the projects and the other files as they
    were, and [GET] then answers no domain and [false]. *)
Theorem panel_DELETE_writes_placeholder (w : World) (token old : string) (st : State) :
  truthy token = true ->
  validateSession w token = true ->
  files st !! panel_yml w = Some old ->
  exists st',
    PanelDomainRouteRest.DELETE w (Some token) st
    = (Ok (json (SuccessBody "Panel domain removed successfully")), st')
    /\ panelSettings st' !! "panel_domain" = None
    /\ panelSettings st' !! "panel_domain_verified" = None
    /\ (forall k, k <> "panel_domain" -> k <> "panel_domain_verified" ->
          panelSettings st' !! k = panelSettings st !! k)
    /\ files st' !! panel_yml w
       = Some (lines [ "# SupaPanel Panel Routing";
                       "# No custom domain configured - access via IP:3000";
                       EmptyString ])
    /\ (forall path, path <> panel_yml w -> files st' !! path = files st !! path)
    /\ projects st' = projects st
    /\ PanelDomainRouteRest.GET w (Some token) st'
       = (Ok (read_json (PanelInfo None false)), st').
Proof.
  intros Htok Hsess _.
  assert (Hlive : live_session w (Some token) = true).
  { unfold live_session. cbn [truthy_opt or_default]. rewrite Htok, Hsess. reflexivity. }
  rewrite panel_DELETE_run, Hlive. eexists. split; [reflexivity|].
  cbn [projects files panelSettings set_files set_panelSettings].
  assert (H1 : delete "panel_domain" (delete "panel_domain_verified" (panelSettings st))
                 !! "panel_domain" = None)
    by exact (lookup_delete_eq (M := gmap string) _ _).
  assert (H2 : delete "panel_domain" (delete "panel_domain_verified" (panelSettings st))
                 !! "panel_domain_verified" = None).
  { rewrite (lookup_delete_ne (M := gmap string)) by discriminate.
    exact (lookup_delete_eq (M := gmap string) _ _). }
  split; [exact H1|]. split; [exact H2|]. split; [|split; [|split; [|split]]].
  - intros k Hk1 Hk2.
    rewrite (lookup_delete_ne (M := gmap string)) by auto.
    exact (lookup_delete_ne (M := gmap string) _ _ _ (not_eq_sym Hk2)).
  - apply files_lookup_insert.
  - intros path Hne.
    exact (lookup_insert_ne (M := gmap string) (files st) _ _ _ (not_eq_sym Hne)).
  - reflexivity.
  - rewrite panel_GET_run, Hlive. cbn [panelSettings set_files set_panelSettings].
    rewrite H1, H2. reflexivity.
Qed.

Lemma panel_DELETE_writes_placeholder_witness :
  let installed :=
    set_files Demo.state
      (<["/etc/supapanel/traefik/dynamic/panel.yml" := "# SupaPanel Panel Routing"]>
         (files Demo.state)) in
  truthy "token" = true
  /\ validateSession Demo.world "token" = true
  /\ files installed !! panel_yml Demo.world = Some "# SupaPanel Panel Routing"
  /\ exists st',
       PanelDomainRouteRest.DELETE Demo.world (Some "token") installed
       = (Ok (json (SuccessBody "Panel domain removed successfully")), st')
       /\ files st' !! "/etc/supapanel/traefik/dynamic/panel.yml" = Some emptyConfig.
Proof.
  intros installed.
  assert (Hfile : files installed !! panel_yml Demo.world
                  = Some "# SupaPanel Panel Routing") by reflexivity.
  split; [reflexivity | split; [reflexivity | split; [exact Hfile|]]].
  destruct (panel_DELETE_writes_placeholder Demo.world "token" _ installed
              eq_refl eq_refl Hfile)
    as (st' & Hrun & _ & _ & _ & Hplace & _).
  exists st'. split; [exact Hrun | exact Hplace].
Defined.

(** X23. The file of the panel is the text of a document with two
    routers for the panel domain, at priorities 100 and 50, and one
    service; every router of every project document has a lower
    priority (10 or 5), so on a host in both the panel is served. *)
Theorem panel_document_priority (w : World) (domain : string)
    (config : Config.TraefikConfig) :
  panelTraefikConfig w domain = print (panel_document w domain)
  /\ routers (panel_document w domain)
     = [ {| r_comment := "Panel HTTPS router"; r_name := "supapanel"; r_host := domain;
            r_entryPoints := [ "websecure" ]; r_middlewares := [];
            r_service := "supapanel"; r_certResolver := Some "letsencrypt";
            r_priority := 100 |};
         {| r_comment := "Panel HTTP redirect router"; r_name := "supapanel-http";
            r_host := domain;
            r_entryPoints := [ "web" ]; r_middlewares := [ "https-redirect" ];
            r_service := "supapanel"; r_certResolver := None;
            r_priority := 50 |} ]
  /\ services (panel_document w domain)
     = [ {| s_name := "supapanel"; s_url := "http://supapanel-panel:3000";
            s_healthCheck := None |} ]
  /\ (forall p r,
        In p (routers (panel_document w domain)) ->
        In r (routers (project_document w config)) ->
        r_priority r < r_priority p).
Proof.
  split; [|split; [reflexivity | split; [reflexivity|]]].
  - unfold print. rewrite unlines_lines. unfold panelTraefikConfig, panel_document.
    cbn [d_header d_routers d_services d_middlewares app].
    cbv [lines String.concat section entry_lines router_lines service_lines
         middleware_lines bullets flat_map map fold_right app
         r_comment r_name r_host r_entryPoints r_middlewares
         r_service r_certResolver r_priority
         s_name s_url s_healthCheck m_name m_scheme m_permanent https_redirect
         panel_router panel_http_router panel_service dq nl].
    repeat (first [rewrite !append_assoc | progress simpl]). reflexivity.
  - intros p r Hp Hr.
    destruct (project_document_entries w config) as [E _]. cbv zeta in E. rewrite E in Hr.
    assert (Hr' : r_priority r <= 10).
    { destruct (truthy (Config.domain config)), (truthy_opt (Config.studioDomain config));
        cbn [app In] in Hr;
        repeat (destruct Hr as [<- | Hr];
                [cbv [r_priority api_router api_http_router studio_router
                      studio_http_router secure_router redirect_router]; lia|]);
        contradiction. }
    cbn [routers panel_document d_routers decls In] in Hp.
    destruct Hp as [<- | [<- | []]].
    + change (r_priority (panel_router domain)) with 100. lia.
    + change (r_priority (panel_http_router domain)) with 50. lia.
Qed.

End PanelHandlers.

(** ** Registration *)

Section Registration.

Import Auth.

Lemma register_closed (w : AuthWorld) (email password name : jsval) (users : Users) :
  users <> [] ->
  register w email password name users
  = (if negb (truthy_val email) || negb (truthy_val password)
     then auth_error "Email and password are required" 400
     else auth_error
            "Registration is closed. Contact an administrator to request access." 403,
     users).
Proof.
  intros Hne. unfold register.
  destruct (negb (truthy_val email) || negb (truthy_val password)); [reflexivity|].
  destruct users; [congruence | reflexivity].
Qed.

Lemma register_success (w : AuthWorld) (email password name : jsval) (users users' : Users)
    (response : AuthResponse) :
  register w email password name users = (response, users') ->
  auth_status response = 200 ->
  users = []
  /\ truthy_val email = true /\ truthy_val password = true
  /\ exists hashedPassword token,
       hashPassword w (to_string password) = Ok hashedPassword
       /\ createSession w (new_id w []) = Ok token
       /\ users' = [ {| user_id := new_id w [];
                        user_email := toLowerCase (to_string email);
                        user_password := hashedPassword;
                        user_name := or_null name |} ]
       /\ response
          = {| auth_status := 200;
               auth_body := Registered (new_id w []) (toLowerCase (to_string email))
                              (or_null name);
               session_cookie :=
                 Some {| cookie_value := token; httpOnly := true;
                         secure := match NODE_ENV w with
                                   | Some v => String.eqb v "production"
                                   | None => false
                                   end;
                         sameSite := "lax"; maxAge := 86400 |} |}.
Proof.
  unfold register.
  destruct (truthy_val email), (truthy_val password); cbn [negb orb];
    try (intros [= <- _] H; discriminate H).
  destruct users as [|u users]; cbn [count length Nat.ltb Nat.leb];
    [|intros [= <- _] H; discriminate H].
  cbn [findUnique find].
  destruct (hashPassword w (to_string password)) as [h|e];
    [|intros [= <- _] H; discriminate H].
  cbn [app user_id].
  destruct (createSession w (new_id w [])) as [t|e];
    [|intros [= <- _] H; discriminate H].
  intros [= <- <-] _. split; [reflexivity|]. split; [reflexivity|]. split; [reflexivity|].
  exists h, t. repeat split; reflexivity.
Qed.

(** X24. Only the first user can register.  A registration that
    succeeds (status 200) started from an empty table and leaves
    exactly one user; from then on the status route says that the
    registration is closed, and every further registration is refused
    (403, or 400 when a field is missing) with no cookie and the table
    as it was. *)
Theorem registration_closes_after_first_user (w : AuthWorld)
    (email password name : jsval) (users users' : Users) (response : AuthResponse) :
  register w email password name users = (response, users') ->
  auth_status response = 200 ->
  users = []
  /\ length users' = 1%nat
  /\ auth_body (registration_status users) = RegistrationStatus true
       "Welcome! Create your admin account to get started."
  /\ auth_body (registration_status users') = RegistrationStatus false
       "Registration is closed. Contact an administrator to request access."
  /\ (forall w' e p n,
        exists refusal,
          register w' e p n users' = (refusal, users')
          /\ (auth_status refusal = 403 \/ auth_status refusal = 400)
          /\ session_cookie refusal = None).
Proof.
  intros Hreg Hok.
  destruct (register_success w email password name users users' response Hreg Hok)
    as (-> & _ & _ & h & t & _ & _ & -> & _).
  split; [reflexivity|]. split; [reflexivity|]. split; [reflexivity|]. split; [reflexivity|].
  intros w' e p n. rewrite register_closed by discriminate.
  eexists. split; [reflexivity|].
  destruct (negb (truthy_val e) || negb (truthy_val p)); cbn; auto.
Qed.

Lemma registration_closes_after_first_user_witness :
  exists response users',
    register DemoAuth.world (Str "Admin@Example.COM") (Str "secret") Undefined []
    = (response, users')
    /\ auth_status response = 200
    /\ map user_email users' = [ "admin@example.com" ]
    /\ exists refusal,
         register DemoAuth.world (Str "second@example.com") (Str "secret") Undefined users'
         = (refusal, users')
         /\ session_cookie refusal = None.
Proof.
  eexists. eexists.
  assert (Hreg : register DemoAuth.world (Str "Admin@Example.COM") (Str "secret")
                   Undefined []
                 = (fst (register DemoAuth.world (Str "Admin@Example.COM") (Str "secret")
                           Undefined []),
                    snd (register DemoAuth.world (Str "Admin@Example.COM") (Str "secret")
                           Undefined []))) by reflexivity.
  split; [exact Hreg|]. split; [reflexivity|]. split; [reflexivity|].
  destruct (registration_closes_after_first_user DemoAuth.world _ _ _ _ _ _ Hreg eq_refl)
    as (_ & _ & _ & _ & Hclosed).
  destruct (Hclosed DemoAuth.world (Str "second@example.com") (Str "secret") Undefined)
    as (refusal & Hr & _ & Hc).
  exists refusal. split; [exact Hr | exact Hc].
Defined.

Lemma lower_char_not_capital (c : ascii) :
  in_range "A" "Z" (lower_char c) = false.
Proof.
  destruct c as [[] [] [] [] [] [] [] []]; reflexivity.
Qed.

Lemma lower_char_idempotent (c : ascii) : lower_char (lower_char c) = lower_char c.
Proof.
  destruct c as [[] [] [] [] [] [] [] []]; reflexivity.
Qed.

Lemma lower_char_ascii (c : ascii) :
  (code c < 128)%N -> in_range "A" "Z" c = false -> lower_char c = c.
Proof.
  destruct c as [[] [] [] [] [] [] [] []]; intros H1 H2;
    solve [reflexivity | discriminate H2 | vm_compute in H1; discriminate H1].
Qed.

Lemma toLowerCase_idempotent (s : string) : toLowerCase (toLowerCase s) = toLowerCase s.
Proof.
  induction s as [|c s IH]; [reflexivity|]. cbn [toLowerCase].
  rewrite lower_char_idempotent, IH. reflexivity.
Qed.

Lemma toLowerCase_no_capital (s : string) (c : ascii) :
  In c (list_ascii_of_string (toLowerCase s)) -> in_range "A" "Z" c = false.
Proof.
  induction s as [|c0 s IH]; cbn [toLowerCase list_ascii_of_string In]; [contradiction|].
  intros [<- | H]; [apply lower_char_not_capital | exact (IH H)].
Qed.

Lemma toLowerCase_fixes_lower_ascii (s : string) :
  (forall c, In c (list_ascii_of_string s) ->
             (code c < 128)%N /\ in_range "A" "Z" c = false) ->
  toLowerCase s = s.
Proof.
  induction s as [|c0 s IH]; cbn [toLowerCase list_ascii_of_string In]; [reflexivity|].
  intros H. destruct (H c0 (or_introl eq_refl)) as [H1 H2].
  rewrite (lower_char_ascii c0 H1 H2), IH by auto. reflexivity.
Qed.

(** X25. The e-mail of the user that is stored, and that the answer
    gives back, is the e-mail of the request in lower case: it holds
    no letter [A]-[Z] and lowering it again changes nothing, so two
    requests whose e-mails differ by case only would store the same
    e-mail.  The password that is stored is the hash, and the name is
    the name of the request or [null]. *)
Theorem register_stores_lower_case_email (w : AuthWorld) (email password name : jsval)
    (users users' : Users) (response : AuthResponse) :
  register w email password name users = (response, users') ->
  auth_status response = 200 ->
  exists user,
    users' = [ user ]
    /\ user_email user = toLowerCase (to_string email)
    /\ toLowerCase (user_email user) = user_email user
    /\ (forall c, In c (list_ascii_of_string (user_email user)) ->
                  in_range "A" "Z" c = false)
    /\ hashPassword w (to_string password) = Ok (user_password user)
    /\ user_name user = or_null name
    /\ auth_body response = Registered (user_id user) (user_email user) (user_name user).
Proof.
  intros Hreg Hok.
  destruct (register_success w email password name users users' response Hreg Hok)
    as (_ & _ & _ & h & t & Hh & _ & -> & ->).
  eexists. split; [reflexivity|]. cbn [user_email user_password user_name user_id auth_body].
  split; [reflexivity|]. split; [apply toLowerCase_idempotent|].
  split; [apply toLowerCase_no_capital|]. split; [exact Hh|]. split; reflexivity.
Qed.

Lemma register_stores_lower_case_email_witness :
  exists response users',
    register DemoAuth.world (Str "Admin@Example.COM") (Str "secret") (Str "Ada") []
    = (response, users')
    /\ auth_status response = 200
    /\ exists user,
         users' = [ user ]
         /\ user_email user = "admin@example.com"
         /\ user_name user = Some "Ada".
Proof.
  eexists. eexists.
  assert (Hreg : register DemoAuth.world (Str "Admin@Example.COM") (Str "secret")
                   (Str "Ada") []
                 = (fst (register DemoAuth.world (Str "Admin@Example.COM") (Str "secret")
                           (Str "Ada") []),
                    snd (register DemoAuth.world (Str "Admin@Example.COM") (Str "secret")
                           (Str "Ada") []))) by reflexivity.
  split; [exact Hreg|]. split; [reflexivity|].
  destruct (register_stores_lower_case_email DemoAuth.world _ _ _ _ _ _ Hreg eq_refl)
    as (user & Hu & He & _ & _ & _ & Hn & _).
  exists user. split; [exact Hu | split; [rewrite He | rewrite Hn]; reflexivity].
Defined.

(** X26. When the registration fails on the way.  If hashing the
    password throws, the answer is 500 and no user is created.  If
    creating the session throws, the answer is 500 with no cookie,
    but the user has been created: the registration is closed from
    then on, although nobody received a session. *)
Theorem register_failure_after_create (w : AuthWorld) (email password name : jsval) :
  truthy_val email = true ->
  truthy_val password = true ->
  (forall e, hashPassword w (to_string password) = Throw e ->
     register w email password name []
     = (auth_error "Internal server error" 500, []))
  /\ (forall h e,
        hashPassword w (to_string password) = Ok h ->
        createSession w (new_id w []) = Throw e ->
        exists user,
          register w email password name []
          = (auth_error "Internal server error" 500, [ user ])
          /\ user_email user = toLowerCase (to_string email)
          /\ auth_body (registration_status [ user ]) = RegistrationStatus false
               "Registration is closed. Contact an administrator to request access."
          /\ fst (register w email password name [ user ])
             = auth_error
                 "Registration is closed. Contact an administrator to request access."
                 403).
Proof.
  intros Te Tp. split.
  - intros e He. unfold register. rewrite Te, Tp. cbn. rewrite He. reflexivity.
  - intros h e Hh Hs. eexists. split; [|split; [|split]].
    + unfold register. rewrite Te, Tp. cbn. rewrite Hh. cbn. rewrite Hs. reflexivity.
    + reflexivity.
    + reflexivity.
    + rewrite register_closed by discriminate. rewrite Te, Tp. reflexivity.
Qed.

Lemma register_failure_after_create_witness :
  truthy_val (Str "admin@example.com") = true
  /\ truthy_val (Str "secret") = true
  /\ createSession DemoAuth.no_sessions (new_id DemoAuth.no_sessions []) = Throw RecordNotFound
  /\ exists user,
       register DemoAuth.no_sessions (Str "admin@example.com") (Str "secret") Undefined []
       = (auth_error "Internal server error" 500, [ user ]).
Proof.
  split; [reflexivity | split; [reflexivity | split; [reflexivity|]]].
  destruct (proj2 (register_failure_after_create DemoAuth.no_sessions
                     (Str "admin@example.com") (Str "secret") Undefined eq_refl eq_refl)
              "hash:secret" RecordNotFound eq_refl eq_refl) as (user & Hrun & _).
  exists user. exact Hrun.
Defined.

(** X27. The answers of the registration are 200, 400 for a missing
    field, 403 and 500; the answer [User already exists] is never
    given, since the look-up by e-mail runs only when the table is
    empty. *)
Theorem register_never_reports_existing_user (w : AuthWorld)
    (email password name : jsval) (users : Users) :
  let response := fst (register w email password name users) in
  auth_body response <> AuthError "User already exists"
  /\ (auth_status response = 200 \/ auth_status response = 400
      \/ auth_status response = 403 \/ auth_status response = 500)
  /\ (auth_status response = 400 ->
      auth_body response = AuthError "Email and password are required").
Proof.
  cbv zeta. unfold register.
  destruct (negb (truthy_val email) || negb (truthy_val password));
    [cbn; repeat split; [discriminate | auto]|].
  destruct users as [|u users]; cbn [count length Nat.ltb Nat.leb];
    [|cbn; repeat split; [discriminate | auto | discriminate]].
  cbn [findUnique find].
  destruct (hashPassword w (to_string password)) as [h|e];
    [|cbn; repeat split; [discriminate | auto | discriminate]].
  cbn [app user_id].
  destruct (createSession w (new_id w [])) as [t|e];
    cbn; repeat split; solve [discriminate | auto].
Qed.

End Registration.
